(** * BringThemHome: the record-reconciliation scripts, embedded and verified

    The scripts under [cleanup_temp/] and [temp_archive/] load a CSV with
    pandas, patch some columns and write the CSV back.  This file embeds
    the functions and loops the specification speaks about and checks the
    specification's properties against them.

    Conventions of the embedding.
    - A Python [str] is a Rocq [string]: the UTF-8 bytes of the text.
      Substring tests ([x in s]) on UTF-8 bytes agree with the tests on
      code points.  [str.strip] drops Unicode white space; the patterns of
      [re] and [strptime] read code points, [\d] being any decimal digit.
      [str.lower] is taken on ASCII, which is what the transliterated
      names hold.
    - A cell of a loaded frame is [NaN] (an empty CSV field) or [Str s].
    - A row (a pandas Series) is a finite map from column names to cells;
      a frame with a RangeIndex is the list of its rows. *)

From Stdlib Require Import ZArith QArith Lia Lqa List Ascii String Bool Arith.
From stdpp Require Import base option list gmap strings.

Local Open Scope string_scope.
Local Open Scope nat_scope.

(** ** Python strings *)

Module Py.

Definition byte (c : ascii) : nat := nat_of_ascii c.

(** The white space of [str.strip] and [str.split] is Unicode's.  In
    ASCII: TAB, LF, VT, FF, CR, FS, GS, RS, US and SPACE. *)
Definition is_space (c : ascii) : bool :=
  let n := byte c in
  ((9 <=? n) && (n <=? 13)) || ((28 <=? n) && (n <=? 32)).

(** In two bytes: U+0085 (C2 85) and U+00A0 (C2 A0). *)
Definition is_space2 (a b : ascii) : bool :=
  (byte a =? 194) && ((byte b =? 133) || (byte b =? 160)).

(** In three bytes: U+1680 (E1 9A 80); U+2000 to U+200A, U+2028, U+2029
    and U+202F (E2 80 and 80 to 8A, A8, A9, AF); U+205F (E2 81 9F);
    U+3000 (E3 80 80). *)
Definition is_space3 (a b c : ascii) : bool :=
  ((byte a =? 225) && (byte b =? 154) && (byte c =? 128))
  || ((byte a =? 226) && (byte b =? 128)
      && (((128 <=? byte c) && (byte c <=? 138))
          || (byte c =? 168) || (byte c =? 169) || (byte c =? 175)))
  || ((byte a =? 226) && (byte b =? 129) && (byte c =? 159))
  || ((byte a =? 227) && (byte b =? 128) && (byte c =? 128)).

(** White space dropped from the front, for the given reading of the
    two- and three-byte sequences. *)
Fixpoint strip_front (sp2 : ascii -> ascii -> bool)
    (sp3 : ascii -> ascii -> ascii -> bool) (s : string) : string :=
  match s with
  | EmptyString => EmptyString
  | String a s1 =>
      if is_space a then strip_front sp2 sp3 s1
      else
        match s1 with
        | String b s2 =>
            if sp2 a b then strip_front sp2 sp3 s2
            else
              match s2 with
              | String c s3 =>
                  if sp3 a b c then strip_front sp2 sp3 s3 else s
              | EmptyString => s
              end
        | EmptyString => s
        end
  end.

Definition lstrip (s : string) : string := strip_front is_space2 is_space3 s.

Fixpoint rev_append (s acc : string) : string :=
  match s with
  | EmptyString => acc
  | String c s' => rev_append s' (String c acc)
  end.

Definition rev (s : string) : string := rev_append s EmptyString.

(** [rstrip]: the same from the back, on the bytes in reverse. *)
Definition rstrip (s : string) : string :=
  rev (strip_front (fun a b => is_space2 b a)
         (fun a b c => is_space3 c b a) (rev s)).

Definition strip (s : string) : string := rstrip (lstrip s).

Definition is_empty (s : string) : bool :=
  match s with EmptyString => true | _ => false end.

(** [p in s] *)
Fixpoint contains (p s : string) : bool :=
  String.prefix p s ||
  match s with
  | String _ s' => contains p s'
  | EmptyString => false
  end.

(** [s.split(sep)] for a one-character separator. *)
Fixpoint split (sep : ascii) (s : string) : list string :=
  match s with
  | EmptyString => [EmptyString]
  | String c s' =>
      if Ascii.eqb c sep then EmptyString :: split sep s'
      else match split sep s' with
           | p :: ps => String c p :: ps
           | [] => [String c EmptyString]
           end
  end.

(** [sep.join(l)] *)
Fixpoint join (sep : string) (l : list string) : string :=
  match l with
  | [] => EmptyString
  | [x] => x
  | x :: rest => x +:+ sep +:+ join sep rest
  end.

(** [x in l] for a list of strings *)
Definition mem (x : string) (l : list string) : bool :=
  existsb (String.eqb x) l.

(** [s.split()[0]]: the first run of characters that are not white space. *)
Fixpoint until_space (s : string) : string :=
  match s with
  | EmptyString => EmptyString
  | String a s1 =>
      if is_space a then EmptyString
      else
        match s1 with
        | String b s2 =>
            if is_space2 a b then EmptyString
            else
              match s2 with
              | String c _ =>
                  if is_space3 a b c then EmptyString
                  else String a (until_space s1)
              | EmptyString => String a (until_space s1)
              end
        | EmptyString => String a EmptyString
        end
  end.

Definition first_word (s : string) : string := until_space (lstrip s).

(** [str.lower] on the ASCII letters. *)
Definition lower_char (c : ascii) : ascii :=
  let n := nat_of_ascii c in
  if (65 <=? n) && (n <=? 90) then ascii_of_nat (n + 32) else c.

Fixpoint lower (s : string) : string :=
  match s with
  | EmptyString => EmptyString
  | String c s' => String (lower_char c) (lower s')
  end.

(** *** Code points

    The patterns of [re] and of [strptime] read a text code point by code
    point. *)

Local Open Scope N_scope.

(** The payload of a continuation byte (80 to BF). *)
Definition continuation (c : ascii) : option N :=
  let n := N_of_ascii c in
  if (128 <=? n) && (n <? 192) then Some (n - 128) else None.

(** The code points of a text from its UTF-8 bytes.  A byte outside a
    well-formed sequence, which no decoded text has, stands for itself out
    of the way (U+DC80 to U+DCFF, as with surrogateescape). *)
Fixpoint codepoints (s : string) : list N :=
  match s with
  | EmptyString => []
  | String a s1 =>
      let n := N_of_ascii a in
      let stray := (56320 + n) :: codepoints s1 in
      if n <? 128 then n :: codepoints s1
      else
        match s1 with
        | String b s2 =>
            match continuation b with
            | Some x =>
                if (194 <=? n) && (n <? 224)
                then ((n - 192) * 64 + x) :: codepoints s2
                else
                  match s2 with
                  | String c s3 =>
                      match continuation c with
                      | Some y =>
                          let cp3 := (n - 224) * 4096 + x * 64 + y in
                          if (224 <=? n) && (n <? 240) && (2048 <=? cp3)
                             && negb ((55296 <=? cp3) && (cp3 <? 57344))
                          then cp3 :: codepoints s3
                          else
                            match s3 with
                            | String d s4 =>
                                match continuation d with
                                | Some z =>
                                    let cp4 := (n - 240) * 262144
                                               + x * 4096 + y * 64 + z in
                                    if (240 <=? n) && (n <? 245)
                                       && (65536 <=? cp4)
                                       && (cp4 <? 1114112)
                                    then cp4 :: codepoints s4
                                    else stray
                                | None => stray
                                end
                            | EmptyString => stray
                            end
                      | None => stray
                      end
                  | EmptyString => stray
                  end
            | None => stray
            end
        | EmptyString => stray
        end
  end.

(** The decimal digits, the class [\d] of a [str] pattern and what [int]
    reads: 66 runs of ten code points, given by their zeros (Unicode 14). *)
Definition decimal_zeros : list N :=
  [
    48; 1632; 1776; 1984; 2406; 2534; 2662; 2790; 2918; 3046; 3174; 3302;
    3430; 3558; 3664; 3792; 3872; 4160; 4240; 6112; 6160; 6470; 6608; 6784;
    6800; 6992; 7088; 7232; 7248; 42528; 43216; 43264; 43472; 43504; 43600;
    44016; 65296; 66720; 68912; 69734; 69872; 69942; 70096; 70384; 70736;
    70864; 71248; 71360; 71472; 71904; 72016; 72784; 73040; 73120; 92768;
    92864; 93008; 120782; 120792; 120802; 120812; 120822; 123200; 123632;
    125264; 130032
  ].

Definition zero_of (cp : N) : option N :=
  List.find (fun z => (z <=? cp) && (cp <? z + 10)) decimal_zeros.

Definition is_digit (cp : N) : bool :=
  match zero_of cp with Some _ => true | None => false end.

Definition digit_val (cp : N) : Z :=
  match zero_of cp with Some z => Z.of_N (cp - z) | None => 0%Z end.

(** The ASCII classes [[0-1]], [[1-9]] and the like. *)
Definition in_range (lo hi : ascii) (cp : N) : bool :=
  (N_of_ascii lo <=? cp) && (cp <=? N_of_ascii hi).

Definition is_char (c : ascii) (cp : N) : bool := cp =? N_of_ascii c.

Local Close Scope N_scope.

Definition digit_char (n : Z) : ascii := ascii_of_nat (Z.to_nat (48 + n)).

End Py.

(** ** Cells of a loaded frame *)

Inductive cell :=
| NaN
| Str (s : string).

#[global] Instance cell_eq_dec : EqDecision cell.
Proof. solve_decision. Defined.

(** [pd.isna] *)
Definition isna (c : cell) : bool :=
  match c with NaN => true | Str _ => false end.

(** [str(x)] of a cell: a missing value prints as ['nan']. *)
Definition str (c : cell) : string :=
  match c with NaN => "nan" | Str s => s end.

(** ** Rows, frames and the exceptions of a run *)

(** A row as [iterrows] yields it: column name to cell. *)
Abbreviation row := (gmap string cell).

(** A frame with a RangeIndex: its columns and its rows, in file order. *)
Record frame := mkframe { columns : list string; rows : list row }.

(** A script either runs to its [to_csv] or dies on an uncaught exception;
    the ones these loops can raise are KeyError (a column that is not
    there) and IndexError ([.index[0]] or [.iloc[0]] of an empty selection). *)
Inductive result (A : Type) :=
| Ok (a : A)
| KeyError (col : string)
| IndexError.
Arguments Ok {A} a.
Arguments KeyError {A} col.
Arguments IndexError {A}.

#[global] Instance result_bind : MBind result := fun A B k m =>
  match m with
  | Ok a => k a
  | KeyError col => KeyError col
  | IndexError => IndexError
  end.

(** A script that saves files on its way: the frames handed to [to_csv],
    in order, and the exception that ended the run, if one did. *)
Inductive exn :=
| KeyErr (col : string)
| IndexErr
| ZeroDivisionErr.

Record outcome := mkoutcome {
  saved : list (string * frame);
  raised : option exn }.

(** [row[col]] *)
Definition getitem (r : row) (col : string) : result cell :=
  match r !! col with
  | Some c => Ok c
  | None => KeyError col
  end.

(** [row.get(col)]: None for a missing column, which [pd.isna] and
    [pd.notna] treat like NaN. *)
Definition get (r : row) (col : string) : cell := default NaN (r !! col).

(** [str(row.get(col, ''))] *)
Definition get_str (r : row) (col : string) : string :=
  match r !! col with
  | Some c => str c
  | None => ""
  end.

(** [df[col] == v], element by element: NaN equals nothing. *)
Definition cell_eqb (c : cell) (v : cell) : bool :=
  match c, v with
  | Str a, Str b => String.eqb a b
  | _, _ => false
  end.

(** [df[df[col] == v]]: the rows selected, with their index labels. *)
Definition select (df : frame) (col : string) (v : cell)
  : result (list (nat * row)) :=
  if decide (col ∈ columns df)
  then Ok (filter (fun ir => Is_true (cell_eqb (get (snd ir) col) v))
                  (imap (fun i r => (i, r)) (rows df)))
  else KeyError col.

(** [df.at[idx, col] = v].  A column that is not there yet is added to the
    frame, empty in every other row. *)
Definition at_set (df : frame) (idx : nat) (col : string) (v : cell) : frame :=
  if decide (col ∈ columns df)
  then mkframe (columns df) (alter (insert col v) idx (rows df))
  else mkframe (columns df ++ [col])
         (alter (insert col v) idx (insert col NaN <$> rows df)).

(** What pandas keeps true of every frame: each row has exactly the
    columns of the frame. *)
Definition wf_frame (df : frame) : Prop :=
  forall r, r ∈ rows df -> forall col, col ∈ columns df <-> is_Some (r !! col).

Definition wf_frameb (df : frame) : bool :=
  forallb (fun r : row =>
             bool_decide (dom r = (list_to_set (columns df) : gset string)))
          (rows df).

(** What [read_csv] builds from a header and the cells of each line. *)
Definition mkrow (cols : list string) (cells : list cell) : row :=
  list_to_map (zip cols cells).

Definition frame_of (cols : list string) (lines : list (list cell)) : frame :=
  mkframe cols (mkrow cols <$> lines).

(** The citations of a 'Citation URLs' text, read as the scripts read it:
    none when the text is empty or 'nan', else the pieces between
    semicolons, stripped. *)
Definition citation_urls (text : string) : list string :=
  if Py.is_empty text || String.eqb text "nan" then []
  else map Py.strip (Py.split ";" text).

(** [df.at[idx, col]], read. *)
Definition at_get (df : frame) (idx : nat) (col : string) : result cell :=
  if decide (col ∈ columns df)
  then match rows df !! idx with
       | Some r => Ok (get r col)
       | None => KeyError col
       end
  else KeyError col.

(** [df[df[col] == v].index[0]] *)
Definition first_index (df : frame) (col : string) (v : cell) : result nat :=
  matches ← select df col v;
  match matches with
  | (i, _) :: _ => Ok i
  | [] => IndexError
  end.

(** The way every script adds citations: after the text that is there,
    or in its place when that text is empty or 'nan'. *)
Definition add_citations (current_citations added : string) : string :=
  if negb (Py.is_empty current_citations)
     && negb (String.eqb current_citations "nan")
  then current_citations +:+ "; " +:+ added
  else added.

(** ** Calendar dates, [datetime.strptime] and [strftime] *)

Local Open Scope Z_scope.

Record date := mkdate { year : Z; month : Z; day : Z }.

Definition is_leap (y : Z) : bool :=
  (y mod 4 =? 0) && (negb (y mod 100 =? 0) || (y mod 400 =? 0)).

Definition days_in_month (y m : Z) : Z :=
  match m with
  | 2 => if is_leap y then 29 else 28
  | 4 | 6 | 9 | 11 => 30
  | _ => 31
  end.

(** The checks of the [datetime] constructor (MINYEAR = 1, MAXYEAR = 9999). *)
Definition valid_date (d : date) : bool :=
  (1 <=? year d) && (year d <=? 9999) &&
  (1 <=? month d) && (month d <=? 12) &&
  (1 <=? day d) && (day d <=? days_in_month (year d) (month d)).

(** Calendar order. *)
Definition date_leb (a b : date) : bool :=
  (year a <? year b) ||
  ((year a =? year b) &&
   ((month a <? month b) || ((month a =? month b) && (day a <=? day b)))).

(** The earliest date the scripts attach to a hostage: the 2014 operation,
    dated '2014-07-20' by comprehensive_data_extraction.py.  No kidnapping
    of the data set is earlier. *)
Definition earliest_kidnapping : date := mkdate 2014 7 20.

(** The directives used by the scripts' formats. *)
Inductive directive :=
| Dd            (* %d *)
| Dm            (* %m *)
| DY            (* %Y *)
| Lit (c : ascii).

(** [strptime] turns a format into a regular expression and matches it
    with backtracking; each directive lists its alternatives in the order
    the expression tries them, with the value [int] reads from the text
    matched and the code points left over.  The classes written with
    brackets are ASCII; [\d] is any decimal digit. *)

Definition ascii_val (cp : N) : Z := Z.of_N cp - 48.

(** %d is [3[0-1]|[1-2]\d|0[1-9]|[1-9]| [1-9]] *)
Definition alts_d (s : list N) : list (Z * list N) :=
  match s with
  | a :: r =>
      (match r with
       | b :: r' =>
           (if Py.is_char "3" a && Py.in_range "0" "1" b
            then [(30 + ascii_val b, r')] else []) ++
           (if Py.in_range "1" "2" a && Py.is_digit b
            then [(10 * ascii_val a + Py.digit_val b, r')] else []) ++
           (if Py.is_char "0" a && Py.in_range "1" "9" b
            then [(ascii_val b, r')] else [])
       | [] => []
       end) ++
      (if Py.in_range "1" "9" a then [(ascii_val a, r)] else []) ++
      (match r with
       | b :: r' =>
           if Py.is_char " " a && Py.in_range "1" "9" b
           then [(ascii_val b, r')] else []
       | [] => []
       end)
  | [] => []
  end.

(** %m is [1[0-2]|0[1-9]|[1-9]] *)
Definition alts_m (s : list N) : list (Z * list N) :=
  match s with
  | a :: r =>
      (match r with
       | b :: r' =>
           (if Py.is_char "1" a && Py.in_range "0" "2" b
            then [(10 + ascii_val b, r')] else []) ++
           (if Py.is_char "0" a && Py.in_range "1" "9" b
            then [(ascii_val b, r')] else [])
       | [] => []
       end) ++
      (if Py.in_range "1" "9" a then [(ascii_val a, r)] else [])
  | [] => []
  end.

(** %Y is [\d\d\d\d] *)
Definition alts_Y (s : list N) : list (Z * list N) :=
  match s with
  | a :: b :: c :: d :: r =>
      if Py.is_digit a && Py.is_digit b && Py.is_digit c && Py.is_digit d
      then [(1000 * Py.digit_val a + 100 * Py.digit_val b
             + 10 * Py.digit_val c + Py.digit_val d, r)]
      else []
  | _ => []
  end.

(** [strptime] starts from 1900-01-01 and overwrites what the format names. *)
Definition set_field (dir : directive) (v : Z) (d : date) : date :=
  match dir with
  | Dd => mkdate (year d) (month d) v
  | Dm => mkdate (year d) v (day d)
  | DY => mkdate v (month d) (day d)
  | Lit _ => d
  end.

Definition alts (dir : directive) (s : list N) : list (Z * list N) :=
  match dir with
  | Dd => alts_d s
  | Dm => alts_m s
  | DY => alts_Y s
  | Lit c =>
      match s with
      | c' :: r => if Py.is_char c c' then [(0, r)] else []
      | [] => []
      end
  end.

(** All the ways the expression of [f] matches a prefix of [s], first
    choice first, with the fields read and the code points left over. *)
Fixpoint re_match (f : list directive) (acc : date) (s : list N)
  : list (date * list N) :=
  match f with
  | [] => [(acc, s)]
  | dir :: f' =>
      flat_map (fun vr => re_match f' (set_field dir (fst vr) acc) (snd vr))
               (alts dir s)
  end.

(** [datetime.strptime(s, f)]: [None] stands for the ValueError raised when
    the text does not match, when text is left over after the match, or
    when the fields are not a calendar date. *)
Definition strptime (f : list directive) (s : string) : option date :=
  match re_match f (mkdate 1900 1 1) (Py.codepoints s) with
  | (d, []) :: _ => if valid_date d then Some d else None
  | _ => None
  end.

Definition pad2 (n : Z) : string :=
  String (Py.digit_char (n / 10 mod 10))
    (String (Py.digit_char (n mod 10)) EmptyString).

(** %Y as the C library writes it: the year in decimal, not padded. *)
Definition year_text (y : Z) : string :=
  (if 1000 <=? y then String (Py.digit_char (y / 1000 mod 10)) EmptyString
   else EmptyString)
  +:+ (if 100 <=? y then String (Py.digit_char (y / 100 mod 10)) EmptyString
       else EmptyString)
  +:+ (if 10 <=? y then String (Py.digit_char (y / 10 mod 10)) EmptyString
       else EmptyString)
  +:+ String (Py.digit_char (y mod 10)) EmptyString.

(** [d.strftime('%Y-%m-%d')] for a date of the years 1 to 9999. *)
Definition strftime (d : date) : string :=
  year_text (year d) +:+ "-" +:+ pad2 (month d) +:+ "-" +:+ pad2 (day d).

Local Close Scope Z_scope.

(** ** cleanup_temp/validated_archive_import.py *)

Module ValidatedImport.

Definition fmt_iso : list directive := [DY; Lit "-"; Dm; Lit "-"; Dd].
Definition fmt_dmy : list directive := [Dd; Lit "/"; Dm; Lit "/"; DY].
Definition fmt_mdy : list directive := [Dm; Lit "/"; Dd; Lit "/"; DY].
Definition fmt_ymd : list directive := [DY; Lit "/"; Dm; Lit "/"; Dd].
Definition fmt_dmy_dash : list directive := [Dd; Lit "-"; Dm; Lit "-"; DY].

(** formats = ['%d/%m/%Y', '%m/%d/%Y', '%Y/%m/%d', '%d-%m-%Y'] *)
Definition formats : list (list directive) :=
  [fmt_dmy; fmt_mdy; fmt_ymd; fmt_dmy_dash].

(** [re.match(r'^\d{4}-\d{2}-\d{2}$', s)] on stripped text, which has no
    line end for [$] to stop before. *)
Definition iso_shape (s : string) : bool :=
  match Py.codepoints s with
  | [y1; y2; y3; y4; h1; m1; m2; h2; d1; d2] =>
      Py.is_digit y1 && Py.is_digit y2 && Py.is_digit y3 && Py.is_digit y4
      && Py.is_char "-" h1 && Py.is_digit m1 && Py.is_digit m2
      && Py.is_char "-" h2 && Py.is_digit d1 && Py.is_digit d2
  | _ => false
  end.

(** The loop over [formats]: the first format that parses wins. *)
Fixpoint try_formats (fs : list (list directive)) (s : string) : option string :=
  match fs with
  | [] => None
  | f :: fs' =>
      match strptime f s with
      | Some parsed => Some (strftime parsed)
      | None => try_formats fs' s
      end
  end.

Definition validate_date_format (c : cell) : option string :=
  if isna c || String.eqb (str c) "nan" then None
  else
    let date_str := Py.strip (str c) in
    if Py.is_empty date_str then None
    else if iso_shape date_str then
      match strptime fmt_iso date_str with
      | Some _ => Some date_str
      | None => None
      end
    else try_formats formats date_str.

(** The eleven categories of [valid_categories]. *)
Definition valid_categories : list string :=
  [ "Returned in Deal";
    "Returned in Deal - Body";
    "Returned in Military Operation";
    "Returned in Military Operation - Body";
    "Died Before/During Kidnapping";
    "Died in Captivity - Unknown Circumstances";
    "Died in Captivity - Killed by IDF";
    "Died in Captivity - Hunger/Conditions";
    "Died in Captivity - Killed by Hamas";
    "Died in Captivity - Killed by Fleeing Hamas";
    "Died in Captivity - Unprovoked Execution" ].

(** The dict [mapping] of 'common variations'. *)
Definition mapping : gmap string (option string) :=
  list_to_map
    [ ("Released via deal", Some "Returned in Deal");
      ("Released in deal", Some "Returned in Deal");
      ("Killed in captivity by captors",
         Some "Died in Captivity - Killed by Hamas");
      ("Still in captivity", None);
      ("Body returned in deal", Some "Returned in Deal - Body");
      ("Military recovery", Some "Returned in Military Operation - Body") ].

Definition validate_circumstances_category (c : cell) : option string :=
  if isna c || Py.is_empty (Py.strip (str c)) then None
  else
    let circumstances_str := Py.strip (str c) in
    if Py.mem circumstances_str valid_categories then Some circumstances_str
    else default None (mapping !! circumstances_str).

(** The two [generic_patterns], after the common opening [^https?://]:
    [[^/]+/?$] and [[^/]+/#?$]. *)
Fixpoint host_span (s : string) : string * string :=
  match s with
  | EmptyString => (EmptyString, EmptyString)
  | String c s' =>
      if Ascii.eqb c "/" then (EmptyString, s)
      else let (h, t) := host_span s' in (String c h, t)
  end.

Definition after_http (s : string) : option string :=
  match s with
  | String "h" (String "t" (String "t" (String "p" r))) =>
      let r' := match r with String "s" r' => r' | _ => r end in
      match r' with
      | String ":" (String "/" (String "/" t)) => Some t
      | _ => None
      end
  | _ => None
  end.

Definition is_generic (url : string) : bool :=
  match after_http url with
  | Some t =>
      let (h, tail) := host_span t in
      negb (Py.is_empty h) &&
      (String.eqb tail "" || String.eqb tail "/" || String.eqb tail "/#")
  | None => false
  end.

(** What [urlparse] answers on the URLs of the worked examples: a text
    that opens with http:// or https:// has a scheme, and a netloc when a
    character other than '/', '?' and '#' follows. *)
Definition http_urlparse_ok (url : string) : bool :=
  match after_http url with
  | Some (String c _) =>
      negb (Ascii.eqb c "/" || Ascii.eqb c "?" || Ascii.eqb c "#")
  | _ => false
  end.

(** The guard [pd.isna(x) or str(x) == 'nan']. *)
Definition empty_cell (c : cell) : bool :=
  isna c || String.eqb (str c) "nan".

(** The columns the loop fills only when they are empty. *)
Definition guarded_columns : list string :=
  [ "Date of Death"; "Release Date"; "Context of Death";
    "Release/Death Circumstances"; "Countries Involved in Deals" ].

Section WithUrlparse.

(** [urllib.parse.urlparse] is library code: its verdict, a scheme and a
    netloc both present and no exception raised, is a parameter. *)
Variable urlparse_ok : string -> bool.

(** [validate_url] on a [str] argument. *)
Definition validate_url (url : string) : bool :=
  if Py.is_empty (Py.strip url) then false
  else
    let url := Py.strip url in
    if negb (urlparse_ok url) then false
    else negb (is_generic url).

(** One guarded field: looked at only when the current cell is empty; the
    validator's answer is kept when it is truthy ([if death_date:]). *)
Definition import_validated (validate : cell -> option string)
    (col : string) (current : cell) (archive_row : row)
  : list (string * string) :=
  if empty_cell current then
    match validate (get archive_row col) with
    | Some v => if Py.is_empty v then [] else [(col, v)]
    | None => []
    end
  else [].

(** The URLs of the archive row that pass and are not yet in the text. *)
Definition new_urls (current_citations archive_citations : string)
  : list string :=
  List.filter
    (fun url => validate_url url && negb (Py.contains url current_citations))
    (map Py.strip (Py.split ";" archive_citations)).

Definition import_citations (current_row archive_row : row)
  : list (string * string) :=
  let current_citations := get_str current_row "Citation URLs" in
  let archive_citations := get_str archive_row "Citation URLs" in
  if negb (Py.is_empty archive_citations)
     && negb (String.eqb archive_citations "nan") then
    match new_urls current_citations archive_citations with
    | [] => []
    | urls =>
        [("Citation URLs",
          add_citations current_citations (Py.join "; " urls))]
    end
  else [].

Definition import_countries (current : cell) (archive_row : row)
  : list (string * string) :=
  if empty_cell current then
    let countries := get archive_row "Countries Involved in Deals" in
    if negb (isna countries)
       && negb (Py.is_empty (Py.strip (str countries)))
       && negb (String.eqb (str countries) "nan")
    then [("Countries Involved in Deals", Py.strip (str countries))]
    else []
  else [].

(** The body of the loop for one row: the dict [import_data], in insertion
    order.  A row without an archive match is skipped. *)
Definition import_data (archive_df : frame) (current_row : row)
  : result (list (string * string)) :=
  hebrew_name ← getitem current_row "Hebrew Name";
  archive_matches ← select archive_df "Hebrew Name" hebrew_name;
  match archive_matches with
  | [] => Ok []
  | (_, archive_row) :: _ =>
      death ← getitem current_row "Date of Death";
      release ← getitem current_row "Release Date";
      context ← getitem current_row "Context of Death";
      circumstances ← getitem current_row "Release/Death Circumstances";
      countries ← getitem current_row "Countries Involved in Deals";
      Ok (import_validated validate_date_format "Date of Death"
            death archive_row
          ++ import_validated validate_date_format "Release Date"
               release archive_row
          ++ import_validated validate_circumstances_category
               "Context of Death" context archive_row
          ++ import_validated validate_circumstances_category
               "Release/Death Circumstances" circumstances archive_row
          ++ import_citations current_row archive_row
          ++ import_countries countries archive_row)%list
  end.

(** [for field, value in import_data.items(): current_df.at[idx, field] = value] *)
Definition apply_import (df : frame) (idx : nat)
    (data : list (string * string)) : frame :=
  foldl (fun df fv => at_set df idx (fst fv) (Str (snd fv))) df data.

(** The loop over [current_df.iterrows()]: the rows are those the frame had
    when the loop began, the writes go to the frame. *)
Fixpoint import_rows (archive_df : frame) (pending : list (nat * row))
    (df : frame) : result frame :=
  match pending with
  | [] => Ok df
  | (idx, current_row) :: pending' =>
      data ← import_data archive_df current_row;
      import_rows archive_df pending' (apply_import df idx data)
  end.

(** The script from the load to the frame handed to [to_csv]. *)
Definition validated_archive_import (archive_df current_df : frame)
  : result frame :=
  import_rows archive_df (imap (fun i r => (i, r)) (rows current_df))
    current_df.

(** [imported_entries]: the index of every row whose [import_data] is not
    empty ('Row' is the index plus 2, taken back at line 230). *)
Fixpoint imported_entries (archive_df : frame) (pending : list (nat * row))
  : result (list nat) :=
  match pending with
  | [] => Ok []
  | (idx, current_row) :: pending' =>
      data ← import_data archive_df current_row;
      rest ← imported_entries archive_df pending';
      Ok (match data with [] => rest | _ => idx :: rest end)
  end.

(** Lines 229-235 for one entry; [today] is
    [datetime.now().strftime('%Y-%m-%d')]. *)
Definition track_entry (today : string) (tracking_df : frame) (row_idx : nat)
  : frame :=
  if row_idx <? length (rows tracking_df) then
    let df := at_set tracking_df row_idx "Research Status" (Str "Completed") in
    let df := at_set df row_idx "Date Researched" (Str today) in
    let df := at_set df row_idx "Validation Status" (Str "Validated") in
    at_set df row_idx "Research Notes"
      (Str "Data imported from archive with validation")
  else tracking_df.

(** What can end the run at the progress summary: the column the counts
    of the dict [progress] are taken from (lines 249-252) and the division
    of line 255.  The numbers written to progress_summary.json are left
    out. *)
Definition progress (current_df tracking_df : frame) : option exn :=
  match select tracking_df "Research Status" (Str "Not Started") with
  | Ok _ =>
      if length (rows current_df) =? 0 then Some ZeroDivisionErr else None
  | KeyError col => Some (KeyErr col)
  | IndexError => Some IndexErr
  end.

(** The script from the first line to the last. *)
Definition validated_archive_import_script (today : string)
    (archive_df current_df tracking_df : frame) : outcome :=
  match (df ← validated_archive_import archive_df current_df;
         entries ← imported_entries archive_df
                     (imap (fun i r => (i, r)) (rows current_df));
         Ok (df, entries)) with
  | Ok (df, entries) =>
      let tracking := foldl (track_entry today) tracking_df entries in
      mkoutcome [("hostages-from-kan.csv", df);
                 ("master_tracking.csv", tracking)]
        (progress df tracking)
  | KeyError col => mkoutcome [] (Some (KeyErr col))
  | IndexError => mkoutcome [] (Some IndexErr)
  end.

End WithUrlparse.

End ValidatedImport.


(** ** cleanup_temp/properly_import_releases.py *)

Module ProperlyImport.

(** The rows of [archive_released]. *)
Definition archive_released (archive_df : frame) : result (list row) :=
  if decide ("Release Date" ∈ columns archive_df)
  then Ok (List.filter
             (fun a =>
                let d := get a "Release Date" in
                negb (isna d) &&
                negb (Py.mem (str d)
                        ["Body held"; "Released/Death circumstances";
                         "Still in captivity"]))
             (rows archive_df))
  else KeyError "Release Date".

(** The dict [name_mappings]: each of the five names is mapped to itself. *)
Definition name_mappings : gmap string string :=
  list_to_map
    [ ("אמילי דמארי", "אמילי דמארי");
      ("רומי גונן", "רומי גונן");
      ("לירי אלבג", "לירי אלבג");
      ("קארינה אריב", "קארינה אריב");
      ("נעמה לוי", "נעמה לוי") ].

(** Strategy 2: the first row whose Hebrew summary holds the first word of
    the English name, lower-cased. *)
Fixpoint partial_match (word : string) (indexed : list (nat * row))
  : option nat :=
  match indexed with
  | [] => None
  | (idx, r) :: rest =>
      let hebrew_summary := get_str r "Kidnapping Summary (Hebrew)" in
      if Py.contains word (Py.lower hebrew_summary) then Some idx
      else partial_match word rest
  end.

Definition find_match (current_df : frame) (archive_hebrew archive_english : string)
  : result (option nat) :=
  exact_match ← select current_df "Hebrew Name" (Str archive_hebrew);
  let current_match :=
    match exact_match with
    | (i, _) :: _ => Some i
    | [] =>
        if negb (Py.is_empty archive_english)
           && negb (String.eqb archive_english "nan")
        then partial_match (Py.lower (Py.first_word archive_english))
               (imap (fun i r => (i, r)) (rows current_df))
        else None
    end in
  match current_match, name_mappings !! archive_hebrew with
  | None, Some mapped_name =>
      mapped_match ← select current_df "Hebrew Name" (Str mapped_name);
      Ok (match mapped_match with
          | (i, _) :: _ => Some i
          | [] => None
          end)
  | _, _ => Ok current_match
  end.

(** Lines 75-90: the update of the matched row. *)
Definition update_match (current_df : frame) (current_match : nat)
    (archive_row : row) (release_date release_circumstances : cell)
  : result frame :=
  current_status ← at_get current_df current_match "Current Status";
  let df := at_set current_df current_match "Current Status" (Str "Released") in
  let df := at_set df current_match "Release Date" release_date in
  let df := at_set df current_match "Release/Death Circumstances"
              release_circumstances in
  let archive_citations := get_str archive_row "Citation URLs" in
  if negb (Py.is_empty archive_citations)
     && negb (String.eqb archive_citations "nan")
  then
    current_citations ← at_get df current_match "Citation URLs";
    Ok (at_set df current_match "Citation URLs"
          (Str (add_citations (str current_citations) archive_citations)))
  else Ok df.

(** The body of the first loop for one archive row. *)
Definition import_release (current_df : frame) (archive_row : row)
  : result frame :=
  hebrew ← getitem archive_row "Hebrew Name";
  let archive_hebrew := Py.strip (str hebrew) in
  let archive_english := Py.strip (get_str archive_row "Hostage Name") in
  release_date ← getitem archive_row "Release Date";
  release_circumstances ← getitem archive_row "Release/Death Circumstances";
  if isna release_date
     || Py.mem (str release_date) ["Body held"; "Still in captivity"]
  then Ok current_df
  else
    current_match ← find_match current_df archive_hebrew archive_english;
    match current_match with
    | Some idx =>
        update_match current_df idx archive_row release_date
          release_circumstances
    | None => Ok current_df
    end.

Fixpoint import_releases (archive_rows : list row) (current_df : frame)
  : result frame :=
  match archive_rows with
  | [] => Ok current_df
  | archive_row :: rest =>
      df ← import_release current_df archive_row;
      import_releases rest df
  end.

(** release_indicators = ['שוחרר', 'שוחררה', 'שחרור'] *)
Definition release_indicators : list string := ["שוחרר"; "שוחררה"; "שחרור"].

(** The second loop, over the rows as they stand after the first. *)
Definition hebrew_text_release (df : frame) (idx : nat) (r : row)
  : result frame :=
  status ← getitem r "Current Status";
  if Py.mem (str status) ["Unknown"; "Held in Gaza"] && negb (isna status) then
    let hebrew_summary := get_str r "Kidnapping Summary (Hebrew)" in
    if existsb (fun indicator => Py.contains indicator hebrew_summary)
         release_indicators
    then
      let df := at_set df idx "Current Status" (Str "Released") in
      circumstances ← getitem r "Release/Death Circumstances";
      let df := if isna circumstances
                then at_set df idx "Release/Death Circumstances"
                       (Str "Released via deal")
                else df in
      release ← getitem r "Release Date";
      Ok (if isna release
          then at_set df idx "Release Date" (Str "2023-11-24")
          else df)
    else Ok df
  else Ok df.

Fixpoint hebrew_text_releases (pending : list (nat * row)) (df : frame)
  : result frame :=
  match pending with
  | [] => Ok df
  | (idx, r) :: rest =>
      df' ← hebrew_text_release df idx r;
      hebrew_text_releases rest df'
  end.

(** The script from the load to the frame handed to [to_csv]. *)
Definition properly_import_releases (archive_df current_df : frame)
  : result frame :=
  released ← archive_released archive_df;
  df ← import_releases released current_df;
  hebrew_text_releases (imap (fun i r => (i, r)) (rows df)) df.

End ProperlyImport.

(** ** cleanup_temp/update_hersh_goldberg_polin.py *)

Module UpdateHersh.

Definition hebrew_name : string := "הירש גולדברג פולין".

Definition new_citations : list string :=
  [ "https://en.wikipedia.org/wiki/Kidnapping_and_killing_of_Hersh_Goldberg-Polin";
    "https://www.timesofisrael.com/liveblog_entry/thousands-salute-funeral-procession-of-murdered-hostage-hersh-goldberg-polin/" ].

(** The main CSV from the load to [to_csv]; the tracking frame is only
    consulted for the row it must have. *)
Definition update_hersh (current_df tracking_df : frame) : result frame :=
  hersh_main_idx ← first_index current_df "Hebrew Name" (Str hebrew_name);
  hersh_tracking_idx ← first_index tracking_df "Hebrew Name" (Str hebrew_name);
  let df := at_set current_df hersh_main_idx "Context of Death"
              (Str "Died in Captivity - Unprovoked Execution") in
  let df := at_set df hersh_main_idx "Release Date" (Str "2024-08-31") in
  let df := at_set df hersh_main_idx "Release/Death Circumstances"
              (Str "Returned in Military Operation - Body") in
  current_citations ← at_get df hersh_main_idx "Citation URLs";
  Ok (at_set df hersh_main_idx "Citation URLs"
        (Str (add_citations (str current_citations)
                (Py.join "; " new_citations)))).

End UpdateHersh.

(** ** cleanup_temp/add_research_to_main.py *)

Module AddResearch.

Definition hebrew_name : string := "אילן וייס".

Definition researched_citations : string :=
  "https://www.kan.org.il/content/kan-news/defense/946446/; https://www.jpost.com/israel-news/article-865713".

(** The five cells printed before the update, in order. *)
Definition printed_columns : list string :=
  [ "Date of Death"; "Context of Death"; "Release Date";
    "Release/Death Circumstances"; "Citation URLs" ].

Fixpoint print_cells (df : frame) (idx : nat) (cols : list string)
  : result (list cell) :=
  match cols with
  | [] => Ok []
  | col :: cols' =>
      c ← at_get df idx col;
      rest ← print_cells df idx cols';
      Ok (c :: rest)
  end.

(** The script from the load to the frame handed to [to_csv]. *)
Definition add_research_to_main (df : frame) : result frame :=
  ilan_row ← first_index df "Hebrew Name" (Str hebrew_name);
  before ← print_cells df ilan_row printed_columns;
  let df := at_set df ilan_row "Date of Death" (Str "2023-10-07") in
  let df := at_set df ilan_row "Context of Death"
              (Str "Died Before/During Kidnapping") in
  let df := at_set df ilan_row "Release Date" (Str "2025-08-29") in
  let df := at_set df ilan_row "Release/Death Circumstances"
              (Str "Returned in Military Operation - Body") in
  let df := at_set df ilan_row "Citation URLs" (Str researched_citations) in
  Ok df.

End AddResearch.

(** ** Loops over [df.iterrows()] that write cell by cell *)

(** [for field, value in writes: df.at[idx, field] = value] *)
Definition apply_writes (df : frame) (idx : nat)
    (writes : list (string * cell)) : frame :=
  foldl (fun df fv => at_set df idx (fst fv) (snd fv)) df writes.

(** The cell a run of writes leaves in column [col] of the row written to,
    over the cell [c] that was there. *)
Definition written (writes : list (string * cell)) (col : string) (c : cell)
  : cell :=
  foldl (fun c fv => if decide (fst fv = col) then snd fv else c) c writes.

(** A loop whose body reads the row [iterrows] gave it and writes to the
    frame at that row's index. *)
Fixpoint for_rows (body : row -> result (list (string * cell)))
    (pending : list (nat * row)) (df : frame) : result frame :=
  match pending with
  | [] => Ok df
  | (idx, r) :: pending' =>
      writes ← body r;
      for_rows body pending' (apply_writes df idx writes)
  end.

Definition iterrows (df : frame) : list (nat * row) :=
  imap (fun i r => (i, r)) (rows df).

(** [df.to_csv] followed by [pd.read_csv], cell by cell: an empty text and
    the texts pandas reads as missing come back as NaN. *)
Definition na_values : list string :=
  [ ""; "#N/A"; "#N/A N/A"; "#NA"; "-1.#IND"; "-1.#QNAN"; "-NaN"; "-nan";
    "1.#IND"; "1.#QNAN"; "<NA>"; "N/A"; "NA"; "NULL"; "NaN"; "None"; "n/a";
    "nan"; "null" ].

Definition reload_cell (c : cell) : cell :=
  match c with
  | NaN => NaN
  | Str s => if Py.mem s na_values then NaN else Str s
  end.

Definition reload (df : frame) : frame :=
  mkframe (columns df)
    ((fun r : row => (reload_cell <$> r : row)) <$> rows df).

(** [status in ['X']] and [status == 'X'] for a cell. *)
Definition status_is (status : cell) (s : string) : bool :=
  cell_eqb status (Str s).

(** ** cleanup_temp/comprehensive_data_extraction.py *)

Module Extraction.

(** The dict [date_patterns], in the order it is written. *)
Definition date_patterns : list (string * string) :=
  [ ("ב-29.8.25", "2025-08-29"); ("ב-22.6.25", "2025-06-22");
    ("ב-11.06.25", "2025-06-11"); ("ב-07.06.25", "2025-06-07");
    ("ב-05.06.25", "2025-06-05"); ("ב-27.2.25", "2025-02-27");
    ("ב-19.1.25", "2025-01-19"); ("ב-8.1.25", "2025-01-08");
    ("ב-4.12.24", "2024-12-04"); ("ב-31.8.24", "2024-08-31");
    ("ב-20.8.24", "2024-08-20"); ("ב-24.07.24", "2024-07-24");
    ("ב-24.7.24", "2024-07-24") ].

(** The [for pattern, date in date_patterns.items()] loop with its break. *)
Fixpoint first_pattern (patterns : list (string * string)) (text : string)
  : option string :=
  match patterns with
  | [] => None
  | (pattern, date) :: rest =>
      if Py.contains pattern text then Some date else first_pattern rest text
  end.

(** The body of the loop: the cells it writes, in order.  [updated] is the
    one flag of the row, set by every section that writes. *)
Definition extract_row (r : row) : result (list (string * cell)) :=
  hebrew_name ← getitem r "Hebrew Name";
  current_status ← getitem r "Current Status";
  let full_text :=
    Py.join " " [ get_str r "Hebrew Description Short";
                  get_str r "Hebrew Description Long";
                  get_str r "Kidnapping Summary (Hebrew)" ] in
  let has := fun p => Py.contains p full_text in
  let updated := false in
  (* DEATH DATE EXTRACTION *)
  death ← getitem r "Date of Death";
  let '(w_death, updated) :=
    if isna death then
      if has "ב-7 באוקטובר" || has "נרצח ב-7.10" || has "נרצחה ב-7.10"
         || has "נפל ב-7.10"
      then ([("Date of Death", Str "2023-10-07")], true)
      else if has "2014" && has "נפל במבצע"
      then ([("Date of Death", Str "2014-07-20")], true)
      else ([], updated)
    else ([], updated) in
  (* CONTEXT OF DEATH EXTRACTION *)
  context ← getitem r "Context of Death";
  let '(w_context, updated) :=
    if isna context then
      if has "נרצח בשבי" || has "נרצחה בשבי"
      then ([("Context of Death",
              Str "Died in Captivity - Killed by Hamas")], true)
      else if existsb has [ "נרצח ב-7 באוקטובר"; "נרצחה ב-7 באוקטובר";
                            "נפל בקרב ב-7"; "נהרג בקרב ב-7" ]
      then ([("Context of Death", Str "Died Before/During Kidnapping")], true)
      else if has "נפל במבצע" || has "נפל ונחטף"
      then ([("Context of Death", Str "Died Before/During Kidnapping")], true)
      else ([], updated)
    else ([], updated) in
  (* RELEASE DATE EXTRACTION *)
  release ← getitem r "Release Date";
  let '(w_release, updated) :=
    if isna release then
      match first_pattern date_patterns full_text with
      | Some date => ([("Release Date", Str date)], true)
      | None =>
          if negb updated then
            if has "נובמבר 2023" || has "אחרי 49 יום"
            then ([("Release Date", Str "2023-11-24")], true)
            else if has "אחרי 55 יום"
            then ([("Release Date", Str "2023-12-01")], true)
            else if has "אחרי 246 ימים"
            then ([("Release Date", Str "2024-06-08")], true)
            else ([], updated)
          else ([], updated)
      end
    else ([], updated) in
  (* RELEASE/DEATH CIRCUMSTANCES *)
  circumstances ← getitem r "Release/Death Circumstances";
  let w_circumstances :=
    if isna circumstances then
      if status_is current_status "Deceased - Returned"
      then [("Release/Death Circumstances",
             Str "Returned in Military Operation - Body")]
      else if status_is current_status "Released"
      then if has "עסקה" || has "שחרור"
           then [("Release/Death Circumstances", Str "Released via deal")]
           else [("Release/Death Circumstances", Str "Returned in Deal")]
      else if has "שוחרר" || has "שוחררה"
      then ("Release/Death Circumstances", Str "Returned in Deal")
           :: (if status_is current_status "Unknown"
               then [("Current Status", Str "Released")] else [])
      else if has "חולץ" || has "חולצה"
      then ("Release/Death Circumstances",
            Str "Returned in Military Operation")
           :: (if status_is current_status "Unknown"
               then [("Current Status", Str "Released")] else [])
      else if has "גופתו הושבה" || has "גופתה הושבה"
      then [("Release/Death Circumstances",
             Str "Returned in Military Operation - Body")]
      else []
    else [] in
  Ok (w_death ++ w_context ++ w_release ++ w_circumstances)%list.

(** The script from the load to the frame handed to [to_csv]. *)
Definition comprehensive_data_extraction (current_df : frame) : result frame :=
  for_rows extract_row (iterrows current_df) current_df.

(** A second run reads what the first one wrote. *)
Definition run_twice (current_df : frame) : result frame :=
  df ← comprehensive_data_extraction current_df;
  comprehensive_data_extraction (reload df).

End Extraction.

(** ** cleanup_temp/check_data_consistency.py *)

Module Checker.

(** [x in ['nan', '']] *)
Definition blank (s : string) : bool := Py.mem s ["nan"; ""].

(** The list [issues] of one row. *)
Definition issues_of (r : row) : result (list string) :=
  status ← getitem r "Current Status";
  let release_date := get_str r "Release Date" in
  let release_circumstances := get_str r "Release/Death Circumstances" in
  let death_date := get_str r "Date of Death" in
  let death_context := get_str r "Context of Death" in
  Ok (if status_is status "Released" then
        ((if blank release_date
          then ["Released but no release date"] else []) ++
         (if blank release_circumstances
          then ["Released but no release circumstances"] else []))%list
      else if status_is status "Held in Gaza" then
        ((if negb (blank release_date)
          then ["Held in Gaza but has release date"] else []) ++
         (if Py.contains "Released" release_circumstances
             || Py.contains "Returned" release_circumstances
          then ["Held in Gaza but has release circumstances"] else []))%list
      else if status_is status "Deceased" then
        (if blank death_context
         then ["Deceased but no death context"] else [])
      else if status_is status "Deceased - Returned" then
        ((if blank death_context
          then ["Deceased-Returned but no death context"] else []) ++
         (if blank release_date
          then ["Deceased-Returned but no return date"] else []))%list
      else []).

(** An entry of [inconsistencies]. *)
Record inconsistency := mkinc {
  inc_index : nat; inc_name : cell; inc_status : cell;
  inc_issues : list string;
  inc_release_date : string; inc_release_circumstances : string;
  inc_death_context : string }.

Fixpoint scan (pending : list (nat * row)) : result (list inconsistency) :=
  match pending with
  | [] => Ok []
  | (idx, r) :: rest =>
      issues ← issues_of r;
      entry ← match issues with
              | [] => Ok []
              | _ =>
                  name ← getitem r "Hebrew Name";
                  Ok [mkinc idx name (get r "Current Status") issues
                        (get_str r "Release Date")
                        (get_str r "Release/Death Circumstances")
                        (get_str r "Context of Death")]
              end;
      others ← scan rest;
      Ok (entry ++ others)%list
  end.

(** Lines 9 to 68: what the script has printed when it reaches the
    detailed analysis, the number of entries and the first ten of them.
    Line 9 needs the status column. *)
Definition printed_report (df : frame) : result (nat * list inconsistency) :=
  if decide ("Current Status" ∈ columns df) then
    inconsistencies ← scan (iterrows df);
    Ok (length inconsistencies, take 10 inconsistencies)
  else KeyError "Current Status".

(** Line 85 for the rows of [held_with_release.head(5)]. *)
Fixpoint problematic (pending : list (nat * row))
  : result (list (cell * cell * cell)) :=
  match pending with
  | [] => Ok []
  | (_, r) :: rest =>
      name ← getitem r "Hebrew Name";
      release ← getitem r "Release Date";
      circumstances ← getitem r "Release/Death Circumstances";
      others ← problematic rest;
      Ok ((name, release, circumstances) :: others)
  end.

(** Lines 74 to 85: the two counts and the entries printed with them. *)
Definition detailed_analysis (df : frame)
  : result (nat * nat * list (cell * cell * cell)) :=
  if decide ("Current Status" ∈ columns df) then
    if decide ("Release Date" ∈ columns df) then
      let held_with_release :=
        List.filter
          (fun ir : nat * row =>
             status_is (get (snd ir) "Current Status") "Held in Gaza"
             && negb (isna (get (snd ir) "Release Date")))
          (iterrows df) in
      let released_no_data :=
        List.filter
          (fun ir : nat * row =>
             status_is (get (snd ir) "Current Status") "Released"
             && isna (get (snd ir) "Release Date"))
          (iterrows df) in
      shown ← problematic (take 5 held_with_release);
      Ok (length held_with_release, length released_no_data, shown)
    else KeyError "Release Date"
  else KeyError "Current Status".

(** The script from the first line to the last. *)
Definition check_data_consistency (df : frame)
  : result (nat * list inconsistency * (nat * nat * list (cell * cell * cell))) :=
  report ← printed_report df;
  analysis ← detailed_analysis df;
  Ok (report, analysis).

End Checker.

(** ** cleanup_temp/fix_data_consistency.py *)

Module FixConsistency.

(** The first loop, for one row: the [if]/[elif] chain of rules 1 to 4 on
    the status, then rule 5 on its own. *)
Definition fix_row (r : row) : result (list (string * cell)) :=
  status ← getitem r "Current Status";
  let release_date := get_str r "Release Date" in
  let release_circumstances := get_str r "Release/Death Circumstances" in
  let w_status :=
    if status_is status "Held in Gaza"
       && negb (Py.mem release_date ["nan"; ""])
    then [("Current Status", Str "Released")]
    else if status_is status "Held in Gaza"
            && existsb (fun word => Py.contains word release_circumstances)
                 ["Released"; "Returned"; "Rescue"]
    then if Py.contains "Body" release_circumstances
         then [("Current Status", Str "Deceased - Returned")]
         else [("Current Status", Str "Released")]
    else if status_is status "Released"
            && Py.contains "Currently Held" release_circumstances
    then [("Current Status", Str "Held in Gaza"); ("Release Date", Str "")]
    else if status_is status "Released"
            && Py.contains "Body" release_circumstances
    then [("Current Status", Str "Deceased - Returned")]
    else [] in
  let w_clean :=
    if String.eqb release_circumstances "Currently Held Captive"
       && negb (Py.mem release_date ["nan"; ""])
    then [("Release Date", Str "")]
    else [] in
  Ok (w_status ++ w_clean)%list.

(** The second loop, for one row. *)
Definition held_circumstances (r : row) : result (list (string * cell)) :=
  status ← getitem r "Current Status";
  if status_is status "Held in Gaza" then
    let circumstances := get_str r "Release/Death Circumstances" in
    if Py.mem circumstances ["nan"; ""]
    then Ok [("Release/Death Circumstances", Str "Currently Held Captive")]
    else Ok []
  else Ok [].

(** The script from the load to the frame handed to [to_csv]. *)
Definition fix_data_consistency (df : frame) : result frame :=
  df1 ← for_rows fix_row (iterrows df) df;
  for_rows held_circumstances (iterrows df1) df1.

End FixConsistency.

(** ** difflib.SequenceMatcher(None, a, b).ratio() *)

Module Difflib.

Fixpoint common_prefix (a b : string) : nat :=
  match a, b with
  | String x a', String y b' =>
      if Ascii.eqb x y then S (common_prefix a' b') else 0
  | _, _ => 0
  end.

(** The longest block starting at the head of [a], over the starts [j] of
    [b]: its start in [b] and its size, the earliest start winning ties. *)
Fixpoint best_in_b (a b : string) (j : nat) (best : nat * nat) : nat * nat :=
  let k := common_prefix a b in
  let best := if snd best <? k then (j, k) else best in
  match b with
  | String _ b' => best_in_b a b' (S j) best
  | EmptyString => best
  end.

(** [find_longest_match]: the longest matching block, the one that starts
    earliest in [a] among the longest and, of those, earliest in [b]. *)
Fixpoint find_longest_match (a b : string) (i : nat) (best : nat * nat * nat)
  : nat * nat * nat :=
  let '(j, k) := best_in_b a b 0 (0, snd best) in
  let best := if snd best <? k then (i, j, k) else best in
  match a with
  | String _ a' => find_longest_match a' b (S i) best
  | EmptyString => best
  end.

Fixpoint take (n : nat) (s : string) : string :=
  match n, s with
  | S n', String c s' => String c (take n' s')
  | _, _ => EmptyString
  end.

Fixpoint drop (n : nat) (s : string) : string :=
  match n, s with
  | S n', String _ s' => drop n' s'
  | _, _ => s
  end.

(** The total size of the matching blocks: the longest block, then the
    same to its left and to its right. *)
Fixpoint matches (fuel : nat) (a b : string) : nat :=
  match fuel with
  | O => 0
  | S fuel' =>
      let '(i, j, k) := find_longest_match a b 0 (0, 0, 0) in
      if k =? 0 then 0
      else k + matches fuel' (take i a) (take j b)
             + matches fuel' (drop (i + k) a) (drop (j + k) b)
  end.

(** [ratio()]: 2.0 * matches / (len(a) + len(b)), and 1.0 for two empty
    texts.  The quotient is kept exact; on texts of this size the float
    comparisons of the script agree with the exact ones. *)
Definition ratio (a b : string) : Q :=
  let total := String.length a + String.length b in
  if total =? 0 then 1%Q
  else (Z.of_nat (2 * matches (S (String.length a)) a b)
        # Pos.of_nat total)%Q.

End Difflib.

(** ** temp_archive/complete_hebrew_mapping.py *)

Module HebrewMapping.

(** The dict [comprehensive_mappings], in the order it is written. *)
Definition comprehensive_mappings : list (string * list string) :=
  [
    ("יונתן סמרנו", ["Yonatan Samreno"; "Jonathan Samreno"]);
    ("שי לוינסון", ["Shai Levinson"; "Shay Levinson"]);
    ("עפרה קידר", ["Ofra Keidar"; "Ofra Kedar"]);
    ("אביב אצילי", ["Aviv Atzili"; "Aviv Etzili"]);
    ("יאיר יעקב", ["Yair Yaakov"; "Yair Jacob"]);
    ("נטפונג פינטה", ["Nattapong Pinta"; "Nattapong Phinta"]);
    ("ג׳ודי ויינשטיין", ["Judy Weinstein"; "Judith Weinstein"]);
    ("גדי חגי", ["Gadi Haggai"; "Gadi Hagay"]);
    ("אלון אוהל", ["Alon Ohel"]);
    ("אור לוי", ["Or Levy"; "Or Levi"]);
    ("אלכסנדר לובנוב", ["Alexander Lobanov"; "Aleksandr Lobanov"]);
    ("עלמוג סרוסי", ["Almog Sarusi"; "Almog Saroussi"]);
    ("עדן ירושלמי", ["Eden Yerushalmi"; "Eden Jerusalmi"]);
    ("מתן צנגוקר", ["Matan Zangauker"; "Matan Zangawker"]);
    ("עומרי מירן", ["Omri Miran"]);
    ("אמיר שמואל", ["Amir Shmuel"; "Amir Samuel"]);
    ("נדב פופלוול", ["Nadav Popplewell"]);
    ("מיטל חיים", ["Mital Haim"]);
    ("אליה טופיק", ["Elya Toufic"; "Elia Toufic"]);
    ("דולב יהוד", ["Dolev Yehud"]);
    ("אבניר סימן טוב", ["Avner Siton"; "Avner Simantuv"]);
    ("אמילי דמארי", ["Emily Damari"]);
    ("רומי גונן", ["Romi Gonen"]);
    ("הרש גולדברג-פולין", ["Hersh Goldberg-Polin"]);
    ("לירי אלבג", ["Liri Albag"]);
    ("קרינה אריאב", ["Karina Ariev"]);
    ("נעמה לוי", ["Naama Levy"]);
    ("אוהד בן עמי", ["Ohad Ben Ami"]);
    ("גיא גלבוע דלאל", ["Guy Gilboa-Dalal"]);
    ("הדר גולדין", ["Hadar Goldin"]);
    ("אורון שאול", ["Oron Shaul"]);
    ("עדן זכריה", ["Eden Zacharia"; "Eden Zecharya"]);
    ("אלכסנדר דנציג", ["Alex Danzig"; "Alexander Danzig"]);
    ("איתי סבירסקי", ["Itai Svirsky"]);
    ("תמיר אדר", ["Tamir Adar"]);
    ("רון שרמן", ["Ron Sherman"]);
    ("ליאור רודיק", ["Lior Rudik"]);
    ("דן אלמג", ["Dan Almog"]);
    ("יונתן סמו", ["Yonatan Samo"]);
    ("עמית שני", ["Amit Shani"]);
    ("חיים דסקל", ["Chaim Dascal"]);
    ("תמר כהן", ["Tamar Cohen"]);
    ("רותי מונדו", ["Ruti Mondo"]);
    ("גל דלאל", ["Gal Dalal"]);
    ("מיה רגב", ["Maya Regev"]);
    ("חיים פרי", ["Chaim Perry"]);
    ("שני לוק", ["Shani Look"]);
    ("עופרי ברודצקי", ["Ofri Brodsky"]);
    ("איילה מצגר", ["Aiyla Metzger"]);
    ("שחר בן אבירהם", ["Shahar Ben Avraham"]);
    ("רומן שפירא", ["Roman Shapira"]);
    ("תהילה בן משה", ["Tehila Ben Moshe"]);
    ("רנה רבינוביץ", ["Rina Rabinovitz"]);
    ("אליזבת צורף", ["Elizabeth Tzureff"]);
    ("תמר אלוני", ["Tamar Aloni"]);
    ("אמירה ראשיד", ["Amira Rashid"]);
    ("עידן אלכסנדר", ["Idan Alexander"]);
    ("אמיר ראפ", ["Amir Rap"]);
    ("עידן ברע", ["Idan Bara"]);
    ("כפיר ביבס", ["Kfir Bibas"]);
    ("אריאל ביבס", ["Ariel Bibas"]);
    ("יותם פאת", ["Yotam Haim"])
  ].

Definition similarity (a b : string) : Q :=
  Difflib.ratio (Py.lower a) (Py.lower b).

(** [x > y] on scores *)
Definition Qgtb (x y : Q) : bool := negb (Qle_bool x y).

Definition threshold : Q := (7 # 10)%Q.

Section Matcher.

(** The matcher, for any scoring function and any table. *)
Variable score_of : string -> string -> Q.
Variable table : list (string * list string).

(** The pairs the two nested loops visit, in order. *)
Definition pairs : list (string * string) :=
  flat_map (fun hv => map (fun v => (fst hv, v)) (snd hv)) table.

(** The body of the inner loop on [(best_match, best_score)]. *)
Definition step (english_name : string) (best : option string * Q)
    (hv : string * string) : option string * Q :=
  let score := score_of english_name (snd hv) in
  if Qgtb score (snd best) && Qgtb score threshold
  then (Some (fst hv), score) else best.

Definition find_best (english_name : string) : option string :=
  let '(best_match, best_score) :=
    fold_left (step english_name) pairs (None, 0%Q) in
  if Qgtb best_score threshold then best_match else None.

End Matcher.

Definition find_best_hebrew_match (english_name : string) : option string :=
  find_best similarity comprehensive_mappings english_name.

(** The loop that fills the missing Hebrew names. *)
Definition fill_row (r : row) : result (list (string * cell)) :=
  hebrew ← getitem r "Hebrew Name";
  if isna hebrew || cell_eqb hebrew (Str "") then
    english ← getitem r "Hostage Name";
    match find_best_hebrew_match (str english) with
    | Some hebrew_match =>
        if Py.is_empty hebrew_match then Ok []
        else Ok [("Hebrew Name", Str hebrew_match)]
    | None => Ok []
    end
  else Ok [].

Definition complete_hebrew_mapping (df : frame) : result frame :=
  for_rows fill_row (iterrows df) df.

End HebrewMapping.

(** ** cleanup_temp/find_missing_names.py, from the final count on *)

Module FindMissing.

(** [len(df[df['Current Status'] == 'Held in Gaza'])] *)
Definition held_count (df : frame) : result nat :=
  held ← select df "Current Status" (Str "Held in Gaza");
  Ok (length held).

(** The mask of [candidates]: status Released or Unknown, release date
    missing or the empty text. *)
Definition is_candidate (r : row) : bool :=
  let status := get r "Current Status" in
  let release := get r "Release Date" in
  (status_is status "Released" || status_is status "Unknown")
  && (isna release || cell_eqb release (Str "")).

(** [candidates.index] *)
Definition candidates (df : frame) : result (list nat) :=
  if decide ("Current Status" ∈ columns df) then
    if decide ("Release Date" ∈ columns df) then
      Ok (fst <$> List.filter (fun ir => is_candidate (snd ir)) (iterrows df))
    else KeyError "Release Date"
  else KeyError "Current Status".

(** The three assignments of the conversion loop. *)
Definition convert (df : frame) (idx : nat) : frame :=
  let df := at_set df idx "Current Status" (Str "Held in Gaza") in
  let df := at_set df idx "Release/Death Circumstances"
              (Str "Currently Held Captive") in
  at_set df idx "Release Date" (Str "").

(** Lines 91-112: count the held, and when they are fewer than 47 convert
    the first candidates. *)
Definition force_held_count (df : frame) : result frame :=
  final_held ← held_count df;
  if final_held <? 47 then
    let remaining_needed := 47 - final_held in
    index ← candidates df;
    Ok (foldl convert df
          (take (Nat.min remaining_needed (length index)) index))
  else Ok df.

End FindMissing.

(** The writes of a dict of texts. *)
Definition cells (data : list (string * string)) : list (string * cell) :=
  map (fun fv => (fst fv, Str (snd fv))) data.

(** A guarded cell after the import: filled with what the validator made
    of the proposed value when the cell was empty and the validator
    accepted, else as it was. *)
Definition filled (validate : cell -> option string)
    (current proposed : cell) : cell :=
  if ValidatedImport.empty_cell current then
    match validate proposed with
    | Some v => Str v
    | None => current
    end
  else current.

(** The entry the checker makes of row [r], at index [i], for its issues. *)
Definition entry_of (i : nat) (r : row) (issues : list string)
  : Checker.inconsistency :=
  Checker.mkinc i (get r "Hebrew Name") (get r "Current Status") issues
    (get_str r "Release Date") (get_str r "Release/Death Circumstances")
    (get_str r "Context of Death").

(** The entries of the rows that have issues, in row order. *)
Definition flag (ir : nat * row) : option Checker.inconsistency :=
  match Checker.issues_of (snd ir) with
  | Ok (issue :: more) => Some (entry_of (fst ir) (snd ir) (issue :: more))
  | _ => None
  end.

Definition flagged (pending : list (nat * row)) : list Checker.inconsistency :=
  omap flag pending.

(** The coherence the checker looks for between the status and the release
    cells of a row, emptiness being the checker's own ([blank]). *)
Definition coherent (r : row) : Prop :=
  let status := get r "Current Status" in
  let release_date := get_str r "Release Date" in
  let release_circumstances := get_str r "Release/Death Circumstances" in
  (status = Str "Held in Gaza" -> Checker.blank release_date = true) /\
  (status = Str "Released" ->
   Checker.blank release_date = false /\
   Checker.blank release_circumstances = false) /\
  (status = Str "Deceased - Returned" -> Checker.blank release_date = false).

(** ** Frames of the worked examples *)

Module Examples.

Definition kan_columns : list string :=
  [ "Hebrew Name"; "Current Status"; "Date of Death"; "Context of Death";
    "Release Date"; "Release/Death Circumstances"; "Citation URLs";
    "Countries Involved in Deals"; "Kidnapping Summary (Hebrew)" ].

(** A hostage of the store, released, whose release date is filled. *)
Definition naama : list cell :=
  [ Str "נעמה לוי"; Str "Released"; NaN; NaN; Str "2023-11-24"; NaN;
    Str "https://www.kan.org.il/content/1/"; NaN; Str "נחטפה מנחל עוז" ].

(** Two archive lines under her name. *)
Definition naama_archive : list cell :=
  [ Str "נעמה לוי"; Str "Released"; NaN; NaN; Str "2025-01-25";
    Str "Released via deal";
    Str "https://www.jpost.com/israel-news/article-1"; Str "Qatar"; NaN ].

Definition naama_archive_again : list cell :=
  [ Str "נעמה לוי"; Str "Deceased"; Str "2023-10-07"; NaN; Str "2024-06-08";
    Str "Military recovery";
    Str "https://www.jpost.com/israel-news/article-2"; Str "Egypt"; NaN ].

Definition current_one : frame := frame_of kan_columns [naama].

Definition archive_one : frame := frame_of kan_columns [naama_archive].

(** An archive with two rows under the same key. *)
Definition archive_twice : frame :=
  frame_of kan_columns [naama_archive; naama_archive_again].

(** A store without the key column. *)
Definition current_no_key : frame :=
  frame_of ["Current Status"; "Release Date"]
    [ [ Str "Released"; Str "2023-11-24" ] ].

(** A hostage whose summary reads 'kidnapped on 7 October and released
    after 49 days', with nothing filled in yet. *)
Definition unknown_one : frame :=
  frame_of kan_columns
    [ [ Str "פלוני אלמוני"; Str "Unknown"; NaN; NaN; NaN; NaN; NaN; NaN;
        Str "נחטף ב-7 באוקטובר ושוחרר אחרי 49 יום" ] ].

(** The same hostage marked released, with circumstances and no date. *)
Definition released_undated : list cell :=
  [ Str "פלוני אלמוני"; Str "Released"; Str "2023-10-07"; NaN; NaN;
    Str "Returned in Deal"; NaN; NaN;
    Str "נחטף ב-7 באוקטובר ושוחרר אחרי 49 יום" ].

(** A store of one hostage, deceased. *)
Definition deceased_one : frame :=
  frame_of kan_columns
    [ [ Str "פלוני אלמוני"; Str "Deceased"; Str "2023-10-07"; NaN; NaN; NaN;
        NaN; NaN; NaN ] ].

(** A returned body with a return date and no circumstances. *)
Definition returned_body : row :=
  mkrow kan_columns
    [ Str "פלוני אלמוני"; Str "Deceased - Returned"; Str "2023-10-07";
      Str "Died Before/During Kidnapping"; Str "2024-08-31"; NaN; NaN; NaN;
      NaN ].

(** Two hostages marked as held: nothing else known of the first, the
    second with a release date and 'Currently Held Captive'. *)
Definition held_two : frame :=
  frame_of kan_columns
    [ [ Str "פלוני אלמוני"; Str "Held in Gaza"; NaN; NaN; NaN; NaN; NaN; NaN;
        NaN ];
      [ Str "פלונית אלמונית"; Str "Held in Gaza"; NaN; NaN; Str "2023-11-24";
        Str "Currently Held Captive"; NaN; NaN; NaN ] ].

(** A hostage of whom the store only says that he was released. *)
Definition said_released : frame :=
  frame_of kan_columns
    [ [ Str "פלוני אלמוני"; Str "Unknown"; NaN; NaN; NaN; NaN; NaN; NaN;
        Str "שוחרר מהשבי" ] ].

(** Ilan Weiss with one citation in the store. *)
Definition ilan_cited : frame :=
  frame_of kan_columns
    [ [ Str "אילן וייס"; Str "Deceased"; NaN; NaN; NaN; NaN;
        Str "https://www.ynet.co.il/news/article/abc"; NaN; NaN ] ].

(** An archive line that proposes 31 February as release date, and the
    store line it is proposed for. *)
Definition archive_february : frame :=
  frame_of kan_columns
    [ [ Str "נעמה לוי"; Str "Released"; NaN; NaN; Str "31/02/2024";
        Str "rescued by helicopter"; NaN; NaN; NaN ] ].

Definition current_undated : frame :=
  frame_of kan_columns
    [ [ Str "נעמה לוי"; Str "Held in Gaza"; NaN; NaN; NaN; NaN; NaN; NaN;
        Str "נחטפה מנחל עוז" ] ].

(** A store with no line, and one with no line and no column. *)
Definition current_empty : frame := frame_of kan_columns [].

Definition tracking_empty : frame :=
  frame_of ["Hebrew Name"; "Research Status"] [].

End Examples.

(** * Vocabulary of the properties *)

(** The code point of the ASCII digit [k]. *)
Definition dcp (k : Z) : N := (48 + Z.to_N k)%N.

(** Row [i], column [col] holds [c]. *)
Definition kept (df : frame) (i : nat) (col : string) (c : cell) : Prop :=
  exists r, rows df !! i = Some r /\ r !! col = Some c.

(** The citation text of row [i] stands in relation [R] to [old]. *)
Definition text_rel (R : string -> string -> Prop) (old : string) (df : frame) (i : nat) : Prop :=
  exists r, rows df !! i = Some r /\ R old (get_str r "Citation URLs").

(** The text that was there opens the text that is written, unless it
    was empty or 'nan'. *)
Definition extends (old new : string) : Prop :=
  Py.is_empty old || String.eqb old "nan" = false ->
  exists suffix, new = old +:+ suffix.

(** The citations read from [old] are among those read from [new]. *)
Definition grows (old new : string) : Prop :=
  incl (citation_urls old) (citation_urls new).

(** A step of a script that keeps frames well formed and citations. *)
Definition cite_safe (F : frame -> result frame) : Prop :=
  forall df df', wf_frame df -> F df = Ok df' ->
    wf_frame df' /\
    forall old i, text_rel grows old df i -> text_rel grows old df' i.

(** The status column of a frame, and the number of held in it. *)
Definition statuses (df : frame) : list cell :=
  (fun r : row => get r "Current Status") <$> rows df.

Definition held (l : list cell) : nat :=
  length (List.filter (fun c => status_is c "Held in Gaza") l).

(** * Properties *)

Import ValidatedImport.

(** ** Facts about code points and the directives *)

Lemma zero_of_spec (cp z : N) :
  Py.zero_of cp = Some z -> (48 <= z /\ z <= cp /\ cp < z + 10)%N.
Proof.
  unfold Py.zero_of. intros H. apply find_some in H as [Hin Hz].
  apply andb_true_iff in Hz as [H1 H2].
  apply N.leb_le in H1. apply N.ltb_lt in H2.
  split; [|split; assumption].
  assert (Hall : forallb (fun z => (48 <=? z)%N) Py.decimal_zeros = true)
    by (vm_compute; reflexivity).
  rewrite forallb_forall in Hall. apply N.leb_le. now apply Hall.
Qed.

Lemma is_digit_spec (cp : N) :
  Py.is_digit cp = true -> (48 <= cp)%N /\ (0 <= Py.digit_val cp <= 9)%Z.
Proof.
  unfold Py.is_digit, Py.digit_val.
  destruct (Py.zero_of cp) as [z|] eqn:E; [|discriminate].
  intros _. apply zero_of_spec in E. lia.
Qed.

(** A digit is none of the separators of the formats. *)
Lemma digit_not_separator (cp : N) :
  Py.is_digit cp = true ->
  Py.is_char "/" cp = false /\ Py.is_char "-" cp = false.
Proof.
  intros H. apply is_digit_spec in H as [H _].
  unfold Py.is_char. split; apply N.eqb_neq; cbn; lia.
Qed.

Lemma flat_map_nil {A B} (f : A -> list B) (l : list A) :
  (forall x, In x l -> f x = []) -> flat_map f l = [].
Proof.
  induction l as [|x l IH]; intros H; simpl; [reflexivity|].
  rewrite (H x (or_introl eq_refl)), IH; [reflexivity|].
  intros y Hy. apply H. now right.
Qed.

Lemma alts_d_rest a b r v rest :
  In (v, rest) (alts_d (a :: b :: r)) -> rest = r \/ rest = b :: r.
Proof.
  unfold alts_d. rewrite !in_app_iff.
  repeat match goal with
         | |- context [if ?c then _ else _] => destruct c
         end; cbn [In]; intuition congruence.
Qed.

Lemma alts_m_rest a b r v rest :
  In (v, rest) (alts_m (a :: b :: r)) -> rest = r \/ rest = b :: r.
Proof.
  unfold alts_m. rewrite !in_app_iff.
  repeat match goal with
         | |- context [if ?c then _ else _] => destruct c
         end; cbn [In]; intuition congruence.
Qed.

(** A day or a month takes at most two code points: before three digits
    in a row the separator is not found. *)
Lemma re_match_three_digits dir sep f acc a b c r :
  dir = Dd \/ dir = Dm ->
  sep = "/"%char \/ sep = "-"%char ->
  Py.is_digit b = true -> Py.is_digit c = true ->
  re_match (dir :: Lit sep :: f) acc (a :: b :: c :: r) = [].
Proof.
  intros Hdir Hsep Hb Hc.
  apply digit_not_separator in Hb as [Hb1 Hb2].
  apply digit_not_separator in Hc as [Hc1 Hc2].
  cbn [re_match]. apply flat_map_nil. intros [v rest] Hin.
  assert (Hrest : rest = c :: r \/ rest = b :: c :: r).
  { destruct Hdir as [-> | ->]; cbn [alts] in Hin;
      [eapply alts_d_rest | eapply alts_m_rest]; eauto. }
  cbn [fst snd alts].
  destruct Hrest as [-> | ->], Hsep as [-> | ->];
    rewrite ?Hb1, ?Hb2, ?Hc1, ?Hc2; reflexivity.
Qed.

(** ** [validate_date_format] *)

Lemma iso_shape_inv (t : string) :
  iso_shape t = true ->
  exists y1 y2 y3 y4 m1 m2 d1 d2,
    Py.codepoints t = [y1; y2; y3; y4; 45; m1; m2; 45; d1; d2]%N /\
    Py.is_digit y1 = true /\ Py.is_digit y2 = true /\
    Py.is_digit y3 = true /\ Py.is_digit y4 = true /\
    Py.is_digit m1 = true /\ Py.is_digit m2 = true /\
    Py.is_digit d1 = true /\ Py.is_digit d2 = true.
Proof.
  unfold iso_shape.
  destruct (Py.codepoints t)
    as [|y1 [|y2 [|y3 [|y4 [|h1 [|m1 [|m2 [|h2 [|d1 [|d2 [|]]]]]]]]]]];
    try discriminate.
  rewrite !andb_true_iff. unfold Py.is_char.
  intros [[[[[[[[[? ?] ?] ?] Hh1] ?] ?] Hh2] ?] ?].
  apply N.eqb_eq in Hh1, Hh2. subst h1 h2.
  exists y1, y2, y3, y4, m1, m2, d1, d2. cbn. intuition.
Qed.

(** A text of the shape YYYY-MM-DD is parsed by none of the listed
    formats. *)
Lemma iso_shape_not_listed (t : string) (f : list directive) :
  iso_shape t = true -> In f formats -> strptime f t = None.
Proof.
  intros Hiso Hf.
  destruct (iso_shape_inv t Hiso)
    as (y1 & y2 & y3 & y4 & m1 & m2 & d1 & d2 & Ht &
        H1 & H2 & H3 & H4 & H5 & H6 & H7 & H8).
  unfold strptime. rewrite Ht.
  cbn in Hf. destruct Hf as [<- | [<- | [<- | [<- | []]]]].
  - unfold fmt_dmy. rewrite re_match_three_digits; auto.
  - unfold fmt_mdy. rewrite re_match_three_digits; auto.
  - unfold fmt_ymd. cbn [re_match alts alts_Y].
    rewrite H1, H2, H3, H4. reflexivity.
  - unfold fmt_dmy_dash. rewrite re_match_three_digits; auto.
Qed.

Lemma try_formats_none (fs : list (list directive)) (s : string) :
  try_formats fs s = None <-> (forall f, In f fs -> strptime f s = None).
Proof.
  induction fs as [|f fs IH]; simpl.
  - split; [intros _ f []|reflexivity].
  - destruct (strptime f s) eqn:E.
    + split; [discriminate|]. intros H.
      specialize (H f (or_introl eq_refl)). congruence.
    + rewrite IH. split.
      * intros H g [<- | Hg]; auto.
      * intros H g Hg. apply H. now right.
Qed.

(** The loop returns the reading of the first format that parses. *)
Lemma try_formats_some (fs : list (list directive)) (s out : string) :
  try_formats fs s = Some out ->
  exists pre f post d,
    fs = (pre ++ f :: post)%list /\ strptime f s = Some d /\ out = strftime d /\
    (forall g, In g pre -> strptime g s = None).
Proof.
  induction fs as [|f fs IH]; simpl; [discriminate|].
  destruct (strptime f s) as [d|] eqn:E.
  - intros [= <-]. exists [], f, fs, d. simpl. intuition.
  - intros H. destruct (IH H) as (pre & g & post & d & -> & Hg & Hout & Hpre).
    exists (f :: pre), g, post, d. simpl. intuition (subst; auto).
Qed.

(** What the function does with a text that reaches the loop. *)
Lemma validate_date_format_loop (s : string) :
  iso_shape (Py.strip s) = false ->
  validate_date_format (Str s) = try_formats formats (Py.strip s).
Proof.
  intros Hiso. unfold validate_date_format. cbn [isna str orb].
  rewrite Hiso.
  destruct (String.eqb s "nan") eqn:En.
  - apply String.eqb_eq in En. subst s. reflexivity.
  - destruct (Py.strip s); reflexivity.
Qed.

Lemma strptime_valid (f : list directive) (s : string) (d : date) :
  strptime f s = Some d -> valid_date d = true.
Proof.
  unfold strptime.
  destruct (re_match f _ _) as [|[d' [|? ?]] ?]; try discriminate.
  destruct (valid_date d') eqn:E; [|discriminate]. now intros [= <-].
Qed.

(** ** What [strftime] writes *)

Lemma codepoints_ascii (a : ascii) (s : string) :
  (N_of_ascii a < 128)%N ->
  Py.codepoints (String a s) = N_of_ascii a :: Py.codepoints s.
Proof.
  intros H. apply N.ltb_lt in H. cbn [Py.codepoints]. now rewrite H.
Qed.

Lemma digit_char_cp (k : Z) :
  (0 <= k <= 9)%Z ->
  N_of_ascii (Py.digit_char k) = dcp k /\ (dcp k < 128)%N /\
  Py.is_digit (dcp k) = true /\ Py.digit_val (dcp k) = k.
Proof.
  intros H.
  assert (Hk : In k [0; 1; 2; 3; 4; 5; 6; 7; 8; 9]%Z) by (cbn; lia).
  cbn [In] in Hk.
  repeat (destruct Hk as [<- | Hk]; [vm_compute; auto|]). destruct Hk.
Qed.

Lemma mod10_digit (k : Z) : (0 <= k mod 10 <= 9)%Z.
Proof. pose proof (Z.mod_pos_bound k 10). lia. Qed.

Lemma codepoints_digit (k : Z) (s : string) :
  (0 <= k <= 9)%Z ->
  Py.codepoints (String (Py.digit_char k) s) = dcp k :: Py.codepoints s.
Proof.
  intros H. destruct (digit_char_cp k H) as (E & Hlt & _).
  rewrite codepoints_ascii; rewrite E; [reflexivity | exact Hlt].
Qed.

Lemma valid_date_bounds (d : date) :
  valid_date d = true ->
  (1 <= year d <= 9999 /\ 1 <= month d <= 12 /\ 1 <= day d <= 31)%Z.
Proof.
  unfold valid_date. rewrite !andb_true_iff, !Z.leb_le.
  intros [[[[[? ?] ?] ?] ?] Hd].
  assert (days_in_month (year d) (month d) <= 31)%Z.
  { unfold days_in_month.
    repeat match goal with
           | |- context [match ?x with _ => _ end] => destruct x
           end; lia. }
  lia.
Qed.

(** The code points of a date written by [strftime], from the year 1000
    on: four digits, a hyphen, two digits, a hyphen, two digits. *)
Lemma strftime_codepoints (d : date) :
  valid_date d = true -> (1000 <= year d)%Z ->
  Py.codepoints (strftime d)
  = [ dcp (year d / 1000 mod 10); dcp (year d / 100 mod 10);
      dcp (year d / 10 mod 10); dcp (year d mod 10); 45%N;
      dcp (month d / 10 mod 10); dcp (month d mod 10); 45%N;
      dcp (day d / 10 mod 10); dcp (day d mod 10) ].
Proof.
  intros Hv Hy. unfold strftime, year_text, pad2.
  replace (1000 <=? year d)%Z with true by (symmetry; apply Z.leb_le; lia).
  replace (100 <=? year d)%Z with true by (symmetry; apply Z.leb_le; lia).
  replace (10 <=? year d)%Z with true by (symmetry; apply Z.leb_le; lia).
  cbv [String.append].
  rewrite !codepoints_digit by (apply mod10_digit).
  rewrite (codepoints_ascii "-") by (cbn; lia).
  rewrite !codepoints_digit by (apply mod10_digit).
  rewrite (codepoints_ascii "-") by (cbn; lia).
  rewrite !codepoints_digit by (apply mod10_digit).
  reflexivity.
Qed.

Lemma iso_shape_strftime (d : date) :
  valid_date d = true -> (1000 <= year d)%Z -> iso_shape (strftime d) = true.
Proof.
  intros Hv Hy. unfold iso_shape. rewrite strftime_codepoints by assumption.
  assert (Hd : forall k, Py.is_digit (dcp (k mod 10)) = true).
  { intros k. apply digit_char_cp. apply mod10_digit. }
  rewrite !Hd. reflexivity.
Qed.

Lemma re_match_month_day (acc : date) (m dd : Z) :
  (1 <= m <= 12)%Z -> (1 <= dd <= 31)%Z ->
  exists others,
    re_match [Dm; Lit "-"; Dd] acc
      [ dcp (m / 10 mod 10); dcp (m mod 10); 45%N;
        dcp (dd / 10 mod 10); dcp (dd mod 10) ]
    = (mkdate (year acc) m dd, []) :: others.
Proof.
  intros Hm Hd. destruct acc as [y m0 d0].
  assert (Hm' : In m [1; 2; 3; 4; 5; 6; 7; 8; 9; 10; 11; 12]%Z)
    by (cbn; lia).
  assert (Hd' : In dd [1; 2; 3; 4; 5; 6; 7; 8; 9; 10; 11; 12; 13; 14; 15; 16;
                       17; 18; 19; 20; 21; 22; 23; 24; 25; 26; 27; 28; 29;
                       30; 31]%Z) by (cbn; lia).
  clear Hm Hd. cbn [In] in Hm', Hd'.
  repeat (destruct Hm' as [<- | Hm']; [|]); [.. | destruct Hm'];
    (repeat (destruct Hd' as [<- | Hd']; [|]); [.. | destruct Hd']);
    eexists; vm_compute; reflexivity.
Qed.

Lemma re_match_year f acc (a b c e : Z) r :
  (0 <= a <= 9)%Z -> (0 <= b <= 9)%Z -> (0 <= c <= 9)%Z -> (0 <= e <= 9)%Z ->
  re_match (DY :: f) acc (dcp a :: dcp b :: dcp c :: dcp e :: r)
  = re_match f (set_field DY (1000 * a + 100 * b + 10 * c + e) acc) r.
Proof.
  intros Ha Hb Hc He.
  destruct (digit_char_cp a Ha) as (_ & _ & Ha1 & Ha2).
  destruct (digit_char_cp b Hb) as (_ & _ & Hb1 & Hb2).
  destruct (digit_char_cp c Hc) as (_ & _ & Hc1 & Hc2).
  destruct (digit_char_cp e He) as (_ & _ & He1 & He2).
  cbn [re_match alts alts_Y].
  rewrite Ha1, Hb1, Hc1, He1, Ha2, Hb2, Hc2, He2.
  cbn [andb flat_map fst snd]. apply app_nil_r.
Qed.

Lemma re_match_lit f acc (c : ascii) r :
  re_match (Lit c :: f) acc (N_of_ascii c :: r) = re_match f acc r.
Proof.
  cbn [re_match alts]. unfold Py.is_char. rewrite N.eqb_refl.
  cbn [flat_map fst snd]. apply app_nil_r.
Qed.

(** [strptime] reads back what [strftime] wrote. *)
Lemma strptime_strftime (d : date) :
  valid_date d = true -> (1000 <= year d)%Z ->
  strptime fmt_iso (strftime d) = Some d.
Proof.
  intros Hv Hy. pose proof (valid_date_bounds d Hv) as (Hyb & Hm & Hd).
  unfold strptime. rewrite strftime_codepoints by assumption.
  unfold fmt_iso. rewrite re_match_year by apply mod10_digit.
  replace (1000 * (year d / 1000 mod 10) + 100 * (year d / 100 mod 10)
           + 10 * (year d / 10 mod 10) + year d mod 10)%Z
    with (year d) by (Z.to_euclidean_division_equations; lia).
  change 45%N with (N_of_ascii "-"). rewrite re_match_lit.
  destruct (re_match_month_day
              (set_field DY (year d) (mkdate 1900 1 1)) (month d) (day d)
              Hm Hd) as [others E].
  change (N_of_ascii "-") with 45%N. rewrite E.
  destruct d as [y m dd]. cbn [year month day set_field] in *.
  now rewrite Hv.
Qed.

(** ** [validate_circumstances_category] *)

Lemma mem_In (x : string) (l : list string) :
  Py.mem x l = true <-> In x l.
Proof.
  unfold Py.mem. rewrite existsb_exists. split.
  - intros (y & Hy & E). apply String.eqb_eq in E. now subst.
  - intros H. exists x. split; [assumption | apply String.eqb_refl].
Qed.

Lemma mapping_lookup (s : string) (o : option string) :
  mapping !! s = Some o ->
  In (s, o)
    [ ("Released via deal", Some "Returned in Deal");
      ("Released in deal", Some "Returned in Deal");
      ("Killed in captivity by captors",
         Some "Died in Captivity - Killed by Hamas");
      ("Still in captivity", None);
      ("Body returned in deal", Some "Returned in Deal - Body");
      ("Military recovery", Some "Returned in Military Operation - Body") ].
Proof.
  unfold mapping. intros H.
  apply elem_of_list_to_map_2 in H. now apply list_elem_of_In.
Qed.

(** ** Frames *)

Lemma at_set_wf (df : frame) (j : nat) (f : string) (v : cell) :
  wf_frame df -> wf_frame (at_set df j f v).
Proof.
  intros Hwf r Hr col. unfold at_set in *.
  destruct (decide (f ∈ columns df)) as [Hf | Hf]; cbn [rows columns] in *.
  - apply list_elem_of_lookup in Hr as [i Hi].
    destruct (decide (j = i)) as [-> | Hne].
    + rewrite list_lookup_alter_eq in Hi.
      destruct (rows df !! i) as [r0|] eqn:E; [|discriminate].
      injection Hi as <-.
      assert (Hr0 : r0 ∈ rows df) by (eapply list_elem_of_lookup_2; eauto).
      rewrite (Hwf r0 Hr0 col), lookup_insert.
      case_decide; [subst; split; [eauto | intros _; now apply Hwf] | reflexivity].
    + rewrite list_lookup_alter_ne in Hi by assumption.
      apply Hwf. eapply list_elem_of_lookup_2; eauto.
  - assert (Hbase : forall r0, r0 ∈ rows df ->
              (col ∈ (columns df ++ [f])%list <-> is_Some (<[f:=NaN]> r0 !! col))).
    { intros r0 Hr0. rewrite elem_of_app, list_elem_of_singleton, lookup_insert.
      destruct (decide (f = col)) as [-> | ?];
        [split; eauto | rewrite (Hwf r0 Hr0 col); intuition congruence]. }
    apply list_elem_of_lookup in Hr as [i Hi].
    destruct (decide (j = i)) as [-> | Hne].
    + rewrite list_lookup_alter_eq, list_lookup_fmap in Hi.
      destruct (rows df !! i) as [r0|] eqn:E; [|discriminate].
      injection Hi as <-.
      assert (Hr0 : r0 ∈ rows df) by (eapply list_elem_of_lookup_2; eauto).
      rewrite (Hbase r0 Hr0), !lookup_insert.
      repeat case_decide; subst; split; eauto.
    + rewrite list_lookup_alter_ne, list_lookup_fmap in Hi by assumption.
      destruct (rows df !! i) as [r0|] eqn:E; [|discriminate].
      injection Hi as <-. apply Hbase. eapply list_elem_of_lookup_2; eauto.
Qed.

Lemma at_set_kept (df : frame) (i j : nat) (col f : string) (c v : cell) :
  wf_frame df -> kept df i col c -> j <> i \/ f <> col ->
  kept (at_set df j f v) i col c.
Proof.
  intros Hwf (r & Hr & Hc) Hne. unfold kept, at_set.
  assert (Hin : r ∈ rows df) by (eapply list_elem_of_lookup_2; eauto).
  destruct (decide (f ∈ columns df)) as [Hf | Hf]; cbn [rows].
  - destruct (decide (j = i)) as [-> | Hji].
    + rewrite list_lookup_alter_eq, Hr. eexists. split; [reflexivity|].
      rewrite lookup_insert_ne; [assumption | tauto].
    + rewrite list_lookup_alter_ne by assumption. eauto.
  - assert (Hfc : f <> col).
    { intros ->. apply Hf, (Hwf r Hin). eauto. }
    destruct (decide (j = i)) as [-> | Hji].
    + rewrite list_lookup_alter_eq, list_lookup_fmap, Hr.
      eexists. split; [reflexivity|].
      now rewrite !lookup_insert_ne by assumption.
    + rewrite list_lookup_alter_ne, list_lookup_fmap, Hr by assumption.
      eexists. split; [reflexivity|].
      now rewrite lookup_insert_ne by assumption.
Qed.

(** ** Citation texts *)

Lemma split_nonempty (sep : ascii) (s : string) : Py.split sep s <> [].
Proof.
  destruct s as [|c s]; simpl; [discriminate|].
  destruct (Ascii.eqb c sep); [discriminate|].
  destruct (Py.split sep s); discriminate.
Qed.

Lemma split_app (sep : ascii) (a b : string) :
  Py.split sep (a +:+ String sep b) = (Py.split sep a ++ Py.split sep b)%list.
Proof.
  induction a as [|c a IH]; simpl.
  - now rewrite Ascii.eqb_refl.
  - destruct (Ascii.eqb c sep); [now rewrite IH|].
    rewrite IH. pose proof (split_nonempty sep a) as Hne.
    destruct (Py.split sep a); [contradiction | reflexivity].
Qed.

Lemma citation_urls_append (old rest : string) :
  Py.is_empty old = false -> String.eqb old "nan" = false ->
  incl (citation_urls old) (citation_urls (old +:+ "; " +:+ rest)).
Proof.
  intros Hne Hnan. unfold citation_urls at 1. rewrite Hne, Hnan. cbn [orb].
  assert (Hnew : Py.is_empty (old +:+ "; " +:+ rest)
                 || String.eqb (old +:+ "; " +:+ rest) "nan" = false).
  { apply orb_false_iff. split.
    - destruct old; [discriminate | reflexivity].
    - apply String.eqb_neq.
      destruct old as [|c1 [|c2 [|c3 [|c4 old]]]]; intros E;
        cbv [String.append] in E; simpl in *; congruence. }
  unfold citation_urls. rewrite Hnew.
  change ("; " +:+ rest) with (String ";" (String " " rest)).
  rewrite split_app, map_app. apply incl_appl, incl_refl.
Qed.

Lemma get_str_insert (r : row) (f col : string) (v : cell) :
  get_str (<[f:=v]> r) col = if decide (f = col) then str v else get_str r col.
Proof.
  unfold get_str. rewrite lookup_insert. now destruct (decide (f = col)).
Qed.

(** ** The loop of validated_archive_import.py *)

Section ImportLoop.

(** A relation between the text a row had and the text it has, kept by the
    writes of the loop; adding the column empty must not break it. *)
Variable R : string -> string -> Prop.
Hypothesis R_fill : forall old, R old "" -> R old "nan".

Lemma at_set_text_rel (df : frame) (i j : nat) (f old : string) (v : cell) :
  wf_frame df -> text_rel R old df i ->
  (j = i -> f = "Citation URLs" -> R old (str v)) ->
  text_rel R old (at_set df j f v) i.
Proof.
  intros Hwf (r & Hr & HR) Hv. unfold text_rel, at_set.
  assert (Hin : r ∈ rows df) by (eapply list_elem_of_lookup_2; eauto).
  destruct (decide (f ∈ columns df)) as [Hf | Hf]; cbn [rows].
  - destruct (decide (j = i)) as [-> | Hji].
    + rewrite list_lookup_alter_eq, Hr. eexists. split; [reflexivity|].
      rewrite get_str_insert. destruct (decide (f = _)); auto.
    + rewrite list_lookup_alter_ne by assumption. eauto.
  - assert (Hnone : r !! f = None).
    { destruct (r !! f) eqn:E; [|reflexivity].
      exfalso. apply Hf, (Hwf r Hin). eauto. }
    destruct (decide (j = i)) as [-> | Hji].
    + rewrite list_lookup_alter_eq, list_lookup_fmap, Hr.
      eexists. split; [reflexivity|].
      rewrite !get_str_insert. destruct (decide (f = _)); auto.
    + rewrite list_lookup_alter_ne, list_lookup_fmap, Hr by assumption.
      eexists. split; [reflexivity|].
      rewrite get_str_insert. destruct (decide (f = _)) as [-> | ?]; auto.
      apply R_fill. unfold get_str in HR. now rewrite Hnone in HR.
Qed.

Lemma apply_import_text_rel df idx data i old :
  wf_frame df -> text_rel R old df i ->
  (forall f v, (f, v) ∈ data -> idx = i -> f = "Citation URLs" -> R old v) ->
  text_rel R old (apply_import df idx data) i.
Proof.
  revert df. induction data as [|[f v] data IH]; intros df Hwf Hk Hd; cbn; auto.
  apply IH.
  - now apply at_set_wf.
  - apply at_set_text_rel; auto. intros. apply (Hd f v); auto. left.
  - intros f' v' H. apply (Hd f' v'). now right.
Qed.

End ImportLoop.

Section ImportProps.

Variable urlparse_ok : string -> bool.

Lemma getitem_Ok (r : row) (col : string) (c : cell) :
  getitem r col = Ok c <-> r !! col = Some c.
Proof.
  unfold getitem. destruct (r !! col); split; congruence.
Qed.

Lemma import_validated_fields validate col current a f v :
  (f, v) ∈ import_validated validate col current a ->
  f = col /\ empty_cell current = true.
Proof.
  unfold import_validated.
  destruct (empty_cell current); [|intros H; inversion H].
  destruct (validate _) as [w|]; [|intros H; inversion H].
  destruct (Py.is_empty w); [intros H; inversion H|].
  intros H. apply list_elem_of_singleton in H. now injection H as -> ->.
Qed.

Lemma import_countries_fields current a f v :
  (f, v) ∈ import_countries current a ->
  f = "Countries Involved in Deals" /\ empty_cell current = true.
Proof.
  unfold import_countries.
  destruct (empty_cell current); [|intros H; inversion H].
  destruct (_ && _); [|intros H; inversion H].
  intros H. apply list_elem_of_singleton in H. now injection H as -> ->.
Qed.

Lemma import_citations_fields r a f v :
  (f, v) ∈ import_citations urlparse_ok r a ->
  f = "Citation URLs" /\
  exists added, v = add_citations (get_str r "Citation URLs") added.
Proof.
  unfold import_citations.
  destruct (_ && _); [|intros H; inversion H].
  destruct (new_urls _ _ _) as [|u us]; [intros H; inversion H|].
  intros H. apply list_elem_of_singleton in H. injection H as -> ->. eauto.
Qed.

(** What the dict [import_data] can hold: a new citation text, or a value
    for a guarded column whose current cell is empty. *)
Lemma import_data_fields archive r data f v :
  import_data urlparse_ok archive r = Ok data ->
  (f, v) ∈ data ->
  (f = "Citation URLs" /\
   exists added, v = add_citations (get_str r "Citation URLs") added) \/
  (In f guarded_columns /\ exists c, r !! f = Some c /\ empty_cell c = true).
Proof.
  unfold import_data.
  destruct (getitem r "Hebrew Name") as [h| |]; cbn; try discriminate.
  destruct (select archive "Hebrew Name" h) as [[|[k a] ms]| |]; cbn;
    try discriminate.
  { intros [= <-] H. inversion H. }
  destruct (getitem r "Date of Death") as [c1| |] eqn:E1; cbn;
    try discriminate.
  destruct (getitem r "Release Date") as [c2| |] eqn:E2; cbn;
    try discriminate.
  destruct (getitem r "Context of Death") as [c3| |] eqn:E3; cbn;
    try discriminate.
  destruct (getitem r "Release/Death Circumstances") as [c4| |] eqn:E4; cbn;
    try discriminate.
  destruct (getitem r "Countries Involved in Deals") as [c5| |] eqn:E5; cbn;
    try discriminate.
  apply getitem_Ok in E1, E2, E3, E4, E5.
  intros [= <-]. rewrite !elem_of_app.
  intros [H | [H | [H | [H | [H | H]]]]].
  - apply import_validated_fields in H as [-> He]. right.
    split; [cbn; auto | eauto].
  - apply import_validated_fields in H as [-> He]. right.
    split; [cbn; auto | eauto].
  - apply import_validated_fields in H as [-> He]. right.
    split; [cbn; auto | eauto].
  - apply import_validated_fields in H as [-> He]. right.
    split; [cbn; auto 10 | eauto].
  - left. eapply import_citations_fields; eauto.
  - apply import_countries_fields in H as [-> He]. right.
    split; [cbn; auto 10 | eauto].
Qed.

Lemma apply_import_wf df idx data :
  wf_frame df -> wf_frame (apply_import df idx data).
Proof.
  revert df. induction data as [|[f v] data IH]; intros df Hwf; cbn; auto.
  apply IH. now apply at_set_wf.
Qed.

Lemma apply_import_kept df idx data i col c :
  wf_frame df -> kept df i col c ->
  (forall f v, (f, v) ∈ data -> idx <> i \/ f <> col) ->
  kept (apply_import df idx data) i col c.
Proof.
  revert df. induction data as [|[f v] data IH]; intros df Hwf Hk Hd; cbn; auto.
  apply IH.
  - now apply at_set_wf.
  - apply at_set_kept; auto. apply (Hd f v). left.
  - intros f' v' H. apply (Hd f' v'). now right.
Qed.

(** A loop invariant that every row's dict preserves holds at the end. *)
Lemma import_rows_inv (I : frame -> Prop) archive pending df df' :
  (forall df idx r data,
      wf_frame df -> I df -> (idx, r) ∈ pending ->
      import_data urlparse_ok archive r = Ok data ->
      I (apply_import df idx data)) ->
  wf_frame df -> I df ->
  import_rows urlparse_ok archive pending df = Ok df' ->
  I df' /\ wf_frame df'.
Proof.
  revert df. induction pending as [|[idx r] pending IH];
    intros df Hstep Hwf HI; cbn.
  - intros [= <-]. auto.
  - destruct (import_data urlparse_ok archive r) as [data| |] eqn:E; cbn;
      try discriminate.
    apply IH.
    + intros df0 idx0 r0 data0 ? ? Hin. apply Hstep; auto. now right.
    + now apply apply_import_wf.
    + eapply Hstep; eauto. left.
Qed.

End ImportProps.

(** ** Adding citations *)

Lemma citation_urls_fill :
  citation_urls "" = [] /\ citation_urls "nan" = [].
Proof. split; reflexivity. Qed.

Lemma add_citations_incl (old added : string) :
  incl (citation_urls old) (citation_urls (add_citations old added)).
Proof.
  unfold add_citations.
  destruct (Py.is_empty old) eqn:E1; cbn [negb andb].
  { unfold citation_urls at 1. rewrite E1. apply incl_nil_l. }
  destruct (String.eqb old "nan") eqn:E2; cbn [negb].
  { unfold citation_urls at 1. rewrite E1, E2. apply incl_nil_l. }
  now apply citation_urls_append.
Qed.

Lemma add_citations_extends (old added : string) :
  extends old (add_citations old added).
Proof.
  unfold extends, add_citations. intros H. apply orb_false_iff in H as [-> ->].
  cbn [negb andb]. eauto.
Qed.

Lemma extends_fill (old : string) : extends old "" -> extends old "nan".
Proof.
  unfold extends. intros H Hold. destruct (H Hold) as [suffix Hs].
  destruct old; [discriminate Hold | discriminate Hs].
Qed.

Lemma extends_refl (old : string) : extends old old.
Proof.
  intros _. exists "". induction old as [|a old IH]; [reflexivity|].
  change (String a old +:+ "") with (String a (old +:+ "")). now rewrite <- IH.
Qed.

Lemma grows_fill (old : string) : grows old "" -> grows old "nan".
Proof. unfold grows. now cbn. Qed.

Section ImportTheorems.

Variable urlparse_ok : string -> bool.

Lemma pending_lookup (df : frame) (idx : nat) (r : row) :
  (idx, r) ∈ imap (fun i r => (i, r)) (rows df) -> rows df !! idx = Some r.
Proof.
  intros H. apply elem_of_lookup_imap_1 in H as (i & y & [= -> ->] & Hy).
  exact Hy.
Qed.

Lemma import_text_rel (R : string -> string -> Prop) archive current df' i r :
  (forall old, R old "" -> R old "nan") ->
  (forall old, R old old) ->
  (forall old added, R old (add_citations old added)) ->
  wf_frame current ->
  validated_archive_import urlparse_ok archive current = Ok df' ->
  rows current !! i = Some r ->
  text_rel R (get_str r "Citation URLs") df' i.
Proof.
  intros Hfill Hrefl Hadd Hwf Hrun Hr. unfold validated_archive_import in Hrun.
  eapply (import_rows_inv urlparse_ok
            (fun df => text_rel R (get_str r "Citation URLs") df i)) in Hrun;
    [exact (proj1 Hrun) | | assumption | ].
  - intros df idx r0 data Hwf0 HI Hin Hdata.
    apply apply_import_text_rel; auto.
    intros f v Hfv -> ->.
    apply pending_lookup in Hin. rewrite Hr in Hin. injection Hin as <-.
    destruct (import_data_fields urlparse_ok archive r data _ v Hdata Hfv)
      as [(_ & added & ->) | (Hg & _)]; [apply Hadd|].
    exfalso. cbn in Hg. intuition discriminate.
  - exists r. split; [assumption | apply Hrefl].
Qed.

Lemma import_kept archive current df' i r col c :
  wf_frame current ->
  validated_archive_import urlparse_ok archive current = Ok df' ->
  rows current !! i = Some r -> r !! col = Some c ->
  col <> "Citation URLs" ->
  (In col guarded_columns -> empty_cell c = false) ->
  kept df' i col c.
Proof.
  intros Hwf Hrun Hr Hc Hcit Hpop. unfold validated_archive_import in Hrun.
  eapply (import_rows_inv urlparse_ok (fun df => kept df i col c)) in Hrun;
    [exact (proj1 Hrun) | | assumption | ].
  - intros df idx r0 data Hwf0 HI Hin Hdata.
    apply apply_import_kept; auto.
    intros f v Hfv.
    destruct (decide (idx = i)) as [-> | Hne]; [right | now left].
    apply pending_lookup in Hin. rewrite Hr in Hin. injection Hin as <-.
    destruct (import_data_fields urlparse_ok archive r data f v Hdata Hfv)
      as [(-> & _) | (Hg & c0 & Hc0 & He)]; [congruence|].
    intros ->. rewrite Hc in Hc0. injection Hc0 as <-.
    rewrite (Hpop Hg) in He. discriminate.
  - exists r. auto.
Qed.

(** C1, as validated_archive_import.py has it.  After the import, every
    row keeps, in each column other than 'Citation URLs', the value it had,
    when that value was populated (not NaN, not 'nan') or the column is not
    one of the five the loop fills; and a populated 'Citation URLs' text is
    only extended: the text it had opens the text it has. *)
Theorem validated_import_keeps_populated
    (archive current df' : frame) (i : nat) (r : row) :
  wf_frame current ->
  validated_archive_import urlparse_ok archive current = Ok df' ->
  rows current !! i = Some r ->
  exists r' : row,
    rows df' !! i = Some r' /\
    (forall col c,
        r !! col = Some c -> col <> "Citation URLs" ->
        (In col guarded_columns -> empty_cell c = false) ->
        r' !! col = Some c) /\
    extends (get_str r "Citation URLs") (get_str r' "Citation URLs").
Proof.
  intros Hwf Hrun Hr.
  destruct (import_text_rel extends archive current df' i r
              extends_fill extends_refl add_citations_extends Hwf Hrun Hr)
    as (r' & Hr' & Hext).
  exists r'. split; [assumption|]. split; [|assumption].
  intros col c Hc Hcit Hpop.
  destruct (import_kept archive current df' i r col c Hwf Hrun Hr Hc Hcit Hpop)
    as (r'' & Hr'' & Hc'').
  congruence.
Qed.

(** The citations of every row after the import include those before. *)
Lemma validated_import_citations_grow
    (archive current df' : frame) (i : nat) (r : row) :
  wf_frame current ->
  validated_archive_import urlparse_ok archive current = Ok df' ->
  rows current !! i = Some r ->
  exists r' : row,
    rows df' !! i = Some r' /\
    grows (get_str r "Citation URLs") (get_str r' "Citation URLs").
Proof.
  intros Hwf Hrun Hr.
  exact (import_text_rel grows archive current df' i r grows_fill
           (fun old => incl_refl _) add_citations_incl Hwf Hrun Hr).
Qed.

End ImportTheorems.

(** ** Scripts that write cell by cell *)

Lemma at_get_Ok (df : frame) (j : nat) (col : string) (c : cell) :
  wf_frame df -> at_get df j col = Ok c ->
  exists r, rows df !! j = Some r /\ r !! col = Some c.
Proof.
  intros Hwf. unfold at_get.
  destruct (decide (col ∈ columns df)) as [Hcol|]; [|discriminate].
  destruct (rows df !! j) as [r|] eqn:Hr; [|discriminate].
  intros [= <-]. exists r. split; [reflexivity|].
  assert (Hin : r ∈ rows df) by (eapply list_elem_of_lookup_2; eauto).
  destruct (proj1 (Hwf r Hin col) Hcol) as [c0 Hc0]. unfold get.
  now rewrite Hc0.
Qed.

(** A write to another column leaves the citations alone. *)
Lemma at_set_other_grows df j f v old i :
  wf_frame df -> f <> "Citation URLs" ->
  text_rel grows old df i -> text_rel grows old (at_set df j f v) i.
Proof.
  intros Hwf Hf H. apply at_set_text_rel; auto using grows_fill.
  intros _ E. contradiction.
Qed.

(** The write every script uses to add citations keeps those there. *)
Lemma at_set_add_citations df j c added old i :
  wf_frame df -> at_get df j "Citation URLs" = Ok c ->
  text_rel grows old df i ->
  text_rel grows old
    (at_set df j "Citation URLs" (Str (add_citations (str c) added))) i.
Proof.
  intros Hwf Hget H. apply at_set_text_rel; auto using grows_fill.
  intros -> _. destruct H as (r & Hr & HR).
  destruct (at_get_Ok df i _ c Hwf Hget) as (r0 & Hr0 & Hc).
  rewrite Hr in Hr0. injection Hr0 as <-.
  unfold get_str in HR. rewrite Hc in HR. cbn [str].
  unfold grows in *. eapply incl_tran; [exact HR | apply add_citations_incl].
Qed.

Lemma cite_safe_start (F : frame -> result frame) df df' (i : nat) (r : row) :
  cite_safe F -> wf_frame df -> F df = Ok df' -> rows df !! i = Some r ->
  exists r' : row,
    rows df' !! i = Some r' /\
    grows (get_str r "Citation URLs") (get_str r' "Citation URLs").
Proof.
  intros HF Hwf Hrun Hr. destruct (HF df df' Hwf Hrun) as [_ H].
  apply H. exists r. split; [assumption | apply incl_refl].
Qed.

Lemma update_hersh_cite_safe tracking :
  cite_safe (fun df => UpdateHersh.update_hersh df tracking).
Proof.
  intros df df' Hwf. unfold UpdateHersh.update_hersh.
  destruct (first_index df _ _) as [idx| |]; cbn; try discriminate.
  destruct (first_index tracking _ _) as [tidx| |]; cbn; try discriminate.
  set (df3 := at_set (at_set (at_set df idx "Context of Death" _)
                        idx "Release Date" _)
                idx "Release/Death Circumstances" _).
  assert (Hwf3 : wf_frame df3) by (repeat apply at_set_wf; assumption).
  destruct (at_get df3 idx "Citation URLs") as [c| |] eqn:Hget; cbn;
    try discriminate.
  intros [= <-]. split; [now apply at_set_wf|].
  intros old i H. apply at_set_add_citations; auto.
  subst df3. repeat (apply at_set_other_grows;
                     [repeat apply at_set_wf; assumption | discriminate |]).
  assumption.
Qed.

Lemma cite_safe_id : cite_safe Ok.
Proof. intros df df' Hwf [= <-]. auto. Qed.

Lemma update_match_cite_safe idx a release_date release_circumstances :
  cite_safe (fun df => ProperlyImport.update_match df idx a release_date
                         release_circumstances).
Proof.
  intros df df' Hwf. unfold ProperlyImport.update_match.
  destruct (at_get df idx "Current Status") as [st| |]; cbn; try discriminate.
  set (df3 := at_set (at_set (at_set df idx "Current Status" _)
                        idx "Release Date" _)
                idx "Release/Death Circumstances" _).
  assert (Hwf3 : wf_frame df3) by (repeat apply at_set_wf; assumption).
  assert (H3 : forall old i, text_rel grows old df i -> text_rel grows old df3 i).
  { intros old i H. subst df3.
    repeat (apply at_set_other_grows;
            [repeat apply at_set_wf; assumption | discriminate |]).
    assumption. }
  destruct (_ && _).
  - destruct (at_get df3 idx "Citation URLs") as [c| |] eqn:Hget; cbn;
      try discriminate.
    intros [= <-]. split; [now apply at_set_wf|].
    intros old i H. apply at_set_add_citations; auto.
  - intros [= <-]. auto.
Qed.

Lemma import_release_cite_safe a :
  cite_safe (fun df => ProperlyImport.import_release df a).
Proof.
  intros df df' Hwf. unfold ProperlyImport.import_release.
  destruct (getitem a "Hebrew Name") as [h| |]; cbn; try discriminate.
  destruct (getitem a "Release Date") as [d| |]; cbn; try discriminate.
  destruct (getitem a "Release/Death Circumstances") as [rc| |]; cbn;
    try discriminate.
  destruct (_ || _); [apply cite_safe_id; assumption|].
  destruct (ProperlyImport.find_match df _ _) as [[idx|]| |]; cbn;
    try discriminate.
  - apply update_match_cite_safe; assumption.
  - apply cite_safe_id; assumption.
Qed.

Lemma import_releases_cite_safe archive_rows :
  cite_safe (ProperlyImport.import_releases archive_rows).
Proof.
  induction archive_rows as [|a rest IH]; intros df df' Hwf; cbn.
  - apply cite_safe_id; assumption.
  - destruct (ProperlyImport.import_release df a) as [df1| |] eqn:E; cbn;
      try discriminate.
    destruct (import_release_cite_safe a df df1 Hwf E) as [Hwf1 H1].
    intros Hrest. destruct (IH df1 df' Hwf1 Hrest) as [Hwf' H'].
    split; auto.
Qed.

Lemma hebrew_text_release_cite_safe idx r :
  cite_safe (fun df => ProperlyImport.hebrew_text_release df idx r).
Proof.
  intros df df' Hwf. unfold ProperlyImport.hebrew_text_release.
  destruct (getitem r "Current Status") as [st| |]; cbn [mbind result_bind]; try discriminate.
  destruct (_ && _); [|apply cite_safe_id; assumption].
  destruct (existsb _ _); [|apply cite_safe_id; assumption].
  destruct (getitem r "Release/Death Circumstances") as [rc| |]; cbn;
    try discriminate.
  destruct (getitem r "Release Date") as [rd| |]; cbn [mbind result_bind]; try discriminate.
  intros [= <-].
  destruct (isna rc), (isna rd);
    (split; [repeat apply at_set_wf; assumption|]); intros old i H;
    repeat (apply at_set_other_grows;
            [repeat apply at_set_wf; assumption | discriminate |]);
    assumption.
Qed.

Lemma hebrew_text_releases_cite_safe pending :
  cite_safe (ProperlyImport.hebrew_text_releases pending).
Proof.
  induction pending as [|[idx r] rest IH]; intros df df' Hwf; cbn.
  - apply cite_safe_id; assumption.
  - destruct (ProperlyImport.hebrew_text_release df idx r) as [df1| |] eqn:E;
      cbn; try discriminate.
    destruct (hebrew_text_release_cite_safe idx r df df1 Hwf E) as [Hwf1 H1].
    intros Hrest. destruct (IH df1 df' Hwf1 Hrest) as [Hwf' H'].
    split; auto.
Qed.

Lemma properly_import_releases_cite_safe archive :
  cite_safe (ProperlyImport.properly_import_releases archive).
Proof.
  intros df df' Hwf. unfold ProperlyImport.properly_import_releases.
  destruct (ProperlyImport.archive_released archive) as [released| |]; cbn;
    try discriminate.
  destruct (ProperlyImport.import_releases released df) as [df1| |] eqn:E;
    cbn; try discriminate.
  destruct (import_releases_cite_safe released df df1 Hwf E) as [Hwf1 H1].
  intros Hrest.
  destruct (hebrew_text_releases_cite_safe _ df1 df' Hwf1 Hrest) as [Hwf' H'].
  split; auto.
Qed.

(** Where citations are added they are kept: every citation a row has
    before the run it has after it, under the import loop of
    validated_archive_import.py, under the citation append of
    update_hersh_goldberg_polin.py and under properly_import_releases.py.
    In the import loop what is appended are archive URLs that pass
    [validate_url] and do not yet occur in the row's citation text. *)
Lemma citations_only_grow :
  (forall urlparse_ok archive current df' (i : nat) (r : row),
      wf_frame current ->
      validated_archive_import urlparse_ok archive current = Ok df' ->
      rows current !! i = Some r ->
      exists r' : row,
        rows df' !! i = Some r' /\
        grows (get_str r "Citation URLs") (get_str r' "Citation URLs")) /\
  (forall urlparse_ok current_citations archive_citations u,
      In u (new_urls urlparse_ok current_citations archive_citations) ->
      validate_url urlparse_ok u = true /\
      Py.contains u current_citations = false) /\
  (forall current tracking df' (i : nat) (r : row),
      wf_frame current ->
      UpdateHersh.update_hersh current tracking = Ok df' ->
      rows current !! i = Some r ->
      exists r' : row,
        rows df' !! i = Some r' /\
        grows (get_str r "Citation URLs") (get_str r' "Citation URLs")) /\
  (forall archive current df' (i : nat) (r : row),
      wf_frame current ->
      ProperlyImport.properly_import_releases archive current = Ok df' ->
      rows current !! i = Some r ->
      exists r' : row,
        rows df' !! i = Some r' /\
        grows (get_str r "Citation URLs") (get_str r' "Citation URLs")).
Proof.
  repeat split.
  - intros. eapply validated_import_citations_grow; eauto.
  - unfold new_urls in H. apply filter_In in H as [_ H].
    now apply andb_true_iff in H as [H _].
  - unfold new_urls in H. apply filter_In in H as [_ H].
    apply andb_true_iff in H as [_ H]. now apply negb_true_iff in H.
  - intros current tracking df' i r Hwf Hrun Hr.
    exact (cite_safe_start _ current df' i r
             (update_hersh_cite_safe tracking) Hwf Hrun Hr).
  - intros archive current df' i r Hwf Hrun Hr.
    exact (cite_safe_start _ current df' i r
             (properly_import_releases_cite_safe archive) Hwf Hrun Hr).
Qed.

(** ** Worked examples on frames *)

Lemma wf_frameb_correct (df : frame) : wf_frameb df = true -> wf_frame df.
Proof.
  unfold wf_frameb, wf_frame. rewrite forallb_forall.
  intros H r Hr col. apply list_elem_of_In in Hr.
  specialize (H r Hr). apply bool_decide_eq_true in H.
  rewrite <- elem_of_dom, H, elem_of_list_to_set. reflexivity.
Qed.

Example run_validated_import :
  exists df' (r' : row),
    validated_archive_import http_urlparse_ok Examples.archive_twice
      Examples.current_one = Ok df' /\
    rows df' !! 0 = Some r' /\
    r' !! "Release Date" = Some (Str "2023-11-24") /\
    r' !! "Release/Death Circumstances" = Some (Str "Returned in Deal") /\
    r' !! "Countries Involved in Deals" = Some (Str "Qatar") /\
    r' !! "Citation URLs" =
      Some (Str "https://www.kan.org.il/content/1/; https://www.jpost.com/israel-news/article-1").
Proof. do 2 eexists. repeat split; vm_compute; reflexivity. Qed.

Lemma current_one_wf : wf_frame Examples.current_one.
Proof. apply wf_frameb_correct. vm_compute. reflexivity. Qed.

Lemma current_one_row :
  rows Examples.current_one !! 0 =
  Some (mkrow Examples.kan_columns Examples.naama).
Proof. reflexivity. Qed.

Lemma validated_import_keeps_populated_witness :
  exists df' (r' : row),
    validated_archive_import http_urlparse_ok Examples.archive_twice
      Examples.current_one = Ok df' /\
    rows df' !! 0 = Some r' /\
    r' !! "Release Date" = Some (Str "2023-11-24").
Proof.
  assert (Hrun : exists df',
             validated_archive_import http_urlparse_ok Examples.archive_twice
               Examples.current_one = Ok df')
    by (eexists; vm_compute; reflexivity).
  destruct Hrun as [df' Hrun].
  destruct (validated_import_keeps_populated http_urlparse_ok
              Examples.archive_twice Examples.current_one df' 0 _
              current_one_wf Hrun current_one_row)
    as (r' & Hr' & Hcols & _).
  exists df', r'. split; [exact Hrun|]. split; [exact Hr'|].
  apply Hcols; [reflexivity | discriminate | reflexivity].
Defined.

(** C1 as stated fails.  properly_import_releases.py replaces a release
    date that was filled, and the import loop itself changes a filled
    'Citation URLs' cell. *)
Lemma populated_fields_overwritten :
  (exists df' (r r' : row),
      ProperlyImport.properly_import_releases Examples.archive_one
        Examples.current_one = Ok df' /\
      rows Examples.current_one !! 0 = Some r /\
      rows df' !! 0 = Some r' /\
      r !! "Release Date" = Some (Str "2023-11-24") /\
      r' !! "Release Date" = Some (Str "2025-01-25")) /\
  (exists df' (r r' : row),
      validated_archive_import http_urlparse_ok Examples.archive_one
        Examples.current_one = Ok df' /\
      rows Examples.current_one !! 0 = Some r /\
      rows df' !! 0 = Some r' /\
      r !! "Citation URLs" = Some (Str "https://www.kan.org.il/content/1/") /\
      r' !! "Citation URLs" =
        Some (Str "https://www.kan.org.il/content/1/; https://www.jpost.com/israel-news/article-1")).
Proof.
  split; do 3 eexists; repeat split; vm_compute; reflexivity.
Qed.

Lemma citations_only_grow_witness :
  exists df' (r' : row),
    validated_archive_import http_urlparse_ok Examples.archive_one
      Examples.current_one = Ok df' /\
    rows df' !! 0 = Some r' /\
    grows "https://www.kan.org.il/content/1/" (get_str r' "Citation URLs").
Proof.
  assert (Hrun : exists df',
             validated_archive_import http_urlparse_ok Examples.archive_one
               Examples.current_one = Ok df')
    by (eexists; vm_compute; reflexivity).
  destruct Hrun as [df' Hrun].
  destruct (proj1 citations_only_grow http_urlparse_ok
              Examples.archive_one Examples.current_one df' 0 _
              current_one_wf Hrun current_one_row)
    as (r' & Hr' & Hgrow).
  exists df', r'. split; [exact Hrun|]. split; [exact Hr' | exact Hgrow].
Defined.

(** ** Loading and duplicate keys *)

Lemma select_first (df : frame) (col : string) (h : cell)
    (i : nat) (a : row) (rest : list (nat * row)) :
  select df col h = Ok ((i, a) :: rest) ->
  col ∈ columns df /\ cell_eqb (get a col) h = true.
Proof.
  unfold select. destruct (decide (col ∈ columns df)); [|discriminate].
  intros [= H]. split; [assumption|].
  assert (Hin : (i, a) ∈ filter
            (fun ir : nat * row => Is_true (cell_eqb (get ir.2 col) h))
            (imap (fun i r => (i, r)) (rows df))) by (rewrite H; left).
  apply list_elem_of_filter in Hin as [Hp _]. now apply Is_true_true.
Qed.


(** ** comprehensive_data_extraction.py, run twice *)

(** C2 fails on the extraction loop.  The row flag [updated], set when the
    death date is written, keeps the release phrases from being tried in
    the same run; the next run finds the death date filled, tries them and
    writes a release date: the second run changes the store. *)
Lemma extraction_second_run_changes_store :
  exists df1 df2 (r1 r2 : row),
    Extraction.comprehensive_data_extraction Examples.unknown_one = Ok df1 /\
    Extraction.comprehensive_data_extraction (reload df1) = Ok df2 /\
    rows (reload df1) !! 0 = Some r1 /\
    rows df2 !! 0 = Some r2 /\
    r1 !! "Date of Death" = Some (Str "2023-10-07") /\
    r1 !! "Release Date" = Some NaN /\
    r2 !! "Release Date" = Some (Str "2023-11-24").
Proof. do 4 eexists. repeat split; vm_compute; reflexivity. Qed.

(** ** Loops that write at the index of the row they read *)

Lemma get_insert (r : row) (f col : string) (v : cell) :
  get (<[f:=v]> r) col = if decide (f = col) then v else get r col.
Proof.
  unfold get. destruct (decide (f = col)) as [->|Hne].
  - now rewrite lookup_insert_eq.
  - now rewrite lookup_insert_ne.
Qed.

Lemma at_set_lookup (df : frame) (i j : nat) (f : string) (v : cell) (r : row) :
  wf_frame df -> rows df !! i = Some r ->
  exists r' : row,
    rows (at_set df j f v) !! i = Some r' /\
    forall col, get r' col = if decide (j = i /\ f = col) then v else get r col.
Proof.
  intros Hwf Hr. unfold at_set.
  assert (Hin : r ∈ rows df) by (eapply list_elem_of_lookup_2; eauto).
  destruct (decide (f ∈ columns df)) as [Hf|Hf]; cbn [rows].
  - destruct (decide (j = i)) as [->|Hne].
    + exists (<[f:=v]> r). split.
      * rewrite list_lookup_alter_eq, Hr. reflexivity.
      * intros col. rewrite get_insert.
        destruct (decide (f = col)), (decide (i = i /\ f = col)); tauto.
    + exists r. split.
      * now rewrite list_lookup_alter_ne.
      * intros col. destruct (decide (j = i /\ f = col)); tauto.
  - assert (Hnone : get r f = NaN).
    { unfold get. destruct (r !! f) eqn:E; [|reflexivity].
      exfalso. apply Hf. apply (Hwf r Hin f). eauto. }
    destruct (decide (j = i)) as [->|Hne].
    + exists (<[f:=v]> (<[f:=NaN]> r)). split.
      * rewrite list_lookup_alter_eq, list_lookup_fmap, Hr. reflexivity.
      * intros col. rewrite !get_insert.
        destruct (decide (f = col)), (decide (i = i /\ f = col)); tauto.
    + exists (<[f:=NaN]> r). split.
      * rewrite list_lookup_alter_ne by exact Hne.
        rewrite list_lookup_fmap, Hr. reflexivity.
      * intros col. rewrite get_insert.
        destruct (decide (j = i /\ f = col)) as [[? _]|_]; [contradiction|].
        destruct (decide (f = col)) as [<-|]; [now rewrite Hnone | reflexivity].
Qed.

Lemma apply_writes_wf (df : frame) (j : nat) (ws : list (string * cell)) :
  wf_frame df -> wf_frame (apply_writes df j ws).
Proof.
  revert df. induction ws as [|[f v] ws IH]; intros df Hwf; [exact Hwf|].
  apply IH. now apply at_set_wf.
Qed.

Lemma apply_writes_lookup (df : frame) (i j : nat) (ws : list (string * cell))
    (r : row) :
  wf_frame df -> rows df !! i = Some r ->
  exists r' : row,
    rows (apply_writes df j ws) !! i = Some r' /\
    forall col,
      get r' col = if decide (j = i) then written ws col (get r col)
                   else get r col.
Proof.
  revert df r. induction ws as [|[f v] ws IH]; intros df r Hwf Hr.
  - exists r. split; [exact Hr|]. intros col. now destruct (decide (j = i)).
  - destruct (at_set_lookup df i j f v r Hwf Hr) as (r1 & Hr1 & Hget1).
    destruct (IH (at_set df j f v) r1 (at_set_wf _ _ _ _ Hwf) Hr1)
      as (r' & Hr' & Hget').
    exists r'. split; [exact Hr'|]. intros col.
    rewrite Hget', Hget1. unfold written. cbn [foldl fst snd].
    destruct (decide (j = i)) as [->|Hne].
    + destruct (decide (f = col)), (decide (i = i /\ f = col)); tauto.
    + destruct (decide (j = i /\ f = col)); tauto.
Qed.

Lemma apply_writes_length (df : frame) (j : nat) (ws : list (string * cell)) :
  length (rows (apply_writes df j ws)) = length (rows df).
Proof.
  revert df. induction ws as [|[f v] ws IH]; intros df; [reflexivity|].
  cbn [apply_writes foldl]. change (foldl _ ?d ws) with (apply_writes d j ws).
  rewrite IH. unfold at_set. cbn [fst snd].
  destruct (decide (f ∈ columns df)); cbn [rows];
    now rewrite ?length_alter, ?length_fmap.
Qed.

(** What a loop over the rows leaves: every row it visits carries the
    writes its body asked for, the others are as they were. *)
Lemma for_rows_spec (body : row -> result (list (string * cell)))
    (pending : list (nat * row)) (df df' : frame) :
  wf_frame df -> NoDup (fst <$> pending) ->
  for_rows body pending df = Ok df' ->
  wf_frame df' /\ length (rows df') = length (rows df) /\
  (forall i r, (i, r) ∈ pending -> exists ws, body r = Ok ws) /\
  forall (i : nat) (r0 : row),
    rows df !! i = Some r0 ->
    exists r' : row,
      rows df' !! i = Some r' /\
      (i ∉ fst <$> pending -> forall col, get r' col = get r0 col) /\
      (forall r ws, (i, r) ∈ pending -> body r = Ok ws ->
         forall col, get r' col = written ws col (get r0 col)).
Proof.
  revert df. induction pending as [|[j r] pending IH]; intros df Hwf Hnd Hrun.
  - injection Hrun as <-. split; [exact Hwf|]. split; [reflexivity|].
    split; [intros i r Hin; inversion Hin|].
    intros i r0 Hr0. exists r0. split; [exact Hr0|]. split; [reflexivity|].
    intros r ws Hin. inversion Hin.
  - cbn [for_rows] in Hrun.
    destruct (body r) as [ws| |] eqn:Hbody; try discriminate.
    cbn [mbind result_bind] in Hrun.
    cbn [fmap list_fmap fst] in Hnd. apply NoDup_cons in Hnd as [Hj Hnd].
    destruct (IH _ (apply_writes_wf df j ws Hwf) Hnd Hrun)
      as (Hwf' & Hlen & Hbodies & Hrows).
    split; [exact Hwf'|]. split; [now rewrite Hlen, apply_writes_length|].
    split.
    { intros i r1 Hin. apply elem_of_cons in Hin as [[= -> ->]|Hin]; eauto. }
    intros i r0 Hr0.
    destruct (apply_writes_lookup df i j ws r0 Hwf Hr0) as (r1 & Hr1 & Hget1).
    destruct (Hrows i r1 Hr1) as (r' & Hr' & Hout & Hin').
    exists r'. split; [exact Hr'|]. split.
    + intros Hni col. rewrite Hout.
      * rewrite Hget1. destruct (decide (j = i)) as [->|]; [|reflexivity].
        exfalso. apply Hni. cbn. left.
      * intros Hin. apply Hni. cbn. now right.
    + intros r2 ws2 Hin Hb2 col.
      apply elem_of_cons in Hin as [[= -> ->]|Hin].
      * rewrite Hout by exact Hj. rewrite Hget1.
        rewrite Hbody in Hb2. injection Hb2 as <-.
        now destruct (decide (j = j)).
      * rewrite (Hin' r2 ws2 Hin Hb2 col), Hget1.
        destruct (decide (j = i)) as [->|]; [|reflexivity].
        exfalso. apply Hj. apply list_elem_of_fmap. now exists (i, r2).
Qed.

Lemma iterrows_lookup (df : frame) (i : nat) (r : row) :
  (i, r) ∈ iterrows df <-> rows df !! i = Some r.
Proof.
  unfold iterrows. rewrite list_elem_of_lookup. split.
  - intros [k Hk]. rewrite list_lookup_imap in Hk.
    destruct (rows df !! k) eqn:E; [|discriminate]. cbn in Hk.
    now injection Hk as <- <-.
  - intros Hr. exists i. now rewrite list_lookup_imap, Hr.
Qed.

Lemma iterrows_NoDup (df : frame) : NoDup (fst <$> iterrows df).
Proof.
  unfold iterrows. apply NoDup_alt. intros a b x Ha Hb.
  rewrite list_lookup_fmap, list_lookup_imap in Ha, Hb.
  destruct (rows df !! a); [|discriminate].
  destruct (rows df !! b); [|discriminate].
  cbn in Ha, Hb. congruence.
Qed.

(** The same for a loop over [df.iterrows()] that writes to [df]. *)
Lemma for_rows_iterrows (body : row -> result (list (string * cell)))
    (df df' : frame) :
  wf_frame df -> for_rows body (iterrows df) df = Ok df' ->
  wf_frame df' /\ length (rows df') = length (rows df) /\
  forall (i : nat) (r : row),
    rows df !! i = Some r ->
    exists ws (r' : row),
      body r = Ok ws /\ rows df' !! i = Some r' /\
      forall col, get r' col = written ws col (get r col).
Proof.
  intros Hwf Hrun.
  destruct (for_rows_spec body _ df df' Hwf (iterrows_NoDup df) Hrun)
    as (Hwf' & Hlen & Hbodies & Hrows).
  split; [exact Hwf'|]. split; [exact Hlen|]. intros i r Hr.
  assert (Hin : (i, r) ∈ iterrows df) by now apply iterrows_lookup.
  destruct (Hbodies i r Hin) as [ws Hws].
  destruct (Hrows i r Hr) as (r' & Hr' & _ & Hget).
  exists ws, r'. split; [exact Hws|]. split; [exact Hr'|].
  exact (Hget r ws Hin Hws).
Qed.

Lemma status_is_eq (st : cell) (s : string) :
  status_is st s = true <-> st = Str s.
Proof.
  unfold status_is, cell_eqb. destruct st as [|t]; [split; discriminate|].
  rewrite String.eqb_eq. split; congruence.
Qed.

Lemma written_cases (ws : list (string * cell)) (col : string) (c : cell) :
  written ws col c = c \/ (col, written ws col c) ∈ ws.
Proof.
  revert c. induction ws as [|[f v] ws IH]; intros c; [now left|].
  change (written ((f, v) :: ws) col c)
    with (written ws col (if decide (f = col) then v else c)).
  destruct (decide (f = col)) as [->|Hne].
  - right. destruct (IH v) as [->|Hin]; [left | now right].
  - destruct (IH c) as [Hc|Hin]; [now left | right; now right].
Qed.

Lemma get_Some (r : row) (col : string) (c : cell) :
  get r col = c -> c <> NaN -> r !! col = Some c.
Proof.
  unfold get. destruct (r !! col) as [c'|]; cbn; intros <- H; congruence.
Qed.

Lemma lookup_get (r : row) (col : string) (c : cell) :
  r !! col = Some c -> get r col = c.
Proof. unfold get. now intros ->. Qed.


Ltac split_ifs E :=
  repeat match type of E with
         | context [if ?c then _ else _] => destruct c eqn:?
         | context [match ?c with Some _ => _ | None => _ end] =>
             destruct c eqn:?
         end.

Ltac in_list H :=
  repeat (apply elem_of_cons in H as [H|H]; [injection H as -> ->|]);
  try (apply elem_of_nil in H; destruct H).

Lemma isna_NaN (c : cell) : isna c = true -> c = NaN.
Proof. now destruct c. Qed.

Lemma extract_row_writes (r : row) (ws : list (string * cell)) f v :
  Extraction.extract_row r = Ok ws -> (f, v) ∈ ws ->
  (In f ["Date of Death"; "Context of Death"; "Release Date";
         "Release/Death Circumstances"] /\ r !! f = Some NaN) \/
  (f = "Current Status" /\ v = Str "Released" /\
   r !! "Current Status" = Some (Str "Unknown") /\
   r !! "Release/Death Circumstances" = Some NaN).
Proof.
  unfold Extraction.extract_row. intros H.
  destruct (getitem r "Hebrew Name") as [hebrew_name| |] eqn:E0; try discriminate.
  destruct (getitem r "Current Status") as [st| |] eqn:Est; try discriminate.
  destruct (getitem r "Date of Death") as [death| |] eqn:Ed; try discriminate.
  cbn [mbind result_bind] in H. cbv zeta in H.
  match type of H with
  | (let '(_, _) := ?X in _) = _ => destruct X as [w_death u1] eqn:E1
  end.
  destruct (getitem r "Context of Death") as [context| |] eqn:Ec; try discriminate.
  cbn [mbind result_bind] in H.
  match type of H with
  | (let '(_, _) := ?X in _) = _ => destruct X as [w_context u2] eqn:E2
  end.
  destruct (getitem r "Release Date") as [release| |] eqn:Er; try discriminate.
  cbn [mbind result_bind] in H.
  match type of H with
  | (let '(_, _) := ?X in _) = _ => destruct X as [w_release u3] eqn:E3
  end.
  destruct (getitem r "Release/Death Circumstances") as [circ| |] eqn:Ecirc;
    try discriminate.
  cbn [mbind result_bind] in H. injection H as <-.
  apply getitem_Ok in Est, Ed, Ec, Er, Ecirc.
  rewrite !elem_of_app. intros [Hin|[Hin|[Hin|Hin]]].
  - left. clear E2 E3.
    destruct (isna death) eqn:Hna; [apply isna_NaN in Hna; subst death|];
      split_ifs E1; injection E1 as <- _; in_list Hin;
      (split; [cbn; tauto | assumption]).
  - left. clear E1 E3.
    destruct (isna context) eqn:Hna; [apply isna_NaN in Hna; subst context|];
      split_ifs E2; injection E2 as <- _; in_list Hin;
      (split; [cbn; tauto | assumption]).
  - left. clear E1 E2.
    destruct (isna release) eqn:Hna; [apply isna_NaN in Hna; subst release|];
      split_ifs E3; injection E3 as <- _; in_list Hin;
      (split; [cbn; tauto | assumption]).
  - clear E1 E2 E3.
    destruct (isna circ) eqn:Hna; [apply isna_NaN in Hna; subst circ|];
      [|in_list Hin].
    split_ifs Hin; in_list Hin;
      first [ left; split; [cbn; tauto | assumption]
            | right;
              match goal with
              | Hs : status_is st "Unknown" = true |- _ =>
                  apply status_is_eq in Hs; subst st
              end; auto ].
Qed.

(** The extraction fills cells, it does not replace them: a cell that held
    a value before the run holds it after the run, in every column but the
    status; the status changes only from 'Unknown' to 'Released', and only
    on a row whose circumstances were missing. *)
Theorem extraction_fills_only_missing (current df' : frame) (i : nat) (r : row) :
  wf_frame current ->
  Extraction.comprehensive_data_extraction current = Ok df' ->
  rows current !! i = Some r ->
  length (rows df') = length (rows current) /\
  exists r' : row,
    rows df' !! i = Some r' /\
    (forall col c, r !! col = Some c -> c <> NaN -> col <> "Current Status" ->
                   r' !! col = Some c) /\
    (get r' "Current Status" = get r "Current Status" \/
     (r !! "Current Status" = Some (Str "Unknown") /\
      r !! "Release/Death Circumstances" = Some NaN /\
      get r' "Current Status" = Str "Released")).
Proof.
  intros Hwf Hrun Hr. unfold Extraction.comprehensive_data_extraction in Hrun.
  destruct (for_rows_iterrows _ _ _ Hwf Hrun) as (_ & Hlen & Hrows).
  split; [exact Hlen|].
  destruct (Hrows i r Hr) as (ws & r' & Hws & Hr' & Hget).
  exists r'. split; [exact Hr'|]. split.
  - intros col c Hc Hna Hcol. apply get_Some; [|exact Hna].
    rewrite Hget, (lookup_get _ _ _ Hc).
    destruct (written_cases ws col c) as [Heq|Hin]; [exact Heq|].
    destruct (extract_row_writes r ws _ _ Hws Hin)
      as [[_ Hnan]|(Hst & _)]; congruence.
  - rewrite Hget.
    destruct (written_cases ws "Current Status" (get r "Current Status"))
      as [Heq|Hin]; [now left|].
    destruct (extract_row_writes r ws _ _ Hws Hin)
      as [[Hf _]|(_ & Hv & Hst & Hcirc)].
    + cbn in Hf. intuition discriminate.
    + right. auto.
Qed.

Lemma unknown_one_wf : wf_frame Examples.unknown_one.
Proof. apply wf_frameb_correct. vm_compute. reflexivity. Qed.

Lemma extraction_fills_only_missing_witness :
  exists df' (r' : row),
    Extraction.comprehensive_data_extraction Examples.unknown_one = Ok df' /\
    rows df' !! 0 = Some r' /\
    r' !! "Hebrew Name" = Some (Str "פלוני אלמוני").
Proof.
  assert (Hobs :
            match Extraction.comprehensive_data_extraction
                    Examples.unknown_one with
            | Ok _ => true
            | _ => false
            end = true) by (vm_compute; reflexivity).
  destruct (Extraction.comprehensive_data_extraction Examples.unknown_one)
    as [df'| |] eqn:Hrun; try discriminate Hobs.
  destruct (extraction_fills_only_missing Examples.unknown_one df' 0 _
              unknown_one_wf Hrun eq_refl) as (_ & r' & Hr' & Hkeep & _).
  exists df', r'. split; [reflexivity|]. split; [exact Hr'|].
  apply Hkeep; [reflexivity | discriminate | discriminate].
Defined.

(** ** fix_data_consistency.py *)

Lemma blank_get (r : row) (col : string) :
  Checker.blank (get_str r col) = Checker.blank (str (get r col)).
Proof. unfold get_str, get. now destruct (r !! col). Qed.

Lemma getitem_get (r : row) (col : string) (c : cell) :
  getitem r col = Ok c -> get r col = c.
Proof. intros H. apply getitem_Ok in H. now apply lookup_get. Qed.

Lemma Ok_inj {A} (a b : A) : Ok a = Ok b -> a = b.
Proof. now intros [= ->]. Qed.

(** What the first loop leaves of a row. *)
Lemma fix_row_held (r : row) (ws : list (string * cell)) :
  FixConsistency.fix_row r = Ok ws ->
  written ws "Current Status" (get r "Current Status") = Str "Held in Gaza" ->
  Checker.blank (str (written ws "Release Date" (get r "Release Date"))) = true.
Proof.
  unfold FixConsistency.fix_row. intros H.
  destruct (getitem r "Current Status") as [st| |] eqn:Est; try discriminate.
  unfold mbind, result_bind in H. cbv beta iota zeta in H.
  apply Ok_inj in H. subst ws.
  rewrite (getitem_get _ _ _ Est).
  change (Py.mem (get_str r "Release Date") ["nan"; ""])
    with (Checker.blank (get_str r "Release Date")).
  rewrite blank_get.
  set (held := status_is st "Held in Gaza").
  set (rel := status_is st "Released").
  assert (Hheld : held = true -> st = Str "Held in Gaza")
    by apply status_is_eq.
  assert (Hrel : rel = true -> st = Str "Released") by apply status_is_eq.
  assert (Hst : st = Str "Held in Gaza" -> held = true)
    by apply status_is_eq.
  clearbody held rel.
  destruct (Checker.blank (str (get r "Release Date"))) eqn:Hb;
    destruct held, rel;
    try (specialize (Hheld eq_refl)); try (specialize (Hrel eq_refl));
    try congruence; cbn [andb negb];
    repeat match goal with
           | |- context [if ?c then _ else _] => destruct c
           end;
    cbn -[Checker.blank str]; try rewrite Hb; try reflexivity;
    try discriminate;
    intros Hs; specialize (Hst Hs); discriminate.
Qed.

Lemma fix_row_writes (r : row) (ws : list (string * cell)) f v :
  FixConsistency.fix_row r = Ok ws -> (f, v) ∈ ws ->
  (f = "Current Status" /\
   (get r "Current Status" = Str "Held in Gaza" \/
    get r "Current Status" = Str "Released")) \/
  (f = "Release Date" /\ v = Str "").
Proof.
  unfold FixConsistency.fix_row. intros H.
  destruct (getitem r "Current Status") as [st| |] eqn:Est; try discriminate.
  unfold mbind, result_bind in H. cbv beta iota zeta in H.
  apply Ok_inj in H. subst ws. rewrite (getitem_get _ _ _ Est).
  set (held := status_is st "Held in Gaza").
  set (rel := status_is st "Released").
  assert (Hheld : held = true -> st = Str "Held in Gaza")
    by apply status_is_eq.
  assert (Hrel : rel = true -> st = Str "Released") by apply status_is_eq.
  clearbody held rel. rewrite elem_of_app. intros [Hin|Hin].
  - destruct held, rel; cbn [andb] in Hin; split_ifs Hin; in_list Hin; auto.
  - split_ifs Hin; in_list Hin; auto.
Qed.

Lemma held_circumstances_writes (r : row) (ws : list (string * cell)) f v :
  FixConsistency.held_circumstances r = Ok ws -> (f, v) ∈ ws ->
  f = "Release/Death Circumstances" /\ v = Str "Currently Held Captive" /\
  get r "Current Status" = Str "Held in Gaza" /\
  Checker.blank (str (get r "Release/Death Circumstances")) = true.
Proof.
  unfold FixConsistency.held_circumstances. intros H.
  destruct (getitem r "Current Status") as [st| |] eqn:Est; try discriminate.
  unfold mbind, result_bind in H. cbv beta iota zeta in H.
  rewrite (getitem_get _ _ _ Est).
  destruct (status_is st "Held in Gaza") eqn:Hheld;
    [apply status_is_eq in Hheld; subst st|];
    [|apply Ok_inj in H; subst ws; intros Hin; in_list Hin].
  change (Py.mem (get_str r "Release/Death Circumstances") ["nan"; ""])
    with (Checker.blank (get_str r "Release/Death Circumstances")) in H.
  rewrite blank_get in H.
  destruct (Checker.blank (str (get r "Release/Death Circumstances")));
    apply Ok_inj in H; subst ws; intros Hin; in_list Hin; auto.
Qed.

(** The two loops of the script, row by row. *)
Lemma fix_data_consistency_rows (df df' : frame) :
  wf_frame df -> FixConsistency.fix_data_consistency df = Ok df' ->
  length (rows df') = length (rows df) /\
  forall (i : nat) (r : row),
    rows df !! i = Some r ->
    exists ws1 (r1 : row) ws2 (r' : row),
      FixConsistency.fix_row r = Ok ws1 /\
      (forall col, get r1 col = written ws1 col (get r col)) /\
      FixConsistency.held_circumstances r1 = Ok ws2 /\
      rows df' !! i = Some r' /\
      (forall col, get r' col = written ws2 col (get r1 col)).
Proof.
  intros Hwf Hrun. unfold FixConsistency.fix_data_consistency in Hrun.
  destruct (for_rows FixConsistency.fix_row (iterrows df) df)
    as [df1| |] eqn:H1; try discriminate.
  unfold mbind, result_bind in Hrun.
  destruct (for_rows_iterrows _ _ _ Hwf H1) as (Hwf1 & Hlen1 & Hrows1).
  destruct (for_rows_iterrows _ _ _ Hwf1 Hrun) as (_ & Hlen2 & Hrows2).
  split; [congruence|]. intros i r Hr.
  destruct (Hrows1 i r Hr) as (ws1 & r1 & Hws1 & Hr1 & Hget1).
  destruct (Hrows2 i r1 Hr1) as (ws2 & r' & Hws2 & Hr' & Hget2).
  exists ws1, r1, ws2, r'. auto.
Qed.

Lemma held_circumstances_filled (r : row) (ws : list (string * cell)) :
  FixConsistency.held_circumstances r = Ok ws ->
  get r "Current Status" = Str "Held in Gaza" ->
  Checker.blank
    (str (written ws "Release/Death Circumstances"
            (get r "Release/Death Circumstances"))) = false.
Proof.
  unfold FixConsistency.held_circumstances. intros H Hst.
  destruct (getitem r "Current Status") as [st| |] eqn:Est; try discriminate.
  unfold mbind, result_bind in H. cbv beta iota zeta in H.
  rewrite (getitem_get _ _ _ Est) in Hst. subst st.
  change (status_is (Str "Held in Gaza") "Held in Gaza") with true in H.
  cbv iota in H.
  change (Py.mem (get_str r "Release/Death Circumstances") ["nan"; ""])
    with (Checker.blank (get_str r "Release/Death Circumstances")) in H.
  rewrite blank_get in H.
  destruct (Checker.blank (str (get r "Release/Death Circumstances"))) eqn:Hb;
    apply Ok_inj in H; subst ws; [reflexivity | exact Hb].
Qed.

Lemma written_none (ws : list (string * cell)) (col : string) (c : cell) :
  (forall v, (col, v) ∉ ws) -> written ws col c = c.
Proof.
  intros H. destruct (written_cases ws col c) as [Heq|Hin]; [exact Heq|].
  now apply H in Hin.
Qed.

(** After the fix no record is 'Held in Gaza' with a release date, and
    every record that is 'Held in Gaza' has circumstances. *)
Theorem fix_leaves_held_without_release_date
    (df df' : frame) (i : nat) (r' : row) :
  wf_frame df -> FixConsistency.fix_data_consistency df = Ok df' ->
  rows df' !! i = Some r' ->
  get r' "Current Status" = Str "Held in Gaza" ->
  Checker.blank (get_str r' "Release Date") = true /\
  Checker.blank (get_str r' "Release/Death Circumstances") = false.
Proof.
  intros Hwf Hrun Hr' Hst.
  destruct (fix_data_consistency_rows df df' Hwf Hrun) as [Hlen Hrows].
  assert (Hlt : i < length (rows df)).
  { rewrite <- Hlen. eapply lookup_lt_Some; eauto. }
  apply lookup_lt_is_Some in Hlt as [r Hr].
  destruct (Hrows i r Hr)
    as (ws1 & r1 & ws2 & r'' & Hws1 & Hget1 & Hws2 & Hr'' & Hget2).
  rewrite Hr' in Hr''. injection Hr'' as <-.
  assert (Hkeep : forall col, col <> "Release/Death Circumstances" ->
                              get r' col = get r1 col).
  { intros col Hcol. rewrite Hget2. apply written_none. intros v Hin.
    destruct (held_circumstances_writes r1 ws2 _ _ Hws2 Hin) as [-> _].
    now apply Hcol. }
  rewrite Hkeep in Hst by discriminate.
  rewrite !blank_get. split.
  - rewrite Hkeep by discriminate. rewrite Hget1.
    apply (fix_row_held r ws1 Hws1). now rewrite <- Hget1.
  - rewrite Hget2. now apply held_circumstances_filled.
Qed.

Lemma held_two_wf : wf_frame Examples.held_two.
Proof. apply wf_frameb_correct. vm_compute. reflexivity. Qed.

Lemma fix_leaves_held_without_release_date_witness :
  exists df' (r' : row),
    FixConsistency.fix_data_consistency Examples.held_two = Ok df' /\
    rows df' !! 0 = Some r' /\
    Checker.blank (get_str r' "Release Date") = true /\
    Checker.blank (get_str r' "Release/Death Circumstances") = false.
Proof.
  assert (Hobs :
            match FixConsistency.fix_data_consistency Examples.held_two with
            | Ok df' =>
                match rows df' !! 0 with
                | Some r' => cell_eqb (get r' "Current Status")
                               (Str "Held in Gaza")
                | None => false
                end
            | _ => false
            end = true) by (vm_compute; reflexivity).
  destruct (FixConsistency.fix_data_consistency Examples.held_two)
    as [df'| |] eqn:Hrun; try discriminate Hobs.
  destruct (rows df' !! 0) as [r'|] eqn:Hr'; try discriminate Hobs.
  apply status_is_eq in Hobs.
  exists df', r'. split; [reflexivity|]. split; [exact Hr'|].
  exact (fix_leaves_held_without_release_date Examples.held_two df' 0 r'
           held_two_wf Hrun Hr' Hobs).
Defined.

(** The fix writes three columns and nothing else; it changes the status
    of a record only when that was 'Held in Gaza' or 'Released'; it clears
    release dates and never sets one; it fills missing circumstances of
    the held and never replaces circumstances that were there. *)
Theorem fix_changes_only (df df' : frame) (i : nat) (r : row) :
  wf_frame df -> FixConsistency.fix_data_consistency df = Ok df' ->
  rows df !! i = Some r ->
  length (rows df') = length (rows df) /\
  exists r' : row,
    rows df' !! i = Some r' /\
    (forall col,
        ~ In col ["Current Status"; "Release Date";
                  "Release/Death Circumstances"] ->
        get r' col = get r col) /\
    (get r "Current Status" <> Str "Held in Gaza" ->
     get r "Current Status" <> Str "Released" ->
     get r' "Current Status" = get r "Current Status") /\
    (get r' "Release Date" = get r "Release Date" \/
     get r' "Release Date" = Str "") /\
    (get r' "Release/Death Circumstances"
     = get r "Release/Death Circumstances" \/
     (Checker.blank (str (get r "Release/Death Circumstances")) = true /\
      get r' "Current Status" = Str "Held in Gaza" /\
      get r' "Release/Death Circumstances" = Str "Currently Held Captive")).
Proof.
  intros Hwf Hrun Hr.
  destruct (fix_data_consistency_rows df df' Hwf Hrun) as [Hlen Hrows].
  split; [exact Hlen|].
  destruct (Hrows i r Hr)
    as (ws1 & r1 & ws2 & r' & Hws1 & Hget1 & Hws2 & Hr' & Hget2).
  exists r'. split; [exact Hr'|].
  assert (H2 : forall col, col <> "Release/Death Circumstances" ->
                           get r' col = get r1 col).
  { intros col Hcol. rewrite Hget2. apply written_none. intros v Hin.
    destruct (held_circumstances_writes r1 ws2 _ _ Hws2 Hin) as [-> _].
    now apply Hcol. }
  assert (H1 : get r1 "Release/Death Circumstances"
               = get r "Release/Death Circumstances").
  { rewrite Hget1. apply written_none. intros v Hin.
    destruct (fix_row_writes r ws1 _ _ Hws1 Hin) as [[? _]|[? _]];
      discriminate. }
  split; [|split; [|split]].
  - intros col Hcol. cbn in Hcol.
    rewrite H2 by (intros ->; tauto).
    rewrite Hget1. apply written_none. intros v Hin.
    destruct (fix_row_writes r ws1 _ _ Hws1 Hin) as [[-> _]|[-> _]];
      apply Hcol; auto.
  - intros Hheld Hrel. rewrite H2 by discriminate. rewrite Hget1.
    destruct (written_cases ws1 "Current Status" (get r "Current Status"))
      as [Heq|Hin]; [exact Heq|].
    destruct (fix_row_writes r ws1 _ _ Hws1 Hin) as [[_ [?|?]]|[? _]];
      [contradiction | contradiction | discriminate].
  - rewrite H2 by discriminate. rewrite Hget1.
    destruct (written_cases ws1 "Release Date" (get r "Release Date"))
      as [Heq|Hin]; [now left|].
    destruct (fix_row_writes r ws1 _ _ Hws1 Hin) as [[? _]|[_ Hv]];
      [discriminate | now right].
  - rewrite Hget2, <- H1.
    destruct (written_cases ws2 "Release/Death Circumstances"
                (get r1 "Release/Death Circumstances")) as [Heq|Hin];
      [now left|].
    destruct (held_circumstances_writes r1 ws2 _ _ Hws2 Hin)
      as (_ & Hv & Hst & Hb).
    right. split; [exact Hb|]. split; [|exact Hv].
    now rewrite H2 by discriminate.
Qed.

Lemma fix_changes_only_witness :
  exists df' (r' : row),
    FixConsistency.fix_data_consistency Examples.held_two = Ok df' /\
    rows df' !! 1 = Some r' /\
    get r' "Hebrew Name" = Str "פלונית אלמונית".
Proof.
  assert (Hobs :
            match FixConsistency.fix_data_consistency Examples.held_two with
            | Ok _ => true
            | _ => false
            end = true) by (vm_compute; reflexivity).
  destruct (FixConsistency.fix_data_consistency Examples.held_two)
    as [df'| |] eqn:Hrun; try discriminate Hobs.
  destruct (fix_changes_only Examples.held_two df' 1 _ held_two_wf Hrun
              eq_refl) as (_ & r' & Hr' & Hkeep & _).
  exists df', r'. split; [reflexivity|]. split; [exact Hr'|].
  rewrite Hkeep; [reflexivity|]. cbn. intuition discriminate.
Defined.

(** Rules 1 and 5 on one record: a record 'Held in Gaza' that carries a
    release date and the circumstances 'Currently Held Captive' leaves the
    fix as 'Released', its release date cleared, still 'Currently Held
    Captive'. *)
Theorem fix_releases_and_clears (df df' : frame) (i : nat) (r : row) :
  wf_frame df -> FixConsistency.fix_data_consistency df = Ok df' ->
  rows df !! i = Some r ->
  get r "Current Status" = Str "Held in Gaza" ->
  get r "Release/Death Circumstances" = Str "Currently Held Captive" ->
  Checker.blank (str (get r "Release Date")) = false ->
  exists r' : row,
    rows df' !! i = Some r' /\
    get r' "Current Status" = Str "Released" /\
    get r' "Release Date" = Str "" /\
    get r' "Release/Death Circumstances" = Str "Currently Held Captive".
Proof.
  intros Hwf Hrun Hr Hst Hcirc Hdate.
  destruct (fix_data_consistency_rows df df' Hwf Hrun) as [_ Hrows].
  destruct (Hrows i r Hr)
    as (ws1 & r1 & ws2 & r' & Hws1 & Hget1 & Hws2 & Hr' & Hget2).
  exists r'. split; [exact Hr'|].
  assert (E1 : ws1 = [("Current Status", Str "Released");
                      ("Release Date", Str "")]).
  { unfold FixConsistency.fix_row in Hws1.
    destruct (getitem r "Current Status") as [st| |] eqn:Est;
      try discriminate.
    unfold mbind, result_bind in Hws1. cbv beta iota zeta in Hws1.
    rewrite (getitem_get _ _ _ Est) in Hst. subst st.
    change (Py.mem (get_str r "Release Date") ["nan"; ""])
      with (Checker.blank (get_str r "Release Date")) in Hws1.
    rewrite blank_get, Hdate in Hws1.
    assert (Hc : get_str r "Release/Death Circumstances"
                 = "Currently Held Captive").
    { unfold get_str. unfold get in Hcirc.
      destruct (r !! "Release/Death Circumstances"); cbn in Hcirc;
        [now subst | discriminate]. }
    rewrite Hc in Hws1. apply Ok_inj in Hws1. now subst ws1. }
  subst ws1.
  assert (Hst1 : get r1 "Current Status" = Str "Released")
    by (rewrite Hget1; reflexivity).
  assert (E2 : ws2 = []).
  { unfold FixConsistency.held_circumstances in Hws2.
    destruct (getitem r1 "Current Status") as [st| |] eqn:Est;
      try discriminate.
    unfold mbind, result_bind in Hws2. cbv beta iota zeta in Hws2.
    rewrite (getitem_get _ _ _ Est) in Hst1. subst st.
    apply Ok_inj in Hws2. now subst ws2. }
  subst ws2. rewrite !Hget2, !Hget1. cbn. now rewrite Hcirc.
Qed.

Lemma fix_releases_and_clears_witness :
  exists df' (r' : row),
    FixConsistency.fix_data_consistency Examples.held_two = Ok df' /\
    rows df' !! 1 = Some r' /\
    get r' "Current Status" = Str "Released" /\
    get r' "Release Date" = Str "" /\
    get r' "Release/Death Circumstances" = Str "Currently Held Captive".
Proof.
  assert (Hobs :
            match FixConsistency.fix_data_consistency Examples.held_two with
            | Ok _ => true
            | _ => false
            end = true) by (vm_compute; reflexivity).
  destruct (FixConsistency.fix_data_consistency Examples.held_two)
    as [df'| |] eqn:Hrun; try discriminate Hobs.
  destruct (fix_releases_and_clears Examples.held_two df' 1 _ held_two_wf
              Hrun eq_refl eq_refl eq_refl eq_refl) as (r' & Hr' & H).
  exists df', r'. split; [reflexivity|]. split; [exact Hr'|]. exact H.
Defined.

(** ** check_data_consistency.py *)

(** What each issue of a row says about it. *)
Lemma issues_of_rules (r : row) (issues : list string) :
  Checker.issues_of r = Ok issues ->
  let status := get r "Current Status" in
  let release_date := get_str r "Release Date" in
  let release_circumstances := get_str r "Release/Death Circumstances" in
  (status = Str "Held in Gaza" ->
   (In "Held in Gaza but has release date" issues <->
    Checker.blank release_date = false)) /\
  (status = Str "Released" ->
   (In "Released but no release date" issues <->
    Checker.blank release_date = true) /\
   (In "Released but no release circumstances" issues <->
    Checker.blank release_circumstances = true)) /\
  (status = Str "Deceased - Returned" ->
   (In "Deceased-Returned but no return date" issues <->
    Checker.blank release_date = true)).
Proof.
  unfold Checker.issues_of, getitem, get.
  destruct (r !! "Current Status") as [st|]; cbn [mbind result_bind default];
    [|discriminate].
  intros [= <-]. cbv zeta.
  split; [|split]; intros Hst; cbn in Hst; subst st;
    cbn [status_is cell_eqb String.eqb Ascii.eqb Bool.eqb];
    repeat match goal with
           | |- context [Checker.blank ?x] => destruct (Checker.blank x)
           end;
    cbn [negb];
    repeat match goal with
           | |- context [if ?b then _ else _] => destruct b
           end;
    cbn [app In]; intuition (discriminate || congruence).
Qed.

Lemma issues_of_coherent (r : row) :
  Checker.issues_of r = Ok [] -> coherent r.
Proof.
  intros H. destruct (issues_of_rules r [] H) as (Hheld & Hrel & Hret).
  unfold coherent. cbn [In] in *. repeat split.
  - intros Hst. destruct (Checker.blank _); [reflexivity|].
    exfalso. now apply (Hheld Hst).
  - destruct (Checker.blank (get_str r "Release Date")); [|reflexivity].
    exfalso. now apply (proj1 (Hrel H0)).
  - destruct (Checker.blank (get_str r "Release/Death Circumstances"));
      [|reflexivity].
    exfalso. now apply (proj2 (Hrel H0)).
  - intros Hst. destruct (Checker.blank _); [|reflexivity].
    exfalso. now apply (Hret Hst).
Qed.

(** The list the scan builds: the entries of the rows with issues, in row
    order; the scan gets through when every row has a status and every
    row with issues a name. *)
Lemma scan_flagged (pending : list (nat * row)) report :
  Checker.scan pending = Ok report ->
  report = flagged pending /\
  forall i r, (i, r) ∈ pending ->
    exists issues, Checker.issues_of r = Ok issues /\
                   (issues <> [] -> is_Some (r !! "Hebrew Name")).
Proof.
  revert report. induction pending as [|[idx r0] rest IH]; intros report.
  - intros [= <-]. split; [reflexivity|]. intros i r H. inversion H.
  - cbn [Checker.scan].
    destruct (Checker.issues_of r0) as [issues| |] eqn:Hi;
      cbn [mbind result_bind]; try discriminate.
    destruct (match issues with [] => Ok [] | _ => _ end) as [entry| |] eqn:He;
      cbn [mbind result_bind]; try discriminate.
    destruct (Checker.scan rest) as [others| |] eqn:Hs;
      cbn [mbind result_bind]; try discriminate.
    intros [= <-]. destruct (IH others eq_refl) as [-> Hall].
    assert (Hentry : entry = match flag (idx, r0) with
                             | Some e => [e] | None => [] end
                     /\ (issues <> [] -> is_Some (r0 !! "Hebrew Name"))).
    { unfold flag. cbn [fst snd]. rewrite Hi.
      destruct issues as [|x xs]; [injection He as <-; now split|].
      destruct (getitem r0 "Hebrew Name") as [name| |] eqn:En;
        cbn [mbind result_bind] in He; try discriminate.
      injection He as <-. unfold entry_of.
      rewrite (getitem_get _ _ _ En). apply getitem_Ok in En.
      split; [reflexivity | eauto]. }
    destruct Hentry as [-> Hname]. split.
    + unfold flagged. cbn [omap list_omap]. now destruct (flag (idx, r0)).
    + intros i r Hin. apply elem_of_cons in Hin as [[= -> ->]|Hin]; eauto.
Qed.

Lemma flag_index (ir : nat * row) e :
  flag ir = Some e -> Checker.inc_index e = fst ir.
Proof.
  unfold flag. destruct (Checker.issues_of _) as [[|x xs]| |];
    try discriminate. now intros [= <-].
Qed.

Lemma flagged_NoDup (pending : list (nat * row)) :
  NoDup (fst <$> pending) -> NoDup (flagged pending).
Proof.
  unfold flagged. induction pending as [|ir rest IH]; intros Hnd;
    cbn [omap list_omap]; [constructor|].
  cbn [fmap list_fmap] in Hnd. apply NoDup_cons in Hnd as [Hni Hnd].
  destruct (flag ir) as [e|] eqn:E; [|auto].
  apply NoDup_cons. split; [|auto]. intros Hin.
  apply list_elem_of_omap in Hin as (ir' & Hin' & E').
  apply Hni. apply list_elem_of_fmap. exists ir'. split; [|exact Hin'].
  apply flag_index in E, E'. congruence.
Qed.

(** Where a row with issues stands in the list: after the entries of the
    rows before it. *)
Lemma flagged_position (df : frame) (i : nat) (r : row) issues :
  rows df !! i = Some r -> Checker.issues_of r = Ok issues -> issues <> [] ->
  flagged (iterrows df) !! length (flagged (take i (iterrows df)))
  = Some (entry_of i r issues).
Proof.
  intros Hr Hi Hne.
  assert (Hl : iterrows df !! i = Some (i, r)).
  { unfold iterrows. now rewrite list_lookup_imap, Hr. }
  assert (E : flagged (iterrows df)
              = (flagged (take i (iterrows df))
                 ++ entry_of i r issues
                 :: flagged (drop (S i) (iterrows df)))%list).
  { rewrite <- (take_drop_middle _ _ _ Hl) at 1.
    unfold flagged. rewrite omap_app. cbn [omap list_omap]. unfold flag at 2.
    cbn [fst snd]. rewrite Hi. now destruct issues. }
  rewrite E. rewrite lookup_app_r by lia. now rewrite Nat.sub_diag.
Qed.

(** C5, as the code has it.  The scripts do not keep the store coherent;
    the checker looks for incoherence afterwards.  When it has printed its
    report (lines 60 to 68) it has counted the rows with issues and shown
    the first ten of them in row order, each with its index, name, status
    and issues; a row without issue is coherent (held implies no release
    date; released implies a release date and circumstances; deceased and
    returned implies a return date), the circumstances of a record that is
    deceased and returned not being looked at; a row with issues after
    ten others is counted and not shown.  On a store without the column
    'Release Date' the script then dies at line 74. *)
Theorem consistency_checker_reports
    (df : frame) (found : nat) (shown : list Checker.inconsistency) :
  Checker.printed_report df = Ok (found, shown) ->
  found = length (flagged (iterrows df)) /\
  shown = take 10 (flagged (iterrows df)) /\
  ("Release Date" ∉ columns df ->
   Checker.check_data_consistency df = KeyError "Release Date") /\
  forall (i : nat) (r : row),
    rows df !! i = Some r ->
    exists issues,
      Checker.issues_of r = Ok issues /\
      (issues = [] -> coherent r) /\
      (issues <> [] ->
       let k := length (flagged (take i (iterrows df))) in
       (k < 10 -> shown !! k = Some (entry_of i r issues)) /\
       (10 <= k -> entry_of i r issues ∉ shown)) /\
      (get r "Current Status" = Str "Held in Gaza" ->
       (In "Held in Gaza but has release date" issues <->
        Checker.blank (get_str r "Release Date") = false)) /\
      (get r "Current Status" = Str "Released" ->
       (In "Released but no release date" issues <->
        Checker.blank (get_str r "Release Date") = true) /\
       (In "Released but no release circumstances" issues <->
        Checker.blank (get_str r "Release/Death Circumstances") = true)) /\
      (get r "Current Status" = Str "Deceased - Returned" ->
       (In "Deceased-Returned but no return date" issues <->
        Checker.blank (get_str r "Release Date") = true)).
Proof.
  intros Hrun. pose proof Hrun as Hrun'.
  unfold Checker.printed_report in Hrun.
  destruct (decide ("Current Status" ∈ columns df)) as [Hcol|];
    [|discriminate].
  destruct (Checker.scan (iterrows df)) as [report| |] eqn:Hscan;
    cbn [mbind result_bind] in Hrun; try discriminate.
  injection Hrun as <- <-.
  destruct (scan_flagged _ _ Hscan) as [-> Hall].
  split; [reflexivity|]. split; [reflexivity|]. split.
  { intros Hno. unfold Checker.check_data_consistency. rewrite Hrun'.
    cbn [mbind result_bind]. unfold Checker.detailed_analysis.
    destruct (decide ("Current Status" ∈ columns df)); [|contradiction].
    now destruct (decide ("Release Date" ∈ columns df)). }
  intros i r Hr.
  destruct (Hall i r (proj2 (iterrows_lookup df i r) Hr))
    as (issues & Hi & _).
  exists issues. split; [exact Hi|]. split.
  { intros ->. now apply issues_of_coherent. }
  split; [|exact (issues_of_rules r issues Hi)].
  intros Hne k.
  pose proof (flagged_position df i r issues Hr Hi Hne) as Hk. fold k in Hk.
  split.
  - intros Hlt. now rewrite lookup_take_lt.
  - intros Hge Hin. apply list_elem_of_lookup in Hin as [j Hj].
    assert (Hjlt : j < 10).
    { apply lookup_lt_Some in Hj. rewrite length_take in Hj. lia. }
    rewrite lookup_take_lt in Hj by exact Hjlt.
    pose proof (NoDup_lookup _ _ _ _
                  (flagged_NoDup _ (iterrows_NoDup df)) Hj Hk). lia.
Qed.

Lemma consistency_checker_reports_witness :
  exists found shown issues,
    Checker.printed_report
      (frame_of Examples.kan_columns [Examples.released_undated])
    = Ok (found, shown) /\
    found = 1 /\
    In "Released but no release date" issues /\
    shown !! 0
    = Some (entry_of 0 (mkrow Examples.kan_columns Examples.released_undated)
              issues).
Proof.
  assert (Hobs :
            match Checker.printed_report
                    (frame_of Examples.kan_columns
                       [Examples.released_undated]) with
            | Ok _ => true
            | _ => false
            end = true) by (vm_compute; reflexivity).
  destruct (Checker.printed_report _) as [[found shown]| |] eqn:Hrun;
    try discriminate Hobs.
  destruct (consistency_checker_reports _ found shown Hrun)
    as (Hfound & _ & _ & Hrows).
  destruct (Hrows 0 (mkrow Examples.kan_columns Examples.released_undated)
              eq_refl) as (issues & _ & _ & Hshown & _ & Hrel & _).
  assert (Hin : In "Released but no release date" issues)
    by (apply (proj1 (Hrel eq_refl)); reflexivity).
  exists found, shown, issues. split; [reflexivity|].
  split; [rewrite Hfound; vm_compute; reflexivity|]. split; [exact Hin|].
  apply Hshown; [|cbn; lia]. intros ->. destruct Hin.
Defined.

(** C5 as stated fails.  The store after an operation need not be
    coherent: of a hostage whose summary only says 'released' the
    extraction makes a released record with circumstances and no release
    date.  And a record that is deceased and returned with no release
    circumstances draws no issue from the checker. *)
Lemma coherence_not_maintained :
  (exists df1 (r1 : row),
      Extraction.comprehensive_data_extraction Examples.said_released
      = Ok df1 /\
      rows df1 !! 0 = Some r1 /\
      get r1 "Current Status" = Str "Released" /\
      get r1 "Release/Death Circumstances" = Str "Returned in Deal" /\
      get r1 "Release Date" = NaN /\
      ~ coherent r1) /\
  (Checker.issues_of Examples.returned_body = Ok [] /\
   Examples.returned_body !! "Current Status"
   = Some (Str "Deceased - Returned") /\
   Examples.returned_body !! "Release/Death Circumstances" = Some NaN).
Proof.
  split.
  - assert (Hobs :
              match Extraction.comprehensive_data_extraction
                      Examples.said_released with
              | Ok df1 =>
                  match rows df1 !! 0 with
                  | Some r1 =>
                      cell_eqb (get r1 "Current Status") (Str "Released")
                      && cell_eqb (get r1 "Release/Death Circumstances")
                           (Str "Returned in Deal")
                      && isna (get r1 "Release Date")
                  | None => false
                  end
              | _ => false
              end = true) by (vm_compute; reflexivity).
    destruct (Extraction.comprehensive_data_extraction
                Examples.said_released) as [df1| |]; try discriminate Hobs.
    destruct (rows df1 !! 0) as [r1|] eqn:Hr1; try discriminate Hobs.
    apply andb_true_iff in Hobs as [Hobs Hdate].
    apply andb_true_iff in Hobs as [Hst Hcirc].
    apply status_is_eq in Hst, Hcirc. apply isna_NaN in Hdate.
    exists df1, r1. split; [reflexivity|]. split; [exact Hr1|].
    split; [exact Hst|]. split; [exact Hcirc|]. split; [exact Hdate|].
    intros (_ & Hrel & _). destruct (Hrel Hst) as [Hb _].
    rewrite blank_get, Hdate in Hb. discriminate Hb.
  - repeat split; vm_compute; reflexivity.
Qed.

(** ** The cells the import leaves *)

Lemma written_app (ws1 ws2 : list (string * cell)) (col : string) (c : cell) :
  written (ws1 ++ ws2) col c = written ws2 col (written ws1 col c).
Proof. unfold written. apply foldl_app. Qed.

Lemma cells_app (l1 l2 : list (string * string)) :
  cells (l1 ++ l2) = (cells l1 ++ cells l2)%list.
Proof. unfold cells. apply map_app. Qed.

Lemma apply_import_writes (df : frame) (idx : nat) data :
  apply_import df idx data = apply_writes df idx (cells data).
Proof.
  revert df. induction data as [|[f v] data IH]; intros df; [reflexivity|].
  cbn. apply IH.
Qed.

Lemma import_rows_for_rows u archive pending df :
  import_rows u archive pending df
  = for_rows (fun r => data ← import_data u archive r; Ok (cells data))
      pending df.
Proof.
  revert df. induction pending as [|[idx r] pending IH]; intros df;
    [reflexivity|].
  cbn [import_rows for_rows].
  destruct (import_data u archive r) as [data| |]; cbn [mbind result_bind];
    try reflexivity.
  rewrite apply_import_writes. apply IH.
Qed.

(** The loop of the import, row by row. *)
Lemma validated_import_rows u archive current df' :
  wf_frame current -> validated_archive_import u archive current = Ok df' ->
  wf_frame df' /\ length (rows df') = length (rows current) /\
  forall (i : nat) (r : row),
    rows current !! i = Some r ->
    exists data (r' : row),
      import_data u archive r = Ok data /\ rows df' !! i = Some r' /\
      forall col, get r' col = written (cells data) col (get r col).
Proof.
  intros Hwf Hrun. unfold validated_archive_import in Hrun.
  rewrite import_rows_for_rows in Hrun.
  destruct (for_rows_iterrows _ _ _ Hwf Hrun) as (Hwf' & Hlen & Hrows).
  split; [exact Hwf'|]. split; [exact Hlen|]. intros i r Hr.
  destruct (Hrows i r Hr) as (ws & r' & Hws & Hr' & Hget).
  destruct (import_data u archive r) as [data| |]; try discriminate.
  cbn [mbind result_bind] in Hws. apply Ok_inj in Hws. subst ws. eauto.
Qed.

Lemma written_fields (data : list (string * string)) (col : string) (c : cell) :
  (forall f v, (f, v) ∈ data -> f <> col) -> written (cells data) col c = c.
Proof.
  intros H. apply written_none. intros v Hin. unfold cells in Hin.
  apply list_elem_of_fmap in Hin as ([f w] & [= -> ->] & Hin).
  now apply (H _ _ Hin).
Qed.

Lemma written_import_validated validate col current a c :
  (forall v, validate (get a col) = Some v -> Py.is_empty v = false) ->
  written (cells (import_validated validate col current a)) col c
  = if empty_cell current then
      match validate (get a col) with Some v => Str v | None => c end
    else c.
Proof.
  intros Hne. unfold import_validated.
  destruct (empty_cell current); [|reflexivity].
  destruct (validate (get a col)) as [v|] eqn:E; [|reflexivity].
  rewrite (Hne v eq_refl). unfold written. cbn [cells map foldl fst snd].
  now destruct (decide (col = col)).
Qed.

Lemma strftime_nonempty (d : date) : Py.is_empty (strftime d) = false.
Proof.
  unfold strftime, year_text.
  destruct (1000 <=? year d)%Z, (100 <=? year d)%Z, (10 <=? year d)%Z;
    reflexivity.
Qed.

Lemma validate_date_format_nonempty (c : cell) (out : string) :
  validate_date_format c = Some out -> Py.is_empty out = false.
Proof.
  unfold validate_date_format.
  destruct (isna c || String.eqb (str c) "nan"); [discriminate|].
  destruct (Py.is_empty (Py.strip (str c))) eqn:He; [discriminate|].
  destruct (iso_shape (Py.strip (str c))).
  - destruct (strptime fmt_iso _); [|discriminate]. now intros [= <-].
  - intros H. apply try_formats_some in H as (_ & _ & _ & d & _ & _ & -> & _).
    apply strftime_nonempty.
Qed.

(** What the validator of categories returns is a category. *)
Lemma validate_circumstances_category_sound (c : cell) (v : string) :
  validate_circumstances_category c = Some v ->
  In v valid_categories /\
  (v = Py.strip (str c) \/
   (~ In (Py.strip (str c)) valid_categories /\
    mapping !! Py.strip (str c) = Some (Some v))).
Proof.
  unfold validate_circumstances_category.
  set (s := Py.strip (str c)). clearbody s.
  destruct (isna c || Py.is_empty s); [discriminate|].
  destruct (Py.mem s valid_categories) eqn:Hmem.
  - apply mem_In in Hmem. intros [= <-]. auto.
  - assert (Hn : ~ In s valid_categories).
    { rewrite <- mem_In. congruence. }
    destruct (mapping !! s) as [o|] eqn:Hm; cbn; [|discriminate].
    pose proof (mapping_lookup s o Hm) as Hin. cbn [In] in Hin.
    intros Hv. subst o. split; [|right; auto].
    repeat (destruct Hin as [Hin | Hin]; [|]);
      first [contradiction | discriminate Hin
            | injection Hin as <- <-; simpl; auto 20].
Qed.

Lemma validate_circumstances_category_nonempty (c : cell) (v : string) :
  validate_circumstances_category c = Some v -> Py.is_empty v = false.
Proof.
  intros H. apply validate_circumstances_category_sound in H as [Hin _].
  cbn [valid_categories In] in Hin.
  repeat (destruct Hin as [<- | Hin]; [reflexivity|]). destruct Hin.
Qed.

Lemma filled_written validate col current a :
  (forall v, validate (get a col) = Some v -> Py.is_empty v = false) ->
  written (cells (import_validated validate col current a)) col current
  = filled validate current (get a col).
Proof. intros H. unfold filled. now apply written_import_validated. Qed.

(** The dict of a row that has an archive match, column by column. *)
Lemma import_data_guarded u archive (r : row) h (j : nat) (a : row) rest data :
  getitem r "Hebrew Name" = Ok h ->
  select archive "Hebrew Name" h = Ok ((j, a) :: rest) ->
  import_data u archive r = Ok data ->
  written (cells data) "Date of Death" (get r "Date of Death")
  = filled validate_date_format (get r "Date of Death")
      (get a "Date of Death") /\
  written (cells data) "Release Date" (get r "Release Date")
  = filled validate_date_format (get r "Release Date")
      (get a "Release Date") /\
  written (cells data) "Context of Death" (get r "Context of Death")
  = filled validate_circumstances_category (get r "Context of Death")
      (get a "Context of Death") /\
  written (cells data) "Release/Death Circumstances"
    (get r "Release/Death Circumstances")
  = filled validate_circumstances_category
      (get r "Release/Death Circumstances")
      (get a "Release/Death Circumstances").
Proof.
  intros Hh Hsel. unfold import_data. rewrite Hh. cbn [mbind result_bind].
  rewrite Hsel. cbn [mbind result_bind].
  destruct (getitem r "Date of Death") as [death| |] eqn:E1;
    cbn [mbind result_bind]; try discriminate.
  destruct (getitem r "Release Date") as [release| |] eqn:E2;
    cbn [mbind result_bind]; try discriminate.
  destruct (getitem r "Context of Death") as [context| |] eqn:E3;
    cbn [mbind result_bind]; try discriminate.
  destruct (getitem r "Release/Death Circumstances") as [circ| |] eqn:E4;
    cbn [mbind result_bind]; try discriminate.
  destruct (getitem r "Countries Involved in Deals") as [countries| |] eqn:E5;
    cbn [mbind result_bind]; try discriminate.
  intros Hd. apply Ok_inj in Hd. subst data.
  rewrite (getitem_get _ _ _ E1), (getitem_get _ _ _ E2),
    (getitem_get _ _ _ E3), (getitem_get _ _ _ E4).
  rewrite !cells_app, !written_app.
  assert (Hv : forall validate col0 cur col c,
             col0 <> col ->
             written (cells (import_validated validate col0 cur a)) col c = c).
  { intros validate col0 cur col c Hne. apply written_fields.
    intros f v Hin. apply import_validated_fields in Hin as [-> _].
    exact Hne. }
  assert (Hc : forall col c,
             col <> "Citation URLs" ->
             written (cells (import_citations u r a)) col c = c).
  { intros col c Hne. apply written_fields. intros f v Hin.
    apply import_citations_fields in Hin as [-> _]. congruence. }
  assert (Hk : forall col c,
             col <> "Countries Involved in Deals" ->
             written (cells (import_countries countries a)) col c = c).
  { intros col c Hne. apply written_fields. intros f v Hin.
    apply import_countries_fields in Hin as [-> _]. congruence. }
  repeat split.
  - rewrite filled_written by apply validate_date_format_nonempty.
    rewrite !Hv, Hc, Hk by discriminate. reflexivity.
  - rewrite (Hv _ "Date of Death") by discriminate.
    rewrite filled_written by apply validate_date_format_nonempty.
    rewrite !Hv, Hc, Hk by discriminate. reflexivity.
  - rewrite (Hv _ "Date of Death"), (Hv _ "Release Date") by discriminate.
    rewrite filled_written by apply validate_circumstances_category_nonempty.
    rewrite !Hv, Hc, Hk by discriminate. reflexivity.
  - rewrite (Hv _ "Date of Death"), (Hv _ "Release Date"),
      (Hv _ "Context of Death") by discriminate.
    rewrite filled_written by apply validate_circumstances_category_nonempty.
    rewrite Hc, Hk by discriminate. reflexivity.
Qed.

(** A row without an archive match asks for no write. *)
Lemma import_data_unmatched u archive (r : row) h :
  getitem r "Hebrew Name" = Ok h ->
  select archive "Hebrew Name" h = Ok [] ->
  import_data u archive r = Ok [].
Proof.
  intros Hh Hsel. unfold import_data. rewrite Hh. cbn [mbind result_bind].
  now rewrite Hsel.
Qed.

(** The guarded cells of a row after the import. *)
Lemma validated_import_guarded u archive current df' (i : nat) (r : row)
    h (j : nat) (a : row) rest :
  wf_frame current -> validated_archive_import u archive current = Ok df' ->
  rows current !! i = Some r ->
  getitem r "Hebrew Name" = Ok h ->
  select archive "Hebrew Name" h = Ok ((j, a) :: rest) ->
  exists r' : row,
    rows df' !! i = Some r' /\
    get r' "Date of Death"
    = filled validate_date_format (get r "Date of Death")
        (get a "Date of Death") /\
    get r' "Release Date"
    = filled validate_date_format (get r "Release Date")
        (get a "Release Date") /\
    get r' "Context of Death"
    = filled validate_circumstances_category (get r "Context of Death")
        (get a "Context of Death") /\
    get r' "Release/Death Circumstances"
    = filled validate_circumstances_category
        (get r "Release/Death Circumstances")
        (get a "Release/Death Circumstances").
Proof.
  intros Hwf Hrun Hr Hh Hsel.
  destruct (validated_import_rows u archive current df' Hwf Hrun)
    as (_ & _ & Hrows).
  destruct (Hrows i r Hr) as (data & r' & Hdata & Hr' & Hget).
  exists r'. split; [exact Hr'|]. rewrite !Hget.
  exact (import_data_guarded u archive r h j a rest data Hh Hsel Hdata).
Qed.

(** ** The validators and the store *)

(** C10, as the code has it.  The four formats are tried in the order
    '%d/%m/%Y', '%m/%d/%Y', '%Y/%m/%d', '%d-%m-%Y', but only on a text that
    does not have the shape of [\d{4}-\d{2}-\d{2}].  A text that both the
    day-first and the month-first format parse is returned in its
    day-first reading as [strftime('%Y-%m-%d')] writes it, which from the
    year 1000 on is YYYY-MM-DD and reads back as the same date; and a text
    that reaches the list yields None exactly when none of the four
    formats parses it.  A text of the shape YYYY-MM-DD never reaches the
    list: none of the four formats parses it, and it is returned as it is
    when '%Y-%m-%d' parses it, None otherwise. *)
Theorem validate_date_format_day_first (s : string) :
  (forall d1 d2,
      strptime fmt_dmy (Py.strip s) = Some d1 ->
      strptime fmt_mdy (Py.strip s) = Some d2 ->
      validate_date_format (Str s) = Some (strftime d1) /\
      ((1000 <= year d1)%Z ->
       iso_shape (strftime d1) = true /\
       strptime fmt_iso (strftime d1) = Some d1)) /\
  (iso_shape (Py.strip s) = false ->
   (validate_date_format (Str s) = None <->
    forall f, In f formats -> strptime f (Py.strip s) = None)) /\
  (iso_shape (Py.strip s) = true ->
   (forall f, In f formats -> strptime f (Py.strip s) = None) /\
   validate_date_format (Str s)
   = match strptime fmt_iso (Py.strip s) with
     | Some _ => Some (Py.strip s)
     | None => None
     end).
Proof.
  split; [|split].
  - intros d1 d2 H1 _.
    assert (Hiso : iso_shape (Py.strip s) = false).
    { destruct (iso_shape (Py.strip s)) eqn:E; [|reflexivity].
      rewrite (iso_shape_not_listed _ fmt_dmy E) in H1;
        [discriminate | simpl; auto]. }
    split.
    + rewrite (validate_date_format_loop s Hiso).
      unfold formats. cbn [try_formats]. rewrite H1. reflexivity.
    + intros Hy. pose proof (strptime_valid _ _ _ H1) as Hv.
      split; [now apply iso_shape_strftime | now apply strptime_strftime].
  - intros Hiso. rewrite (validate_date_format_loop s Hiso).
    apply try_formats_none.
  - intros Hiso. split.
    + intros f Hf. now apply iso_shape_not_listed.
    + unfold validate_date_format. cbn [isna str orb]. rewrite Hiso.
      destruct (String.eqb s "nan") eqn:En.
      { apply String.eqb_eq in En. subst s. discriminate Hiso. }
      destruct (Py.strip s) eqn:Es; [discriminate Hiso | reflexivity].
Qed.

Lemma validate_date_format_day_first_witness :
  (validate_date_format (Str "05/06/2024") = Some "2024-06-05" /\
   iso_shape "2024-06-05" = true) /\
  (validate_date_format (Str "31/02/2024") = None <->
   forall f, In f formats -> strptime f (Py.strip "31/02/2024") = None) /\
  validate_date_format (Str " 2024-06-08 ") = Some "2024-06-08".
Proof.
  split; [|split].
  - destruct (proj1 (validate_date_format_day_first "05/06/2024")
                (mkdate 2024 6 5) (mkdate 2024 5 6) eq_refl eq_refl)
      as [Hout Hshape].
    split; [exact Hout|]. apply Hshape. cbn. lia.
  - exact (proj1 (proj2 (validate_date_format_day_first "31/02/2024"))
             eq_refl).
  - exact (proj2 (proj2 (proj2 (validate_date_format_day_first
                                  " 2024-06-08 ")) eq_refl)).
Defined.

(** C10 as stated fails.  The function does not return None exactly when
    no listed format parses the input: '2024-06-08' is returned although
    none of the four formats parses it.  And the day-first reading is not
    always written as YYYY-MM-DD: of '05/06/0999', a date under both
    readings, the function makes '999-06-05'. *)
Lemma iso_text_bypasses_formats :
  validate_date_format (Str "2024-06-08") = Some "2024-06-08" /\
  (forall f, In f formats -> strptime f "2024-06-08" = None) /\
  strptime fmt_dmy "05/06/0999" = Some (mkdate 999 6 5) /\
  strptime fmt_mdy "05/06/0999" = Some (mkdate 999 5 6) /\
  validate_date_format (Str "05/06/0999") = Some "999-06-05" /\
  iso_shape "999-06-05" = false.
Proof.
  split; [reflexivity|]. split.
  - intros f Hf. apply iso_shape_not_listed; [reflexivity | exact Hf].
  - repeat split; reflexivity.
Qed.

(** C3, as the code has it.  What [validate_date_format] accepts parses as
    a calendar date: a stripped text of the shape YYYY-MM-DD under
    '%Y-%m-%d', and it is returned as it is; any other text under the
    first of the listed formats that parses it, the earlier ones having
    failed, and it is returned as [strftime] writes that date.  There is
    no window.  '31/02/2024' is rejected.  In the import a date cell of a
    row with an archive match is, after the run, the cell it was unless
    it was empty and the validator accepted the value of the first
    archive row of that name, which is then what it holds: a rejected
    proposal is not written; a row without a match keeps its cells. *)
Theorem validate_date_format_accepts :
  (forall c out,
      validate_date_format c = Some out ->
      let t := Py.strip (str c) in
      (iso_shape t = true /\ out = t /\
       exists d, strptime fmt_iso t = Some d /\ valid_date d = true) \/
      (iso_shape t = false /\
       exists pre f post d,
         formats = (pre ++ f :: post)%list /\
         (forall g, In g pre -> strptime g t = None) /\
         strptime f t = Some d /\ valid_date d = true /\
         out = strftime d)) /\
  validate_date_format (Str "31/02/2024") = None /\
  (forall u archive current df' (i : nat) (r : row) h (j : nat) (a : row)
          rest col,
      wf_frame current ->
      validated_archive_import u archive current = Ok df' ->
      rows current !! i = Some r ->
      getitem r "Hebrew Name" = Ok h ->
      select archive "Hebrew Name" h = Ok ((j, a) :: rest) ->
      col = "Date of Death" \/ col = "Release Date" ->
      exists r' : row,
        rows df' !! i = Some r' /\
        get r' col
        = if empty_cell (get r col) then
            match validate_date_format (get a col) with
            | Some out => Str out
            | None => get r col
            end
          else get r col) /\
  (forall u archive current df' (i : nat) (r : row) h,
      wf_frame current ->
      validated_archive_import u archive current = Ok df' ->
      rows current !! i = Some r ->
      getitem r "Hebrew Name" = Ok h ->
      select archive "Hebrew Name" h = Ok [] ->
      exists r' : row,
        rows df' !! i = Some r' /\ forall col, get r' col = get r col).
Proof.
  split; [|split; [reflexivity|split]].
  - intros c out H t. subst t. unfold validate_date_format in H.
    destruct (isna c || String.eqb (str c) "nan"); [discriminate|].
    destruct (Py.is_empty (Py.strip (str c))); [discriminate|].
    destruct (iso_shape (Py.strip (str c))) eqn:Hiso.
    + destruct (strptime fmt_iso (Py.strip (str c))) as [d|] eqn:Hd;
        [|discriminate].
      injection H as <-. left. split; [reflexivity|]. split; [reflexivity|].
      exists d. split; [reflexivity|]. exact (strptime_valid _ _ _ Hd).
    + right. split; [reflexivity|].
      apply try_formats_some in H as (pre & f & post & d & Hf & Hd & -> & Hp).
      exists pre, f, post, d. split; [exact Hf|]. split; [exact Hp|].
      split; [exact Hd|]. split; [exact (strptime_valid _ _ _ Hd)|].
      reflexivity.
  - intros u archive current df' i r h j a rest col Hwf Hrun Hr Hh Hsel Hcol.
    destruct (validated_import_guarded u archive current df' i r h j a rest
                Hwf Hrun Hr Hh Hsel) as (r' & Hr' & H1 & H2 & _).
    exists r'. split; [exact Hr'|].
    destruct Hcol as [-> | ->]; [exact H1 | exact H2].
  - intros u archive current df' i r h Hwf Hrun Hr Hh Hsel.
    destruct (validated_import_rows u archive current df' Hwf Hrun)
      as (_ & _ & Hrows).
    destruct (Hrows i r Hr) as (data & r' & Hdata & Hr' & Hget).
    rewrite (import_data_unmatched u archive r h Hh Hsel) in Hdata.
    apply Ok_inj in Hdata. subst data.
    exists r'. split; [exact Hr'|]. intros col. now rewrite Hget.
Qed.

Lemma current_undated_wf : wf_frame Examples.current_undated.
Proof. apply wf_frameb_correct. vm_compute. reflexivity. Qed.

Lemma validate_date_format_accepts_witness :
  exists df' (r' : row),
    validated_archive_import http_urlparse_ok Examples.archive_february
      Examples.current_undated = Ok df' /\
    rows df' !! 0 = Some r' /\
    get r' "Release Date" = NaN.
Proof.
  assert (Hobs :
            match validated_archive_import http_urlparse_ok
                    Examples.archive_february Examples.current_undated with
            | Ok _ => true
            | _ => false
            end = true) by (vm_compute; reflexivity).
  destruct (validated_archive_import http_urlparse_ok
              Examples.archive_february Examples.current_undated)
    as [df'| |] eqn:Hrun; try discriminate Hobs.
  destruct (proj1 (proj2 (proj2 validate_date_format_accepts))
              http_urlparse_ok Examples.archive_february
              Examples.current_undated df' 0 _ (Str "נעמה לוי") 0 _ []
              "Release Date" current_undated_wf Hrun eq_refl eq_refl eq_refl
              (or_intror eq_refl)) as (r' & Hr' & Hget).
  exists df', r'. split; [reflexivity|]. split; [exact Hr'|].
  rewrite Hget. reflexivity.
Defined.

(** C3 as stated fails.  No window is checked: '01/01/1900' is accepted.
    And a proposed '31/02/2024' does reach the store through
    properly_import_releases.py, which copies the release date of the
    archive as it is. *)
Lemma validate_date_format_no_window :
  ~ (forall c out,
        validate_date_format c = Some out ->
        exists d, strptime fmt_iso out = Some d /\
                  date_leb earliest_kidnapping d = true) /\
  exists df' (r' : row),
    ProperlyImport.properly_import_releases Examples.archive_february
      Examples.current_undated = Ok df' /\
    rows df' !! 0 = Some r' /\
    get r' "Release Date" = Str "31/02/2024".
Proof.
  split.
  - intros H.
    destruct (H (Str "01/01/1900") "1900-01-01" eq_refl) as (d & Hd & Hle).
    vm_compute in Hd. injection Hd as <-. vm_compute in Hle. discriminate.
  - assert (Hobs :
              match ProperlyImport.properly_import_releases
                      Examples.archive_february Examples.current_undated with
              | Ok df' =>
                  match rows df' !! 0 with
                  | Some r' =>
                      cell_eqb (get r' "Release Date") (Str "31/02/2024")
                  | None => false
                  end
              | _ => false
              end = true) by (vm_compute; reflexivity).
    destruct (ProperlyImport.properly_import_releases
                Examples.archive_february Examples.current_undated)
      as [df'| |]; try discriminate Hobs.
    destruct (rows df' !! 0) as [r'|] eqn:Hr'; try discriminate Hobs.
    apply status_is_eq in Hobs. exists df', r'. auto.
Qed.

Lemma validate_circumstances_category_variation (c : cell) (t v : string) :
  Py.strip (str c) = t -> Py.mem t valid_categories = false ->
  Py.is_empty t = false -> String.eqb t "nan" = false ->
  mapping !! t = Some (Some v) ->
  validate_circumstances_category c = Some v.
Proof.
  intros Hs Hmem He Hnan Hm. unfold validate_circumstances_category.
  rewrite Hs, He, Hmem, Hm.
  destruct c as [|x]; [|reflexivity].
  exfalso. assert (E : Py.strip (str NaN) = "nan") by (vm_compute; reflexivity).
  rewrite E in Hs. subst t. discriminate Hnan.
Qed.

Lemma validate_circumstances_category_direct (c : cell) :
  In (Py.strip (str c)) valid_categories ->
  validate_circumstances_category c = Some (Py.strip (str c)).
Proof.
  intros Hin. unfold validate_circumstances_category.
  pose proof (proj2 (mem_In _ _) Hin) as Hmem. rewrite Hmem.
  assert (Hnan : Py.mem "nan" valid_categories = false)
    by (vm_compute; reflexivity).
  assert (Hemp : Py.mem "" valid_categories = false)
    by (vm_compute; reflexivity).
  destruct c as [|x].
  - assert (E : Py.strip (str NaN) = "nan") by (vm_compute; reflexivity).
    rewrite E in Hmem. congruence.
  - cbn [isna orb]. destruct (Py.is_empty (Py.strip (str (Str x)))) eqn:He;
      [|reflexivity].
    destruct (Py.strip (str (Str x))); [congruence | discriminate He].
Qed.

Lemma validate_circumstances_category_other (c : cell) :
  ~ In (Py.strip (str c)) valid_categories ->
  ~ In (Py.strip (str c))
      ["Released via deal"; "Released in deal";
       "Killed in captivity by captors"; "Body returned in deal";
       "Military recovery"] ->
  validate_circumstances_category c = None.
Proof.
  intros Hn Hkeys.
  destruct (validate_circumstances_category c) as [v|] eqn:Hv;
    [|reflexivity].
  exfalso.
  destruct (validate_circumstances_category_sound c v Hv)
    as [Hin [-> | [_ Hm]]]; [now apply Hn|].
  apply mapping_lookup in Hm. apply Hkeys.
  set (s := Py.strip (str c)) in *. clearbody s. cbn [In] in *.
  repeat (destruct Hm as [Hm | Hm]; [|]);
    first [contradiction | discriminate Hm
          | injection Hm as <- _; auto 20].
Qed.

(** C7, as the code has it.  Whatever the validator returns is one of the
    eleven categories.  A stripped text that is a category is returned as
    it is; each of the five variations of the dict [mapping] is replaced
    by the category the dict gives; every other text gives None.  In the
    import a category cell of a row with an archive match is, after the
    run, the cell it was unless it was empty and the validator accepted
    the value of the first archive row of that name, which is then what
    it holds: a rejected text is not written. *)
Theorem validate_circumstances_category_spec (c : cell) :
  let s := Py.strip (str c) in
  (forall v, validate_circumstances_category c = Some v ->
     In v valid_categories /\
     (v = s \/ (~ In s valid_categories /\ mapping !! s = Some (Some v)))) /\
  (In s valid_categories -> validate_circumstances_category c = Some s) /\
  (s = "Released via deal" \/ s = "Released in deal" ->
   validate_circumstances_category c = Some "Returned in Deal") /\
  (s = "Killed in captivity by captors" ->
   validate_circumstances_category c
   = Some "Died in Captivity - Killed by Hamas") /\
  (s = "Body returned in deal" ->
   validate_circumstances_category c = Some "Returned in Deal - Body") /\
  (s = "Military recovery" ->
   validate_circumstances_category c
   = Some "Returned in Military Operation - Body") /\
  (~ In s valid_categories ->
   ~ In s ["Released via deal"; "Released in deal";
           "Killed in captivity by captors"; "Body returned in deal";
           "Military recovery"] ->
   validate_circumstances_category c = None) /\
  (forall u archive current df' (i : nat) (r : row) h (j : nat) (a : row)
          rest col,
      wf_frame current ->
      validated_archive_import u archive current = Ok df' ->
      rows current !! i = Some r ->
      getitem r "Hebrew Name" = Ok h ->
      select archive "Hebrew Name" h = Ok ((j, a) :: rest) ->
      col = "Context of Death" \/ col = "Release/Death Circumstances" ->
      exists r' : row,
        rows df' !! i = Some r' /\
        get r' col
        = if empty_cell (get r col) then
            match validate_circumstances_category (get a col) with
            | Some v => Str v
            | None => get r col
            end
          else get r col).
Proof.
  intros s. subst s.
  split; [|split; [|split; [|split; [|split; [|split; [|split]]]]]].
  - intros v Hv. exact (validate_circumstances_category_sound c v Hv).
  - apply validate_circumstances_category_direct.
  - intros [Hs | Hs];
      apply (validate_circumstances_category_variation c _ _ Hs);
      vm_compute; reflexivity.
  - intros Hs; apply (validate_circumstances_category_variation c _ _ Hs);
      vm_compute; reflexivity.
  - intros Hs; apply (validate_circumstances_category_variation c _ _ Hs);
      vm_compute; reflexivity.
  - intros Hs; apply (validate_circumstances_category_variation c _ _ Hs);
      vm_compute; reflexivity.
  - apply validate_circumstances_category_other.
  - intros u archive current df' i r h j a rest col Hwf Hrun Hr Hh Hsel Hcol.
    destruct (validated_import_guarded u archive current df' i r h j a rest
                Hwf Hrun Hr Hh Hsel) as (r' & Hr' & _ & _ & H3 & H4).
    exists r'. split; [exact Hr'|].
    destruct Hcol as [-> | ->]; [exact H3 | exact H4].
Qed.

Lemma validate_circumstances_category_spec_witness :
  validate_circumstances_category (Str " Returned in Deal - Body ")
  = Some "Returned in Deal - Body" /\
  validate_circumstances_category (Str "Military recovery")
  = Some "Returned in Military Operation - Body" /\
  validate_circumstances_category (Str "rescued by helicopter") = None /\
  exists df' (r' : row),
    validated_archive_import http_urlparse_ok Examples.archive_february
      Examples.current_undated = Ok df' /\
    rows df' !! 0 = Some r' /\
    get r' "Release/Death Circumstances" = NaN.
Proof.
  split; [|split; [|split]].
  - apply (proj1 (proj2 (validate_circumstances_category_spec
                           (Str " Returned in Deal - Body ")))).
    vm_compute. auto 20.
  - exact (proj1 (proj2 (proj2 (proj2 (proj2 (proj2
             (validate_circumstances_category_spec
                (Str "Military recovery"))))))) eq_refl).
  - apply (proj1 (proj2 (proj2 (proj2 (proj2 (proj2 (proj2
             (validate_circumstances_category_spec
                (Str "rescued by helicopter"))))))))).
    + vm_compute. intuition discriminate.
    + vm_compute. intuition discriminate.
  - assert (Hobs :
              match validated_archive_import http_urlparse_ok
                      Examples.archive_february Examples.current_undated with
              | Ok _ => true
              | _ => false
              end = true) by (vm_compute; reflexivity).
    destruct (validated_archive_import http_urlparse_ok
                Examples.archive_february Examples.current_undated)
      as [df'| |] eqn:Hrun; try discriminate Hobs.
    destruct (proj2 (proj2 (proj2 (proj2 (proj2 (proj2 (proj2
                (validate_circumstances_category_spec NaN)))))))
                http_urlparse_ok Examples.archive_february
                Examples.current_undated df' 0 _ (Str "נעמה לוי") 0 _ []
                "Release/Death Circumstances" current_undated_wf Hrun
                eq_refl eq_refl eq_refl (or_intror eq_refl))
      as (r' & Hr' & Hget).
    exists df', r'. split; [reflexivity|]. split; [exact Hr'|].
    rewrite Hget. reflexivity.
Defined.

(** C7 as stated fails.  A free-form text outside the enumeration is not
    rejected but turned into a category; and properly_import_releases.py
    writes 'Released via deal', which is no category, to the store
    without asking the validator. *)
Lemma validate_circumstances_category_coerces :
  ~ In "Released via deal" valid_categories /\
  validate_circumstances_category (Str "Released via deal")
  = Some "Returned in Deal" /\
  exists df' (r' : row),
    ProperlyImport.properly_import_releases Examples.current_empty
      Examples.said_released = Ok df' /\
    rows df' !! 0 = Some r' /\
    get r' "Release/Death Circumstances" = Str "Released via deal".
Proof.
  split; [cbn; intuition discriminate|]. split; [reflexivity|].
  assert (Hobs :
            match ProperlyImport.properly_import_releases
                    Examples.current_empty Examples.said_released with
            | Ok df' =>
                match rows df' !! 0 with
                | Some r' =>
                    cell_eqb (get r' "Release/Death Circumstances")
                      (Str "Released via deal")
                | None => false
                end
            | _ => false
            end = true) by (vm_compute; reflexivity).
  destruct (ProperlyImport.properly_import_releases Examples.current_empty
              Examples.said_released) as [df'| |]; try discriminate Hobs.
  destruct (rows df' !! 0) as [r'|] eqn:Hr'; try discriminate Hobs.
  apply status_is_eq in Hobs. exists df', r'. auto.
Qed.

(** C8, as the code has it.  Nothing checks the keys between the load and
    the loop, and no error of the run is about them.  When several archive
    rows carry the key of a row, the loop works from the first of them as
    if it were the only one.  A store whose first row has no key column,
    or an archive without it when that row has a key, ends the run with
    KeyError 'Hebrew Name' before anything is saved.  On an empty store
    the loop does nothing, both files are saved as they were loaded, and
    the script dies at the progress summary: KeyError 'Research Status'
    when the tracking file has no such column, else ZeroDivisionError. *)
Theorem import_takes_first_duplicate :
  (forall u archive (r : row) h (i : nat) (a : row) rest,
      getitem r "Hebrew Name" = Ok h ->
      select archive "Hebrew Name" h = Ok ((i, a) :: rest) ->
      import_data u archive r =
      import_data u (mkframe (columns archive) [a]) r) /\
  (forall u today archive current tracking (r : row) rest,
      rows current = r :: rest -> r !! "Hebrew Name" = None ->
      validated_archive_import_script u today archive current tracking
      = mkoutcome [] (Some (KeyErr "Hebrew Name"))) /\
  (forall u today archive current tracking (r : row) rest h,
      rows current = r :: rest -> r !! "Hebrew Name" = Some h ->
      "Hebrew Name" ∉ columns archive ->
      validated_archive_import_script u today archive current tracking
      = mkoutcome [] (Some (KeyErr "Hebrew Name"))) /\
  (forall u today archive current tracking,
      rows current = [] ->
      validated_archive_import_script u today archive current tracking
      = mkoutcome [ ("hostages-from-kan.csv", current);
                    ("master_tracking.csv", tracking) ]
          (Some (if decide ("Research Status" ∈ columns tracking)
                 then ZeroDivisionErr
                 else KeyErr "Research Status"))).
Proof.
  split; [|split; [|split]].
  - intros U archive r h i a rest Hh Hsel.
    destruct (select_first _ _ _ _ _ _ Hsel) as [Hcol Heq].
    unfold import_data. rewrite Hh. cbn [mbind result_bind]. rewrite Hsel.
    unfold select at 1. cbn [columns rows].
    destruct (decide ("Hebrew Name" ∈ columns archive)); [|contradiction].
    cbn [imap filter list_filter].
    destruct (decide _) as [|Hn]; [reflexivity|].
    exfalso. apply Hn. cbn [snd]. rewrite Heq. exact I.
  - intros U today archive current tracking r rest Hrows Hkey.
    unfold validated_archive_import_script, validated_archive_import.
    rewrite Hrows. cbn [imap import_rows].
    unfold import_data at 1, getitem. rewrite Hkey. reflexivity.
  - intros U today archive current tracking r rest h Hrows Hkey Hno.
    unfold validated_archive_import_script, validated_archive_import.
    rewrite Hrows. cbn [imap import_rows].
    unfold import_data at 1, getitem. rewrite Hkey.
    cbn [mbind result_bind]. unfold select at 1.
    destruct (decide ("Hebrew Name" ∈ columns archive)); [contradiction|].
    reflexivity.
  - intros U today archive current tracking Hrows.
    unfold validated_archive_import_script, validated_archive_import.
    rewrite Hrows. cbn [imap import_rows imported_entries mbind result_bind
                        foldl].
    unfold progress, select. rewrite Hrows.
    destruct (decide ("Research Status" ∈ columns tracking)); reflexivity.
Qed.

Lemma import_takes_first_duplicate_witness :
  import_data http_urlparse_ok Examples.archive_twice
    (mkrow Examples.kan_columns Examples.naama) =
  import_data http_urlparse_ok
    (mkframe (columns Examples.archive_twice)
       [mkrow Examples.kan_columns Examples.naama_archive])
    (mkrow Examples.kan_columns Examples.naama) /\
  validated_archive_import_script http_urlparse_ok "2025-09-01"
    Examples.archive_twice Examples.current_no_key Examples.tracking_empty
  = mkoutcome [] (Some (KeyErr "Hebrew Name")) /\
  raised (validated_archive_import_script http_urlparse_ok "2025-09-01"
            Examples.archive_twice Examples.current_empty
            Examples.tracking_empty)
  = Some ZeroDivisionErr.
Proof.
  split; [|split].
  - refine (proj1 import_takes_first_duplicate http_urlparse_ok
              Examples.archive_twice
              (mkrow Examples.kan_columns Examples.naama)
              (Str "נעמה לוי") 0
              (mkrow Examples.kan_columns Examples.naama_archive)
              [(1, mkrow Examples.kan_columns Examples.naama_archive_again)]
              _ _); reflexivity.
  - refine (proj1 (proj2 import_takes_first_duplicate) http_urlparse_ok
              "2025-09-01" Examples.archive_twice Examples.current_no_key
              Examples.tracking_empty
              (mkrow ["Current Status"; "Release Date"]
                 [Str "Released"; Str "2023-11-24"]) [] _ _); reflexivity.
  - rewrite (proj2 (proj2 (proj2 import_takes_first_duplicate))
               http_urlparse_ok "2025-09-01" Examples.archive_twice
               Examples.current_empty Examples.tracking_empty eq_refl).
    reflexivity.
Defined.

(** C8 as stated fails: an archive with two rows under one key is loaded
    and used without any error, and the row is filled from the first of
    the two. *)
Lemma duplicate_keys_not_flagged :
  get (mkrow Examples.kan_columns Examples.naama_archive) "Hebrew Name" =
  get (mkrow Examples.kan_columns Examples.naama_archive_again) "Hebrew Name" /\
  exists df' (r' : row),
    validated_archive_import http_urlparse_ok Examples.archive_twice
      Examples.current_one = Ok df' /\
    rows df' !! 0 = Some r' /\
    r' !! "Countries Involved in Deals" = Some (Str "Qatar").
Proof.
  split; [vm_compute; reflexivity|].
  do 2 eexists. repeat split; vm_compute; reflexivity.
Qed.

(** ** add_research_to_main.py *)

Lemma get_str_get (r : row) (col : string) (s : string) :
  get r col = Str s -> get_str r col = s.
Proof.
  unfold get, get_str. destruct (r !! col) as [c|]; cbn; [|discriminate].
  now intros ->.
Qed.

(** C6 fails on add_research_to_main.py.  The script says of itself that
    it adds to the existing columns and does not replace them, and it
    assigns the citation cell: whatever the record of Ilan Weiss cited
    before the run, after it the cell holds the two researched URLs and
    nothing else, so every other citation it had is gone. *)
Theorem add_research_replaces_citations (df df' : frame) (i : nat) (r : row) :
  wf_frame df ->
  AddResearch.add_research_to_main df = Ok df' ->
  first_index df "Hebrew Name" (Str AddResearch.hebrew_name) = Ok i ->
  rows df !! i = Some r ->
  exists r' : row,
    rows df' !! i = Some r' /\
    get r' "Citation URLs" = Str AddResearch.researched_citations /\
    forall url,
      In url (citation_urls (get_str r "Citation URLs")) ->
      url <> "https://www.kan.org.il/content/kan-news/defense/946446/" ->
      url <> "https://www.jpost.com/israel-news/article-865713" ->
      ~ In url (citation_urls (get_str r' "Citation URLs")).
Proof.
  intros Hwf Hrun Hidx Hr. unfold AddResearch.add_research_to_main in Hrun.
  rewrite Hidx in Hrun. cbn [mbind result_bind] in Hrun.
  destruct (AddResearch.print_cells df i AddResearch.printed_columns)
    as [before| |]; cbn [mbind result_bind] in Hrun; try discriminate.
  apply Ok_inj in Hrun. subst df'.
  set (df1 := at_set df i "Date of Death" (Str "2023-10-07")).
  set (df2 := at_set df1 i "Context of Death"
                (Str "Died Before/During Kidnapping")).
  set (df3 := at_set df2 i "Release Date" (Str "2025-08-29")).
  set (df4 := at_set df3 i "Release/Death Circumstances"
                (Str "Returned in Military Operation - Body")).
  assert (Hwf4 : wf_frame df4) by (repeat apply at_set_wf; exact Hwf).
  assert (Hr4 : exists r4 : row, rows df4 !! i = Some r4).
  { destruct (at_set_lookup df i i "Date of Death" (Str "2023-10-07") r
                Hwf Hr) as (r1 & Hr1 & _).
    destruct (at_set_lookup df1 i i "Context of Death"
                (Str "Died Before/During Kidnapping") r1
                (at_set_wf _ _ _ _ Hwf) Hr1) as (r2 & Hr2 & _).
    destruct (at_set_lookup df2 i i "Release Date" (Str "2025-08-29") r2
                (at_set_wf _ _ _ _ (at_set_wf _ _ _ _ Hwf)) Hr2)
      as (r3 & Hr3 & _).
    destruct (at_set_lookup df3 i i "Release/Death Circumstances"
                (Str "Returned in Military Operation - Body") r3
                (at_set_wf _ _ _ _ (at_set_wf _ _ _ _
                   (at_set_wf _ _ _ _ Hwf))) Hr3) as (r4 & Hr4 & _).
    eauto. }
  destruct Hr4 as [r4 Hr4].
  destruct (at_set_lookup df4 i i "Citation URLs"
              (Str AddResearch.researched_citations) r4 Hwf4 Hr4)
    as (r' & Hr' & Hget).
  exists r'. split; [exact Hr'|].
  assert (Hc : get r' "Citation URLs" = Str AddResearch.researched_citations).
  { rewrite Hget. destruct (decide (i = i /\ _)); tauto. }
  split; [exact Hc|].
  intros url _ Hkan Hjpost Hin. rewrite (get_str_get _ _ _ Hc) in Hin.
  assert (E : citation_urls AddResearch.researched_citations
              = [ "https://www.kan.org.il/content/kan-news/defense/946446/";
                  "https://www.jpost.com/israel-news/article-865713" ])
    by (vm_compute; reflexivity).
  rewrite E in Hin. cbn [In] in Hin. intuition congruence.
Qed.

Lemma ilan_cited_wf : wf_frame Examples.ilan_cited.
Proof. apply wf_frameb_correct. vm_compute. reflexivity. Qed.

Lemma add_research_replaces_citations_witness :
  In "https://www.ynet.co.il/news/article/abc"
    (citation_urls
       (get_str (mkrow Examples.kan_columns
                   [ Str "אילן וייס"; Str "Deceased"; NaN; NaN; NaN; NaN;
                     Str "https://www.ynet.co.il/news/article/abc"; NaN;
                     NaN ]) "Citation URLs")) /\
  exists df' (r' : row),
    AddResearch.add_research_to_main Examples.ilan_cited = Ok df' /\
    rows df' !! 0 = Some r' /\
    ~ In "https://www.ynet.co.il/news/article/abc"
        (citation_urls (get_str r' "Citation URLs")).
Proof.
  assert (Hold : In "https://www.ynet.co.il/news/article/abc"
                   (citation_urls
                      (get_str (mkrow Examples.kan_columns
                                  [ Str "אילן וייס"; Str "Deceased"; NaN;
                                    NaN; NaN; NaN;
                                    Str "https://www.ynet.co.il/news/article/abc";
                                    NaN; NaN ]) "Citation URLs")))
    by (vm_compute; auto).
  split; [exact Hold|].
  assert (Hobs :
            match AddResearch.add_research_to_main Examples.ilan_cited with
            | Ok _ => true
            | _ => false
            end = true) by (vm_compute; reflexivity).
  destruct (AddResearch.add_research_to_main Examples.ilan_cited)
    as [df'| |] eqn:Hrun; try discriminate Hobs.
  destruct (add_research_replaces_citations Examples.ilan_cited df' 0 _
              ilan_cited_wf Hrun eq_refl eq_refl) as (r' & Hr' & _ & Hgone).
  exists df', r'. split; [reflexivity|]. split; [exact Hr'|].
  apply Hgone; [exact Hold | discriminate | discriminate].
Defined.

(** Nor are the citations the import adds free of repetition: a URL that
    the archive text holds twice and the store does not hold is added
    twice. *)
Lemma archive_repetition_added_twice :
  new_urls http_urlparse_ok ""
    "https://www.jpost.com/israel-news/article-1; https://www.jpost.com/israel-news/article-1"
  = [ "https://www.jpost.com/israel-news/article-1";
      "https://www.jpost.com/israel-news/article-1" ].
Proof. vm_compute. reflexivity. Qed.

(** ** find_missing_names.py: the target count *)

Example force_held_count_one :
  exists df' (r' : row),
    FindMissing.force_held_count Examples.unknown_one = Ok df' /\
    rows df' !! 0 = Some r' /\
    r' !! "Current Status" = Some (Str "Held in Gaza") /\
    r' !! "Release Date" = Some (Str "") /\
    FindMissing.held_count df' = Ok 1.
Proof. do 2 eexists. repeat split; vm_compute; reflexivity. Qed.

Lemma select_length (col : string) (v : cell) (l : list row) (g : nat -> nat) :
  length (filter (fun ir : nat * row => Is_true (cell_eqb (get ir.2 col) v))
            (imap (fun i r => (g i, r)) l))
  = length (List.filter (fun c => cell_eqb c v)
              ((fun r : row => get r col) <$> l)).
Proof.
  revert g. induction l as [|r l IH]; intros g; [reflexivity|].
  rewrite imap_cons. cbn [fmap list_fmap List.filter].
  rewrite filter_cons. cbn [snd].
  specialize (IH (g ∘ S)). unfold compose in IH.
  destruct (cell_eqb (get r col) v) eqn:E.
  - rewrite decide_True by exact I. cbn [length]. f_equal. exact IH.
  - rewrite decide_False by (intros []). exact IH.
Qed.

Lemma held_count_statuses (df : frame) :
  "Current Status" ∈ columns df ->
  FindMissing.held_count df = Ok (held (statuses df)).
Proof.
  intros Hcol. unfold FindMissing.held_count, select.
  rewrite decide_True by assumption. cbn [mbind result_bind].
  f_equal. apply (select_length _ _ _ (fun i => i)).
Qed.

Lemma held_count_Ok (df : frame) (n : nat) :
  FindMissing.held_count df = Ok n ->
  "Current Status" ∈ columns df /\ n = held (statuses df).
Proof.
  intros H. assert (Hcol : "Current Status" ∈ columns df).
  { unfold FindMissing.held_count, select in H.
    destruct (decide (_ ∈ columns df)); [assumption | discriminate]. }
  split; [assumption|]. rewrite (held_count_statuses df Hcol) in H.
  congruence.
Qed.

Lemma statuses_at_set_status (df : frame) (idx : nat) (v : cell) :
  "Current Status" ∈ columns df ->
  statuses (at_set df idx "Current Status" v) = <[idx := v]> (statuses df).
Proof.
  intros Hcol. unfold statuses, at_set. rewrite decide_True by assumption.
  cbn [rows]. revert idx. induction (rows df) as [|r l IH]; intros idx;
    [reflexivity|].
  destruct idx as [|idx]; cbn.
  - f_equal. unfold get. now rewrite lookup_insert_eq.
  - f_equal. apply IH.
Qed.

Lemma statuses_at_set_other (df : frame) (idx : nat) (col : string) (v : cell) :
  col <> "Current Status" ->
  statuses (at_set df idx col v) = statuses df.
Proof.
  intros Hne. unfold statuses, at_set.
  assert (Hget : forall (r : row) w,
             get (<[col := w]> r) "Current Status" = get r "Current Status").
  { intros r w. unfold get. now rewrite lookup_insert_ne. }
  assert (Halter : forall (l : list row) i,
             (fun r : row => get r "Current Status") <$> alter (insert col v) i l
             = (fun r : row => get r "Current Status") <$> l).
  { induction l as [|r l IH]; intros i; [reflexivity|].
    destruct i as [|i]; cbn; f_equal; auto. }
  destruct (decide (col ∈ columns df)); cbn [rows]; rewrite Halter;
    [reflexivity|].
  rewrite <- list_fmap_compose. apply list_fmap_ext. intros i r _. apply Hget.
Qed.

Lemma columns_at_set (df : frame) (idx : nat) (col c : string) (v : cell) :
  c ∈ columns df -> c ∈ columns (at_set df idx col v).
Proof.
  intros H. unfold at_set. destruct (decide (col ∈ columns df)); cbn; auto.
  apply elem_of_app. now left.
Qed.

Lemma convert_statuses (df : frame) (idx : nat) :
  "Current Status" ∈ columns df ->
  "Current Status" ∈ columns (FindMissing.convert df idx) /\
  statuses (FindMissing.convert df idx)
  = <[idx := Str "Held in Gaza"]> (statuses df).
Proof.
  intros Hcol. unfold FindMissing.convert. split.
  - now repeat apply columns_at_set.
  - rewrite !statuses_at_set_other by discriminate.
    now apply statuses_at_set_status.
Qed.

Lemma foldl_convert_statuses (idxs : list nat) (df : frame) :
  "Current Status" ∈ columns df ->
  "Current Status" ∈ columns (foldl FindMissing.convert df idxs) /\
  statuses (foldl FindMissing.convert df idxs)
  = foldl (fun s i => <[i := Str "Held in Gaza"]> s) (statuses df) idxs.
Proof.
  revert df. induction idxs as [|i idxs IH]; intros df Hcol; cbn; [auto|].
  destruct (convert_statuses df i Hcol) as [Hcol' Hs].
  destruct (IH _ Hcol') as [Hcol'' Hs']. split; [assumption|].
  now rewrite Hs', Hs.
Qed.

Lemma held_insert (s : list cell) (i : nat) (c : cell) :
  s !! i = Some c -> status_is c "Held in Gaza" = false ->
  held (<[i := Str "Held in Gaza"]> s) = S (held s).
Proof.
  intros Hi Hc. unfold held.
  rewrite insert_take_drop by (eapply lookup_lt_Some; eauto).
  rewrite <- (take_drop_middle s i c Hi) at 3.
  rewrite !List.filter_app, !length_app. cbn [List.filter].
  rewrite Hc. cbn [status_is cell_eqb]. rewrite String.eqb_refl.
  cbn [length]. lia.
Qed.

Lemma held_foldl_insert (idxs : list nat) (s : list cell) :
  NoDup idxs ->
  (forall i, i ∈ idxs ->
     exists c, s !! i = Some c /\ status_is c "Held in Gaza" = false) ->
  held (foldl (fun s i => <[i := Str "Held in Gaza"]> s) s idxs)
  = held s + length idxs.
Proof.
  revert s. induction idxs as [|i idxs IH]; intros s Hnd Hs;
    cbn [foldl length]; [lia|].
  apply NoDup_cons in Hnd as [Hi Hnd].
  destruct (Hs i) as (c & Hc & Hnh); [left|].
  rewrite IH; [rewrite (held_insert s i c Hc Hnh); lia | assumption |].
  intros j Hj. destruct (Hs j) as (c' & Hc' & Hnh'); [now right|].
  exists c'. split; [|assumption].
  rewrite list_lookup_insert_ne; [assumption|]. intros ->. contradiction.
Qed.

(** The index of the candidates: distinct rows, none of them held. *)
Lemma candidate_index (l : list row) (k : nat) :
  let index :=
    fst <$> List.filter (fun ir : nat * row => FindMissing.is_candidate ir.2)
              (imap (fun i r => (k + i, r)) l) in
  NoDup index /\
  forall i, i ∈ index ->
    k <= i /\
    exists r, l !! (i - k) = Some r /\ FindMissing.is_candidate r = true.
Proof.
  revert k. induction l as [|r l IH]; intros k; cbn zeta.
  - split; [constructor | intros i Hi; inversion Hi].
  - rewrite imap_cons. cbn [List.filter snd].
    rewrite (imap_ext _ (fun i r => (S k + i, r))) by (intros; cbn; f_equal; lia).
    destruct (IH (S k)) as [Hnd Hin]. cbn zeta in Hnd, Hin.
    destruct (FindMissing.is_candidate r) eqn:Hr.
    + cbn [fmap list_fmap fst]. split.
      * apply NoDup_cons. split; [|assumption].
        intros Hk. apply Hin in Hk as [Hk _]. lia.
      * intros i Hi. apply elem_of_cons in Hi as [-> | Hi].
        -- split; [lia|]. exists r. rewrite Nat.add_0_r, Nat.sub_diag. auto.
        -- apply Hin in Hi as (Hle & r' & Hr' & Hc). split; [lia|].
           exists r'. split; [|assumption].
           replace (i - k) with (S (i - S k)) by lia. exact Hr'.
    + split; [assumption|]. intros i Hi.
      apply Hin in Hi as (Hle & r' & Hr' & Hc). split; [lia|].
      exists r'. split; [|assumption].
      replace (i - k) with (S (i - S k)) by lia. exact Hr'.
Qed.

Lemma is_candidate_not_held (r : row) :
  FindMissing.is_candidate r = true ->
  status_is (get r "Current Status") "Held in Gaza" = false.
Proof.
  unfold FindMissing.is_candidate. intros H.
  apply andb_true_iff in H as [H _]. apply orb_true_iff in H.
  destruct H as [H | H]; apply status_is_eq in H; rewrite H; reflexivity.
Qed.

Lemma candidates_Ok (df : frame) (index : list nat) :
  FindMissing.candidates df = Ok index ->
  NoDup index /\
  forall i, i ∈ index ->
    exists c, statuses df !! i = Some c /\
              status_is c "Held in Gaza" = false.
Proof.
  unfold FindMissing.candidates, iterrows.
  destruct (decide (_ ∈ columns df)); [|discriminate].
  destruct (decide (_ ∈ columns df)); [|discriminate].
  intros [= <-].
  destruct (candidate_index (rows df) 0) as [Hnd Hin]. cbn zeta in Hnd, Hin.
  cbn [Nat.add] in Hnd, Hin. split; [exact Hnd|].
  intros i Hi. apply Hin in Hi as (_ & r & Hr & Hc).
  rewrite Nat.sub_0_r in Hr. exists (get r "Current Status").
  split; [|now apply is_candidate_not_held].
  unfold statuses. now rewrite list_lookup_fmap, Hr.
Qed.

(** C9, as the code has it.  With [n] rows held, nothing is changed when
    [n] is 47 or more; otherwise the first [min (47 - n) c] of the [c]
    candidates, in row order, are converted, and the held count after the
    conversion is [n + min (47 - n) c]: it is 47 exactly when there are at
    least [47 - n] candidates. *)
Theorem force_held_count_reaches (df df' : frame) :
  FindMissing.force_held_count df = Ok df' ->
  exists n,
    FindMissing.held_count df = Ok n /\
    ((47 <= n /\ df' = df) \/
     (n < 47 /\
      exists index,
        FindMissing.candidates df = Ok index /\
        df' = foldl FindMissing.convert df
                (take (Nat.min (47 - n) (length index)) index) /\
        FindMissing.held_count df'
        = Ok (n + Nat.min (47 - n) (length index)) /\
        (FindMissing.held_count df' = Ok 47 <-> 47 - n <= length index))).
Proof.
  unfold FindMissing.force_held_count.
  destruct (FindMissing.held_count df) as [n| |] eqn:Hn;
    cbn [mbind result_bind]; try discriminate.
  destruct (held_count_Ok df n Hn) as [Hcol Hheld].
  destruct (Nat.ltb_spec n 47) as [Hlt | Hge].
  - destruct (FindMissing.candidates df) as [index| |] eqn:Hc;
      cbn [mbind result_bind]; try discriminate.
    intros [= <-]. exists n. split; [reflexivity|]. right.
    split; [assumption|]. exists index. split; [reflexivity|].
    split; [reflexivity|].
    destruct (candidates_Ok df index Hc) as [Hnd Hcand].
    set (k := Nat.min (47 - n) (length index)).
    destruct (foldl_convert_statuses (take k index) df Hcol) as [Hcol' Hs].
    assert (Hcount : FindMissing.held_count
                       (foldl FindMissing.convert df (take k index))
                     = Ok (n + k)).
    { rewrite (held_count_statuses _ Hcol'), Hs. f_equal.
      rewrite held_foldl_insert.
      - rewrite length_take. subst k. lia.
      - eapply sublist_NoDup; [exact Hnd | apply sublist_take].
      - intros i Hi. apply Hcand. eapply subseteq_take; eauto. }
    split; [exact Hcount|]. rewrite Hcount. subst k. split.
    + intros [= H]. lia.
    + intros H. f_equal. lia.
  - intros [= <-]. exists n. split; [reflexivity|]. left. auto.
Qed.

Lemma force_held_count_reaches_witness :
  exists df' n,
    FindMissing.force_held_count Examples.unknown_one = Ok df' /\
    FindMissing.held_count Examples.unknown_one = Ok n /\
    (47 <= n \/ n < 47).
Proof.
  assert (Hrun : exists df',
             FindMissing.force_held_count Examples.unknown_one = Ok df')
    by (eexists; vm_compute; reflexivity).
  destruct Hrun as [df' Hrun].
  destruct (force_held_count_reaches Examples.unknown_one df' Hrun)
    as (n & Hn & [[Hge _] | [Hlt _]]);
    exists df', n; (split; [exact Hrun|]); (split; [exact Hn|]); auto.
Defined.

(** C9 as stated fails: with fewer candidates than are missing the held
    count stays short of 47.  Here nobody is held and nobody is a
    candidate, and the count after the conversion is 0. *)
Lemma held_count_short_of_target :
  exists df',
    FindMissing.force_held_count Examples.deceased_one = Ok df' /\
    FindMissing.held_count Examples.deceased_one = Ok 0 /\
    FindMissing.held_count df' = Ok 0.
Proof. eexists. repeat split; vm_compute; reflexivity. Qed.

(** ** complete_hebrew_mapping.py *)

Example ratio_tamar :
  HebrewMapping.similarity "Tamar N" "Tamar Cohen" = (14 # 18)%Q /\
  HebrewMapping.similarity "Tamar N" "Tamar Aloni" = (14 # 18)%Q /\
  HebrewMapping.similarity "Tamar Cohen" "Tamar Aloni" = (16 # 22)%Q /\
  HebrewMapping.similarity "abxcd" "abcd" = (8 # 9)%Q /\
  HebrewMapping.find_best_hebrew_match "Tamar N" = Some "תמר כהן" /\
  HebrewMapping.find_best_hebrew_match "Tamar Cohen" = Some "תמר כהן" /\
  HebrewMapping.find_best_hebrew_match "John Smith" = None.
Proof. repeat split; vm_compute; reflexivity. Qed.

Section MatcherProps.

Import HebrewMapping.

Variable score_of : string -> string -> Q.
Variable english_name : string.

Local Abbreviation sim := (score_of english_name).

Lemma Qgtb_lt (x y : Q) : Qgtb x y = true <-> (y < x)%Q.
Proof.
  unfold Qgtb. rewrite negb_true_iff. split.
  - intros H. apply Qnot_le_lt. intros Hle.
    apply Qle_bool_iff in Hle. congruence.
  - intros H. destruct (Qle_bool x y) eqn:E; [|reflexivity].
    apply Qle_bool_iff in E. lra.
Qed.

(** The two loops keep the first pair that scores highest, provided it
    scores above the threshold and above the score they started with. *)
Lemma fold_step_spec (ps : list (string * string)) (bm : option string)
    (bs : Q) :
  let final := fold_left (step score_of english_name) ps (bm, bs) in
  (final = (bm, bs) /\
   forall p, In p ps -> ~ ((bs < sim (snd p))%Q /\ (threshold < sim (snd p))%Q))
  \/
  (exists pre h v post,
      ps = (pre ++ (h, v) :: post)%list /\
      final = (Some h, sim v) /\
      (bs < sim v)%Q /\ (threshold < sim v)%Q /\
      (forall p, In p pre -> (sim (snd p) < sim v)%Q) /\
      (forall p, In p post -> (sim (snd p) <= sim v)%Q)).
Proof.
  revert bm bs. induction ps as [|[h0 v0] ps IH]; intros bm bs; cbn zeta.
  - left. split; [reflexivity | intros p []].
  - cbn [fold_left].
    assert (Hstep : step score_of english_name (bm, bs) (h0, v0)
                    = if Qgtb (sim v0) bs && Qgtb (sim v0) threshold
                      then (Some h0, sim v0) else (bm, bs)) by reflexivity.
    rewrite Hstep. clear Hstep.
    destruct (Qgtb (sim v0) bs && Qgtb (sim v0) threshold) eqn:E.
    + apply andb_true_iff in E as [E1 E2]. apply Qgtb_lt in E1, E2.
      destruct (IH (Some h0) (sim v0))
        as [[Hfin Hno] |
            (pre & h & v & post & -> & Hfin & Hlt & Hth & Hpre & Hpost)].
      * right. exists [], h0, v0, ps.
        split; [reflexivity|]. split; [exact Hfin|].
        split; [exact E1|]. split; [exact E2|].
        split; [intros q []|].
        intros q Hq. specialize (Hno q Hq).
        apply Qnot_lt_le. intros Hlt. apply Hno. split; [assumption | lra].
      * right. exists ((h0, v0) :: pre), h, v, post.
        split; [reflexivity|]. split; [exact Hfin|].
        split; [lra|]. split; [exact Hth|]. split; [|exact Hpost].
        intros q [<- | Hq]; [exact Hlt | now apply Hpre].
    + assert (Hp : ~ ((bs < sim v0)%Q /\ (threshold < sim v0)%Q)).
      { intros [H1 H2]. apply Qgtb_lt in H1, H2. rewrite H1, H2 in E.
        discriminate. }
      destruct (IH bm bs)
        as [[Hfin Hno] |
            (pre & h & v & post & -> & Hfin & Hlt & Hth & Hpre & Hpost)].
      * left. split; [exact Hfin|]. intros q [<- | Hq]; [exact Hp | auto].
      * right. exists ((h0, v0) :: pre), h, v, post.
        split; [reflexivity|]. split; [exact Hfin|].
        split; [exact Hlt|]. split; [exact Hth|]. split; [|exact Hpost].
        intros q [<- | Hq]; [|now apply Hpre]. cbn [snd].
        destruct (Qlt_le_dec bs (sim v0)) as [H1 | H1]; [|lra].
        destruct (Qlt_le_dec threshold (sim v0)) as [H2 | H2]; [|lra].
        exfalso. apply Hp. auto.
Qed.

End MatcherProps.

(** C4, as the code has it.  The matcher proposes nothing exactly when no
    variant of the table scores above 0.7 against the name; otherwise it
    proposes the Hebrew name of the first variant, in table order, that
    attains the highest score: earlier variants score strictly less, later
    ones at most as much.  A tie between two Hebrew names is settled for
    the earlier one; nothing is reported. *)
Theorem find_best_hebrew_match_spec (english_name : string) :
  let sim := HebrewMapping.similarity english_name in
  let ps := HebrewMapping.pairs HebrewMapping.comprehensive_mappings in
  (HebrewMapping.find_best_hebrew_match english_name = None <->
   forall p, In p ps -> ~ (HebrewMapping.threshold < sim (snd p))%Q) /\
  (forall h,
      HebrewMapping.find_best_hebrew_match english_name = Some h ->
      exists pre v post,
        ps = (pre ++ (h, v) :: post)%list /\
        (HebrewMapping.threshold < sim v)%Q /\
        (forall p, In p pre -> (sim (snd p) < sim v)%Q) /\
        (forall p, In p post -> (sim (snd p) <= sim v)%Q)).
Proof.
  intros sim ps.
  unfold HebrewMapping.find_best_hebrew_match, HebrewMapping.find_best.
  fold ps.
  destruct (fold_step_spec HebrewMapping.similarity english_name ps None 0%Q)
    as [[Hfin Hno] |
        (pre & h & v & post & Hps & Hfin & Hlt & Hth & Hpre & Hpost)];
    cbn zeta in Hfin; rewrite Hfin.
  - assert (E : HebrewMapping.Qgtb 0 HebrewMapping.threshold = false)
      by reflexivity.
    rewrite E. split.
    + split; [|reflexivity]. intros _ p Hp Hgt. apply (Hno p Hp).
      split; [|exact Hgt]. unfold HebrewMapping.threshold in Hgt.
      fold sim. lra.
    + discriminate.
  - assert (E : HebrewMapping.Qgtb (HebrewMapping.similarity english_name v)
                  HebrewMapping.threshold = true) by now apply Qgtb_lt.
    rewrite E. split.
    + split; [discriminate|]. intros Hall. exfalso.
      apply (Hall (h, v)); [|exact Hth].
      rewrite Hps. apply in_or_app. right. now left.
    + intros h' [= <-]. exists pre, v, post. auto.
Qed.

Lemma find_best_hebrew_match_spec_witness :
  exists pre v post,
    HebrewMapping.pairs HebrewMapping.comprehensive_mappings
    = (pre ++ ("תמר כהן", v) :: post)%list /\
    (HebrewMapping.threshold < HebrewMapping.similarity "Tamar Kohen" v)%Q.
Proof.
  destruct (proj2 (find_best_hebrew_match_spec "Tamar Kohen") "תמר כהן")
    as (pre & v & post & Hps & Hth & _).
  - vm_compute. reflexivity.
  - exists pre, v, post. split; [exact Hps | exact Hth].
Defined.

(** C4 as stated fails: a name that two Hebrew names match equally well,
    both above the threshold, is not left for review; the matcher returns
    the one that comes first in the table. *)
Lemma tie_resolved_by_table_order :
  In ("תמר כהן", ["Tamar Cohen"]) HebrewMapping.comprehensive_mappings /\
  In ("תמר אלוני", ["Tamar Aloni"]) HebrewMapping.comprehensive_mappings /\
  HebrewMapping.similarity "Tamar N" "Tamar Cohen" = (14 # 18)%Q /\
  HebrewMapping.similarity "Tamar N" "Tamar Aloni" = (14 # 18)%Q /\
  (HebrewMapping.threshold < 14 # 18)%Q /\
  HebrewMapping.find_best_hebrew_match "Tamar N" = Some "תמר כהן".
Proof.
  split; [cbn; tauto|]. split; [cbn; tauto|].
  repeat split; vm_compute; reflexivity.
Qed.
